(** * mclib: packet codec, client state machine and fingerprint cascade

    A shallow embedding of the Go sources
      - [packet/outbound.go], [packet/inbound.go], [packet/id.go]
      - [client.go], [address/address.go]
      - [fingerprint/fingerprint.go] (two revisions)
    together with the properties stated about them.

    Conventions.  Go's fixed-width integers are values of [Z] with the
    wrap-around of every conversion written out ([int32], [uint64], ...).
    A Go [byte] is a [Byte.byte]; a Go [string] or [[]byte] on the wire is a
    [list byte].  A function that returns [(T, error)] becomes a computation
    in the monad [M], which threads the mutated receiver explicitly and whose
    results distinguish a returned error from a run-time panic. *)

From Stdlib Require Import ZArith List String Ascii Bool Lia.
From Stdlib Require Strings.Byte.
Import ListNotations.

Local Open Scope Z_scope.

Abbreviation byte := Byte.byte.

(* ================================================================== *)
(** ** Machine integers and bytes *)

Module GoInt.

(** The value of a byte as an unsigned number, [0 <= byte_val b < 256]. *)
Definition byte_val (b : byte) : Z := Z.of_N (Byte.to_N b).

(** Go's conversion [byte(x)]: keep the low eight bits. *)
Definition byte_of_Z (z : Z) : byte :=
  match Byte.of_N (Z.to_N (z mod 256)) with
  | Some b => b
  | None => Byte.x00
  end.

(** Conversion to a signed integer of [w] bits (two's complement). *)
Definition wrap_signed (w : Z) (z : Z) : Z :=
  (z + 2 ^ (w - 1)) mod 2 ^ w - 2 ^ (w - 1).

(** Conversion to an unsigned integer of [w] bits. *)
Definition wrap_unsigned (w : Z) (z : Z) : Z := z mod 2 ^ w.

Definition int16 : Z -> Z := wrap_signed 16.
Definition int32 : Z -> Z := wrap_signed 32.
Definition int64 : Z -> Z := wrap_signed 64.
Definition uint16 : Z -> Z := wrap_unsigned 16.
Definition uint32 : Z -> Z := wrap_unsigned 32.
Definition uint64 : Z -> Z := wrap_unsigned 64.

Definition is_int32 (z : Z) : Prop := - 2 ^ 31 <= z < 2 ^ 31.
Definition is_int64 (z : Z) : Prop := - 2 ^ 63 <= z < 2 ^ 63.

(** [len(x)] as a Go [int]. *)
Definition len {A : Type} (l : list A) : Z := Z.of_nat (List.length l).

(** [binary.BigEndian.PutUintN]: the [n] low bytes of [z], most
    significant first. *)
Fixpoint big_endian_put (n : nat) (z : Z) : list byte :=
  match n with
  | O => []
  | S n' => big_endian_put n' (Z.shiftr z 8) ++ [byte_of_Z z]
  end.

(** [binary.BigEndian.UintN]: the unsigned value of a byte string. *)
Definition big_endian_get (bs : list byte) : Z :=
  fold_left (fun acc b => Z.lor (Z.shiftl acc 8) (byte_val b)) bs 0.

End GoInt.
Export GoInt.

(* ================================================================== *)
(** ** Errors, results and the state-and-error monad *)

(** Go [error] values.  [Msg], [MsgZ], [MsgZZ] and [MsgS] are
    [errors.New]/[fmt.Errorf] with no argument, with one or two [%d]
    arguments and with a [%s] argument; [Wrap ctx e] is
    [fmt.Errorf(ctx + ": %w", e)].  The remaining constructors are the
    sentinel errors of [io], [encoding/binary] and of the fingerprint
    package. *)
Inductive error : Type :=
| EOF
| ErrUnexpectedEOF
| ErrOverflow
| ConnectionThrottled
| Msg (s : string)
| MsgZ (s : string) (n : Z)
| MsgZZ (s : string) (n m : Z)
| MsgS (s : string) (a : string)
| Wrap (ctx : string) (e : error).

(** The outcome of a call: a value, a returned error, or a run-time panic
    (which Go does not return to the caller). *)
Inductive result (A : Type) : Type :=
| Ok (a : A)
| Err (e : error)
| Panic (why : string).
Arguments Ok {A} a.
Arguments Err {A} e.
Arguments Panic {A} why.

Definition is_panic {A : Type} (r : result A) : bool :=
  match r with Panic _ => true | _ => false end.

Definition is_ok {A : Type} (r : result A) : bool :=
  match r with Ok _ => true | _ => false end.

Module StateErr.

(** A computation over a mutable receiver of type [S]. *)
Definition M (S A : Type) : Type := S -> result A * S.

Definition ret {S A : Type} (a : A) : M S A := fun s => (Ok a, s).

Definition fail {S A : Type} (e : error) : M S A := fun s => (Err e, s).

Definition panic {S A : Type} (why : string) : M S A :=
  fun s => (Panic why, s).

Definition bind {S A B : Type} (m : M S A) (f : A -> M S B) : M S B :=
  fun s =>
    match m s with
    | (Ok a, s') => f a s'
    | (Err e, s') => (Err e, s')
    | (Panic p, s') => (Panic p, s')
    end.

(** [if err != nil { return fmt.Errorf(ctx + ": %w", err) }]. *)
Definition wrapping {S A : Type} (ctx : string) (m : M S A) : M S A :=
  fun s =>
    match m s with
    | (Err e, s') => (Err (Wrap ctx e), s')
    | other => other
    end.

Definition get {S : Type} : M S S := fun s => (Ok s, s).
Definition put {S : Type} (s : S) : M S unit := fun _ => (Ok tt, s).
Definition modify {S : Type} (f : S -> S) : M S unit :=
  fun s => (Ok tt, f s).

(** Run a computation on a component of the state. *)
Definition zoom {S T A : Type} (proj : S -> T) (upd : T -> S -> S)
    (m : M T A) : M S A :=
  fun s => let '(r, t') := m (proj s) in (r, upd t' s).

(** Lift a pure result. *)
Definition lift {S A : Type} (r : result A) : M S A := fun s => (r, s).

End StateErr.
Export StateErr.

Declare Scope go_scope.
Delimit Scope go_scope with go.
Notation "x <- m ;; k" := (bind m (fun x => k))
  (at level 61, m at next level, right associativity) : go_scope.
Notation "m ;;; k" := (bind m (fun _ => k))
  (at level 61, right associativity) : go_scope.
Local Open Scope go_scope.

(* ================================================================== *)
(** ** Go's [encoding/binary] varints and [io] readers *)

Module Binary.

Definition MaxVarintLen32 : nat := 5.
Definition MaxVarintLen64 : nat := 10.

(** [binary.PutUvarint(buf, x)] on a buffer with [room] bytes left, for an
    [x] already converted to [uint64]:
<<
    i := 0
    for x >= 0x80 { buf[i] = byte(x) | 0x80; x >>= 7; i++ }
    buf[i] = byte(x)
    return i + 1
>>
    The result is [buf[:size]].  Writing past the end of the buffer is an
    index-out-of-range panic, the [None] of this function. *)
Fixpoint PutUvarint (room : nat) (x : Z) : option (list byte) :=
  match room with
  | O => None
  | S room' =>
      if 0x80 <=? x
      then option_map (cons (byte_of_Z (Z.lor (byte_val (byte_of_Z x)) 0x80)))
                      (PutUvarint room' (Z.shiftr x 7))
      else Some [byte_of_Z x]
  end.

(** A buffered reader over a byte slice
    ([bufio.NewReader(bytes.NewReader(body))]): the bytes not yet read. *)
Definition Reader : Type := list byte.

(** [binary.ReadUvarint(r)]:
<<
    var x uint64; var s uint
    for i := 0; i < MaxVarintLen64; i++ {
      b, err := r.ReadByte()
      if err != nil {
        if i > 0 && err == io.EOF { err = io.ErrUnexpectedEOF }
        return x, err }
      if b < 0x80 {
        if i == MaxVarintLen64-1 && b > 1 { return x, errOverflow }
        return x | uint64(b)<<s, nil }
      x |= uint64(b&0x7f) << s
      s += 7 }
    return x, errOverflow
>>
    [left] counts the iterations that remain, [i] the ones done. *)
Fixpoint ReadUvarint_loop (left : nat) (i x s : Z) (r : Reader)
  : result Z * Reader :=
  match left with
  | O => (Err ErrOverflow, r)
  | S left' =>
      match r with
      | [] => (Err (if 0 <? i then ErrUnexpectedEOF else EOF), [])
      | b :: r' =>
          if byte_val b <? 0x80 then
            if (i =? Z.of_nat MaxVarintLen64 - 1) && (1 <? byte_val b)
            then (Err ErrOverflow, r')
            else (Ok (Z.lor x (uint64 (Z.shiftl (byte_val b) s))), r')
          else
            ReadUvarint_loop left' (i + 1)
              (Z.lor x (uint64 (Z.shiftl (Z.land (byte_val b) 0x7f) s)))
              (s + 7) r'
      end
  end.

Definition ReadUvarint : M Reader Z :=
  ReadUvarint_loop MaxVarintLen64 0 0 0.

(** [io.ReadFull(r, buf)] with [len(buf) = n >= 0] on a stream that ends
    with the error [at_end]: all [n] bytes or an error; nothing is read
    for [n = 0]; a stream that ends with [io.EOF] after some but not all
    bytes gives [io.ErrUnexpectedEOF]. *)
Definition ReadFull (at_end : error) (n : nat) : M (list byte) (list byte) :=
  fun r =>
    if (n <=? List.length r)%nat then (Ok (firstn n r), skipn n r)
    else
      (Err (match r, at_end with
            | _ :: _, EOF => ErrUnexpectedEOF
            | _, e => e
            end), []).

End Binary.

(* ================================================================== *)
(** ** Network connections ([net.Conn]) *)

Module Net.

(** One side of a TCP connection as the client sees it: the bytes the peer
    sends before the stream ends, the error with which it ends ([io.EOF]
    when the peer closes, a timeout otherwise), the outcome of arming a
    read deadline, the outcome of the k-th write, and the frames written
    so far, oldest first. *)
Record Conn : Type := mkConn {
  incoming : list byte;
  at_end : error;
  deadline_err : option error;
  write_err : nat -> option error;
  sent : list (list byte)
}.

Definition set_incoming (bs : list byte) (c : Conn) : Conn :=
  mkConn bs (at_end c) (deadline_err c) (write_err c) (sent c).

(** [conn.SetReadDeadline(time.Now().Add(timeout))]. *)
Definition SetReadDeadline (timeout : Z) : M Conn unit :=
  fun c =>
    match deadline_err c with
    | Some e => (Err e, c)
    | None => (Ok tt, c)
    end.

(** The connection after one more frame has been written. *)
Definition after_write (frame : list byte) (c : Conn) : Conn :=
  mkConn (incoming c) (at_end c) (deadline_err c) (write_err c)
         (sent c ++ [frame]).

(** [conn.Write(packet)]. *)
Definition ConnWrite (packet : list byte) : M Conn unit :=
  fun c =>
    match write_err c (List.length (sent c)) with
    | Some e => (Err e, c)
    | None => (Ok tt, after_write packet c)
    end.

(** [io.ReadFull(conn, buf)]. *)
Definition ConnReadFull (n : nat) : M Conn (list byte) :=
  fun c =>
    let '(r, rest) := Binary.ReadFull (at_end c) n (incoming c) in
    (r, set_incoming rest c).

End Net.
Export Net.

(* ================================================================== *)
(** ** Package [packet] *)

Module Packet.

(** [packet/outbound.go], constants. *)
Definition MaxPacketLength : Z := 2097151.
Definition MaxStringLength : Z := 32767.

(** [packet/id.go]. *)
Definition HandshakeID : Z := 0.
Definition StatusID : Z := 0.
Definition PingID : Z := 1.
Definition PongID : Z := 1.
Definition DisconnectID : Z := 27.
Definition LegacyDisconnectID : Z := 26.
Definition LoginStartID : Z := 0.
Definition LoginDisconnectID : Z := 0.
Definition LoginEncryptionID : Z := 1.
Definition LoginSuccessID : Z := 2.
Definition LoginCompressionID : Z := 3.
Definition LoginPluginID : Z := 4.

(** *** Outbound packets *)

Record OutboundPacket : Type := mkOutbound {
  out_id : Z;            (* int32 *)
  out_body : list byte
}.

Definition NewOutboundPacket (id : Z) : OutboundPacket := mkOutbound id [].

Definition WriteBytes (b : list byte) : M OutboundPacket unit :=
  modify (fun p => mkOutbound (out_id p) (out_body p ++ b)).

Definition WriteByte (b : byte) : M OutboundPacket unit :=
  modify (fun p => mkOutbound (out_id p) (out_body p ++ [b])).

Definition WriteInt (n : Z) : M OutboundPacket unit :=
  WriteBytes (big_endian_put 4 (uint32 n)).

Definition WriteShort (n : Z) : M OutboundPacket unit :=
  WriteBytes (big_endian_put 2 (uint16 n)).

Definition WriteLong (n : Z) : M OutboundPacket unit :=
  WriteBytes (big_endian_put 8 (uint64 n)).

(** [buf := make([]byte, cap); size := binary.PutUvarint(buf, uint64(n));
    buf[:size]], shared by [WriteVarInt], [WriteVarLong] and
    [encodeVarInt]. *)
Definition put_uvarint (cap : nat) (n : Z) : result (list byte) :=
  match Binary.PutUvarint cap (uint64 n) with
  | Some bs => Ok bs
  | None => Panic "index out of range"
  end.

Definition WriteVarInt (n : Z) : M OutboundPacket unit :=
  buf <- lift (put_uvarint Binary.MaxVarintLen32 n) ;;
  WriteBytes buf.

Definition WriteVarLong (n : Z) : M OutboundPacket unit :=
  buf <- lift (put_uvarint Binary.MaxVarintLen64 n) ;;
  WriteBytes buf.

Definition WriteBool (value : bool) : M OutboundPacket unit :=
  if value then WriteByte Byte.x01 else WriteByte Byte.x00.

Definition WriteString (str : list byte) : M OutboundPacket unit :=
  let length := len str in
  if length >? MaxStringLength
  then fail (MsgZ "string is longer than %d" MaxStringLength)
  else
    WriteVarInt (int32 length) ;;;
    WriteBytes str.

Definition encodeVarInt (value : Z) : result (list byte) :=
  put_uvarint Binary.MaxVarintLen32 value.

Definition Size : M OutboundPacket Z :=
  p <- get ;;
  a <- lift (encodeVarInt (out_id p)) ;;
  b <- lift (encodeVarInt (int32 (len (out_body p)))) ;;
  ret (len a + len b + len (out_body p)).

Definition Build : M OutboundPacket (list byte) :=
  p <- get ;;
  idb <- lift (encodeVarInt (out_id p)) ;;
  let packet := idb ++ out_body p in
  let length := len packet in
  if length >? MaxPacketLength
  then fail (MsgZZ "packet exceeds max packet length of %d by %d bytes"
                   MaxPacketLength (length - MaxPacketLength))
  else
    lb <- lift (encodeVarInt (int32 length)) ;;
    ret (lb ++ packet).

(** [p.Write(conn)]: the receiver is only read. *)
Definition Write (p : OutboundPacket) : M Conn unit :=
  packet <- lift (fst (Build p)) ;;
  wrapping "failed to write packet" (ConnWrite packet).

(** *** Inbound packets *)

Record InboundPacket : Type := mkInbound {
  in_id : Z;                 (* int32 *)
  reader : Binary.Reader
}.

Definition on_reader {A : Type} (m : M Binary.Reader A)
  : M InboundPacket A :=
  zoom reader (fun r p => mkInbound (in_id p) r) m.

(** [readVarInt(conn)]: one byte per iteration from the connection.
<<
    for {
      _, err := conn.Read(buf)
      if err != nil { return 0, fmt.Errorf("failed to read varint: %w", err) }
      byteValue := buf[0]
      num |= int32(byteValue&0x7F) << shift
      if (byteValue & 0x80) == 0 { break }
      shift += 7
      if shift >= 32 { return 0, fmt.Errorf("varint is too long") }
    }
    return num, nil
>> *)
Fixpoint readVarInt_loop (at_end : error) (num shift : Z)
    (stream : list byte) : result Z * list byte :=
  match stream with
  | [] => (Err (Wrap "failed to read varint" at_end), [])
  | byteValue :: stream' =>
      let num' :=
        Z.lor num (int32 (Z.shiftl (Z.land (byte_val byteValue) 0x7F) shift)) in
      if Z.land (byte_val byteValue) 0x80 =? 0 then (Ok num', stream')
      else
        let shift' := shift + 7 in
        if shift' >=? 32 then (Err (Msg "varint is too long"), stream')
        else readVarInt_loop at_end num' shift' stream'
  end.

Definition readVarInt : M Conn Z :=
  fun c =>
    let '(r, rest) := readVarInt_loop (at_end c) 0 0 (incoming c) in
    (r, set_incoming rest c).

Definition ReadVarInt : M InboundPacket Z :=
  n <- on_reader Binary.ReadUvarint ;;
  ret (int32 n).

Definition ReadVarLong : M InboundPacket Z :=
  n <- ReadVarInt ;;
  ret (int64 n).

(** The largest slice of bytes that [make] accepts on a 64-bit platform
    (the runtime's [maxAlloc], [1 << 48]); above it [make] panics.  Below
    it the allocation is taken to succeed: whether the machine has the
    memory is not part of the model, and the properties bound the lengths
    they speak about. *)
Definition maxAlloc : Z := 2 ^ 48.

(** [readBytes(reader, length)]: after the check of the sign the buffer
    is allocated ([data := make([]byte, length)]); the loop then calls
    [reader.Read] until [length] bytes have arrived; on a reader over a
    byte slice every call returns what is left, and the call after the
    last byte fails with [io.EOF]. *)
Definition readBytes (length : Z) : M Binary.Reader (list byte) :=
  fun r =>
    if length <? 0
    then (Err (MsgZ "read length cannot be negative: %d" length), r)
    else if length >? maxAlloc
    then (Panic "makeslice: len out of range", r)
    else if length <=? len r
    then (Ok (firstn (Z.to_nat length) r), skipn (Z.to_nat length) r)
    else (Err (Wrap "failed to read packet segment" EOF), []).

Definition ReadBytes (length : Z) : M InboundPacket (list byte) :=
  wrapping "failed to read bytes" (on_reader (readBytes length)).

Definition ReadByte : M InboundPacket byte :=
  buf <- wrapping "failed to read byte" (ReadBytes 1) ;;
  ret (hd Byte.x00 buf).

Definition ReadBool : M InboundPacket bool :=
  value <- wrapping "failed to read bool" ReadByte ;;
  ret (negb (byte_val value =? 0)).

Definition ReadInt : M InboundPacket Z :=
  buf <- wrapping "failed to read int" (on_reader (Binary.ReadFull EOF 4)) ;;
  ret (int32 (big_endian_get buf)).

Definition ReadShort : M InboundPacket Z :=
  buf <- wrapping "failed to read short" (on_reader (Binary.ReadFull EOF 2)) ;;
  ret (int16 (big_endian_get buf)).

Definition ReadLong : M InboundPacket Z :=
  buf <- wrapping "failed to read long" (on_reader (Binary.ReadFull EOF 8)) ;;
  ret (int64 (big_endian_get buf)).

Definition ReadString : M InboundPacket (list byte) :=
  uLength <- wrapping "failed to read string length" ReadVarInt ;;
  let length := uLength in
  if length >? MaxStringLength
  then fail (MsgZ "received string exceeds the max string length: %d" length)
  else
    raw <- wrapping "failed to read string" (ReadBytes length) ;;
    ret raw.

(** [make([]byte, length)]: a negative length is a run-time panic. *)
Definition make_bytes (length : Z) : result nat :=
  if length <? 0 then Panic "makeslice: len out of range"
  else Ok (Z.to_nat length).

Definition NewInboundPacket (timeout : Z) : M Conn InboundPacket :=
  wrapping "failed to set read deadline" (SetReadDeadline timeout) ;;;
  uLength <- wrapping "failed to read packet length" readVarInt ;;
  let length := uLength in
  if length >? MaxPacketLength
  then fail (MsgZ "received packet is too long: %d" length)
  else
    n <- lift (make_bytes length) ;;
    body <- wrapping "failed to receive packet body" (ConnReadFull n) ;;
    match ReadVarInt (mkInbound 0 body) with
    | (Ok packetID, p) => ret (mkInbound (int32 packetID) (reader p))
    | (Err e, _) => fail (Wrap "failed to read packet id" e)
    | (Panic why, _) => panic why
    end.

Definition ID (p : InboundPacket) : Z := in_id p.

(** *** The allocations of [NewInboundPacket]

    [NewInboundPacket] once more, statement by statement, on a connection
    that comes with the log of the body buffers allocated so far: the
    lengths passed to [body := make([]byte, length)], oldest first.  The
    one-byte buffer of [readVarInt] is not a body buffer and is not
    logged. *)
Record Receiving : Type := mkReceiving {
  rc_conn : Conn;
  rc_allocated : list Z
}.

Definition on_rconn {A : Type} (m : M Conn A) : M Receiving A :=
  zoom rc_conn (fun k r => mkReceiving k (rc_allocated r)) m.

(** [make([]byte, length)], logged when it returns. *)
Definition make_logged (length : Z) : M Receiving nat :=
  fun r =>
    match make_bytes length with
    | Ok n => (Ok n, mkReceiving (rc_conn r) (rc_allocated r ++ [length]))
    | Err e => (Err e, r)
    | Panic why => (Panic why, r)
    end.

Definition NewInboundPacket_logged (timeout : Z)
  : M Receiving InboundPacket :=
  wrapping "failed to set read deadline"
    (on_rconn (SetReadDeadline timeout)) ;;;
  uLength <- wrapping "failed to read packet length" (on_rconn readVarInt) ;;
  let length := uLength in
  if length >? MaxPacketLength
  then fail (MsgZ "received packet is too long: %d" length)
  else
    n <- make_logged length ;;
    body <- wrapping "failed to receive packet body"
              (on_rconn (ConnReadFull n)) ;;
    match ReadVarInt (mkInbound 0 body) with
    | (Ok packetID, p) => ret (mkInbound (int32 packetID) (reader p))
    | (Err e, _) => fail (Wrap "failed to read packet id" e)
    | (Panic why, _) => panic why
    end.

End Packet.

(* ================================================================== *)
(** ** Package [address] *)

Module Address.

Definition DefaultPort : Z := 25565.

Record Address : Type := mkAddress {
  host : list byte;
  port : Z;               (* uint16 *)
  srvHost : list byte;
  srvPort : Z;            (* uint16 *)
  srv : bool;
  portSet : bool
}.

(** A record of [net.LookupSRV]. *)
Record SRV : Type := mkSRV { srv_Target : list byte; srv_Port : Z }.

(** The target of [net.DialTimeout]: the two arguments of
    [fmt.Sprintf("%s:%d", host, port)], kept apart. *)
Definition HostPort : Type := (list byte * Z)%type.

(** [strings.CutSuffix(s, ".")], first component. *)
Fixpoint cut_dot_suffix (s : list byte) : list byte :=
  match s with
  | [] => []
  | [b] => if Byte.eqb b Byte.x2e then [] else [b]
  | b :: s' => b :: cut_dot_suffix s'
  end.

Section Resolver.

(** The resolver of the operating system. *)
Variable ParseIP : list byte -> bool.
Variable LookupSRV : list byte -> result (list SRV).

Definition IsIP (a : Address) : bool := ParseIP (host a).

Definition ResolveSRV : M Address unit :=
  fun a =>
    if IsIP a then (Ok tt, a)
    else if portSet a then (Ok tt, a)
    else
      match LookupSRV (host a) with
      | Err e => (Err (Wrap "failed to resolve SRV record" e), a)
      | Panic why => (Panic why, a)
      | Ok [] => (Ok tt, a)
      | Ok (srvRecord :: _) =>
          (Ok tt, mkAddress (host a) (port a)
                            (cut_dot_suffix (srv_Target srvRecord))
                            (srv_Port srvRecord) true (portSet a))
      end.

End Resolver.

Definition SRVAddr (a : Address) : HostPort := (srvHost a, srvPort a).
Definition OGAddr (a : Address) : HostPort := (host a, port a).

Definition String (a : Address) : HostPort :=
  if srv a then SRVAddr a else OGAddr a.

Definition Host (a : Address) : list byte :=
  if srv a then srvHost a else host a.

Definition Port (a : Address) : Z :=
  if srv a then srvPort a else port a.

End Address.

(* ================================================================== *)
(** ** Package [mclib]: the client ([client.go]) *)

Module Client.

Import Packet.

Definition DefaultTimeout : Z := 5000000000.
Definition DefaultProtocol : Z := 47.
Definition StatusState : Z := 1.
Definition LoginState : Z := 2.

(** [ConnState], an [int64] enumerated with [iota]. *)
Inductive ConnState : Type := Idle | Connected | HandshakeComplete.

Definition state_rank (s : ConnState) : Z :=
  match s with Idle => 0 | Connected => 1 | HandshakeComplete => 2 end.

Definition state_lt (a b : ConnState) : bool := state_rank a <? state_rank b.
Definition state_gt (a b : ConnState) : bool := state_rank a >? state_rank b.

Record Client : Type := mkClient {
  addr : Address.Address;
  timeout : Z;
  srv : bool;
  protocol : Z;            (* int32 *)
  state : ConnState;
  conn : option Conn       (* [None] is the nil interface *)
}.

Definition set_state (s : ConnState) (c : Client) : Client :=
  mkClient (addr c) (timeout c) (srv c) (protocol c) s (conn c).

Definition set_conn (k : option Conn) (c : Client) : Client :=
  mkClient (addr c) (timeout c) (srv c) (protocol c) (state c) k.

Definition set_addr (a : Address.Address) (c : Client) : Client :=
  mkClient a (timeout c) (srv c) (protocol c) (state c) (conn c).

(** A call on [c.conn]; a method call on the nil interface panics. *)
Definition on_conn {A : Type} (m : M Conn A) : M Client A :=
  fun c =>
    match conn c with
    | None => (Panic "nil pointer dereference", c)
    | Some k => let '(r, k') := m k in (r, set_conn (Some k') c)
    end.

(** The packet a sequence of writes builds from an empty packet. *)
Definition assemble (id : Z) (writes : M OutboundPacket unit)
  : result OutboundPacket :=
  match writes (NewOutboundPacket id) with
  | (Ok _, p) => Ok p
  | (Err e, _) => Err e
  | (Panic why, _) => Panic why
  end.

(** Wall-clock readings: [Unix()] in seconds, and the monotonic reading
    that [time.Since] subtracts, in nanoseconds. *)
Record Time : Type := mkTime { Unix : Z; mono : Z }.

(** [time.Since(t)] when the clock reads [now]: a [Duration] in
    nanoseconds, saturating at the bounds of [int64]. *)
Definition Since (t now : Time) : Z :=
  Z.max (- 2 ^ 63) (Z.min (2 ^ 63 - 1) (mono now - mono t)).

(** [Duration.Milliseconds()]. *)
Definition Milliseconds (d : Z) : Z := Z.quot d 1000000.

(** The frame of a ping or of a pong that carry [timestamp]: the length 9,
    the identifier 1 and the eight bytes of the [int64]. *)
Definition ping_frame (timestamp : Z) : list byte :=
  [Byte.x09; Byte.x01] ++ big_endian_put 8 (uint64 timestamp).

Section Environment.

Variable ParseIP : list byte -> bool.
Variable LookupSRV : list byte -> result (list Address.SRV).
(** [net.DialTimeout("tcp", address, timeout)]. *)
Variable DialTimeout : Address.HostPort -> Z -> result Conn.
(** The decoded status document and [slp.NewResponse]. *)
Variable Response : Type.
Variable NewResponse : list byte -> result Response.

(** [if c.srv { _ = c.addr.ResolveSRV() }]: the address is updated in
    place and the error is dropped. *)
Definition resolved (c : Client) : Client :=
  if srv c
  then set_addr (snd (Address.ResolveSRV ParseIP LookupSRV (addr c))) c
  else c.

Definition connect : M Client unit :=
  fun c =>
    if state_gt (state c) Idle
    then (Err (Msg "client is already connected"), c)
    else
      let c := resolved c in
      match DialTimeout (Address.String (addr c)) (timeout c) with
      | Err e => (Err (Wrap "failed to connect" e), c)
      | Panic why => (Panic why, c)
      | Ok k => (Ok tt, set_state Connected (set_conn (Some k) c))
      end.

(** The handshake packet of [sendHandshake]. *)
Definition handshakePacket (c : Client) (next : Z)
  : result OutboundPacket :=
  assemble HandshakeID
    (WriteVarInt (protocol c) ;;;
     wrapping "failed to write host" (WriteString (Address.Host (addr c))) ;;;
     WriteShort (int16 (Address.Port (addr c))) ;;;
     WriteVarInt next).

Definition sendHandshake (next : Z) : M Client unit :=
  c <- get ;;
  handshake <- lift (handshakePacket c next) ;;
  wrapping "failed to send handshake" (on_conn (Write handshake)) ;;;
  modify (set_state HandshakeComplete).

Definition sendStatusRequest : M Client unit :=
  let statusRequest := NewOutboundPacket StatusID in
  wrapping "failed to send status request" (on_conn (Write statusRequest)).

(** A typed read on a received packet, whose reader the caller owns. *)
Definition reading {A : Type} (p : InboundPacket) (m : M InboundPacket A)
  : M Client A :=
  lift (fst (m p)).

Definition recvStatusResponse : M Client (list byte) :=
  c <- get ;;
  res <- wrapping "failed to read status response"
           (on_conn (NewInboundPacket (timeout c))) ;;
  let id := ID res in
  if (id =? DisconnectID) || (id =? LegacyDisconnectID) then
    msg <- wrapping "failed to read disconnect reason"
             (reading res ReadString) ;;
    fail (MsgS "disconnect packet from server: %s" (string_of_list_byte msg))
  else if negb (id =? StatusID) then
    fail (MsgZ "response packet contains bad packet id: %d" (ID res))
  else
    wrapping "failed to read status response body" (reading res ReadString).

Definition sendPing (timestamp : Z) : M Client unit :=
  ping <- lift (assemble PingID (WriteLong timestamp)) ;;
  wrapping "failed to send ping" (on_conn (Write ping)).

Definition recvPong : M Client Z :=
  c <- get ;;
  pong <- wrapping "failed to read pong"
            (on_conn (NewInboundPacket (timeout c))) ;;
  if negb (ID pong =? PongID) then
    fail (MsgZ "response packet contains bad packet id: %d" (ID pong))
  else
    wrapping "failed to read pong id" (reading pong ReadLong).

Definition connectAndHandshake (next : Z) : M Client unit :=
  (c <- get ;;
   if state_lt (state c) Connected then connect else ret tt) ;;;
  (c <- get ;;
   if state_lt (state c) HandshakeComplete then sendHandshake next
   else ret tt).

Definition Status : M Client Response :=
  connectAndHandshake StatusState ;;;
  sendStatusRequest ;;;
  rawRes <- wrapping "failed to receive status response" recvStatusResponse ;;
  wrapping "failed to parse json response" (lift (NewResponse rawRes)).

(** [Ping] returns a pair [(latency, err)] whose first component is
    meaningful on one of the error paths, so the model returns both:
    [Ok tt] stands for a nil error.  [t0] is the reading of
    [time.Now()] before the ping is sent, [t1] the reading of the clock
    inside [time.Since] after the pong has arrived. *)
Definition Ping (t0 t1 : Time) (c : Client)
  : (Z * result unit) * Client :=
  match connectAndHandshake StatusState c with
  | (Err e, c1) => ((0, Err e), c1)
  | (Panic why, c1) => ((0, Panic why), c1)
  | (Ok _, c1) =>
      let timestamp := t0 in
      match sendPing (Unix timestamp) c1 with
      | (Err e, c2) => ((0, Err e), c2)
      | (Panic why, c2) => ((0, Panic why), c2)
      | (Ok _, c2) =>
          match recvPong c2 with
          | (Err e, c3) =>
              ((0, Err (Wrap "failed to receive pong" e)), c3)
          | (Panic why, c3) => ((0, Panic why), c3)
          | (Ok id, c3) =>
              let latency := Milliseconds (Since timestamp t1) in
              if negb (id =? Unix timestamp)
              then ((latency,
                     Err (Msg "server responded with wrong pong id")), c3)
              else ((latency, Ok tt), set_state Idle c3)
          end
      end
  end.

Definition sendLoginStartCrash (name : list byte) (uuid : list byte)
  : M Client unit :=
  if len name >? 16 then
    fail (MsgZ "player name cannot be longer than 16 characters: length: %d"
               (len name))
  else if negb (len uuid =? 16) then
    fail (MsgZ "player uuid has to be 16 bytes long: length: %d" (len uuid))
  else
    login <- lift (assemble LoginStartID
                     (WriteString name ;;; WriteBytes uuid ;;;
                      WriteByte Byte.x00)) ;;
    on_conn (Write login).

Definition LoginError : M Client (list byte * Z) :=
  connectAndHandshake LoginState ;;;
  sendLoginStartCrash (list_byte_of_string "mclib") (repeat Byte.x00 16) ;;;
  c <- get ;;
  res <- on_conn (NewInboundPacket (timeout c)) ;;
  reason <- reading res ReadString ;;
  ret (reason, ID res).

End Environment.

End Client.

(* ================================================================== *)
(** ** Go's [regexp] and [strings], as far as the sources use them *)

Module Regexp.

Local Open Scope string_scope.

(** The syntax the patterns of the [fingerprint] package use.  A string is
    the sequence of its bytes; the literals and [\d] of the patterns are
    ASCII and match one byte, [.] matches one UTF-8 character as Go's
    rune-wise matching does. *)
Inductive regex : Type :=
| Eps                                   (* the empty pattern *)
| Chr (c : ascii)                       (* a literal character *)
| Dot                                   (* [.], any character but newline *)
| Digit                                 (* [\d] *)
| Cat (r1 r2 : regex)
| Alt (r1 r2 : regex)                   (* [r1|r2], [r1] preferred *)
| Quest (r : regex)                     (* [r?], greedy *)
| Star (r : regex)                      (* [r*], greedy *)
| Plus (r : regex)                      (* [r+], greedy *)
| RepeatLazy (lo hi : nat) (r : regex)  (* [r{lo,hi}?] *)
| Bot                                   (* [^], beginning of the text *)
| Eot.                                  (* [$], end of the text *)

(** A literal string. *)
Fixpoint lit (s : string) : regex :=
  match s with
  | EmptyString => Eps
  | String c EmptyString => Chr c
  | String c s' => Cat (Chr c) (lit s')
  end.

Definition is_digit (c : ascii) : bool :=
  let n := nat_of_ascii c in ((48 <=? n) && (n <=? 57))%nat.

Definition is_newline (c : ascii) : bool := (nat_of_ascii c =? 10)%nat.

(** Continuations receive whether the position is still the beginning of
    the text, and the text that is left. *)
Definition cont : Type := bool -> string -> option string.
Definition matcher : Type := bool -> string -> cont -> option string.

Definition or_else (a : option string) (b : option string) : option string :=
  match a with Some x => Some x | None => b end.

(** Greedy iteration; an iteration has to consume a character. *)
Fixpoint star_loop (step : matcher) (fuel : nat) : matcher :=
  fun bot s k =>
    match fuel with
    | O => k bot s
    | S fuel' =>
        or_else
          (step bot s (fun bot' s' =>
             if (String.length s' <? String.length s)%nat
             then star_loop step fuel' bot' s' k
             else None))
          (k bot s)
    end.

Fixpoint repeat_exact (step : matcher) (n : nat) : matcher :=
  fun bot s k =>
    match n with
    | O => k bot s
    | S n' => step bot s (fun bot' s' => repeat_exact step n' bot' s' k)
    end.

(** Up to [n] further iterations, as few as possible. *)
Fixpoint repeat_lazy (step : matcher) (n : nat) : matcher :=
  fun bot s k =>
    match n with
    | O => k bot s
    | S n' =>
        or_else (k bot s)
                (step bot s (fun bot' s' => repeat_lazy step n' bot' s' k))
    end.

Definition one_char (p : ascii -> bool) : matcher :=
  fun _ s k =>
    match s with
    | String c s' => if p c then k false s' else None
    | EmptyString => None
    end.

Definition byte_between (lo hi : nat) (c : ascii) : bool :=
  let n := nat_of_ascii c in ((lo <=? n) && (n <=? hi))%nat.

(** The width of [utf8.DecodeRuneInString(s)]: the number of bytes of the
    first character of [s].  A byte that starts no valid encoding, or an
    encoding that is cut short, is a character of one byte (the
    replacement character).  The second byte of an encoding has a range
    that depends on the first (no overlong forms, no surrogates, nothing
    above U+10FFFF). *)
Definition rune_width (s : string) : nat :=
  match s with
  | EmptyString => 0
  | String c0 rest =>
      let n0 := nat_of_ascii c0 in
      if (n0 <? 194)%nat then 1                       (* ASCII, or invalid *)
      else if (n0 <? 224)%nat then                    (* C2..DF *)
        match rest with
        | String c1 _ => if byte_between 128 191 c1 then 2 else 1
        | EmptyString => 1
        end
      else if (n0 <? 240)%nat then                    (* E0..EF *)
        match rest with
        | String c1 (String c2 _) =>
            if byte_between (if (n0 =? 224)%nat then 160 else 128)
                            (if (n0 =? 237)%nat then 159 else 191) c1
               && byte_between 128 191 c2
            then 3 else 1
        | _ => 1
        end
      else if (n0 <? 245)%nat then                    (* F0..F4 *)
        match rest with
        | String c1 (String c2 (String c3 _)) =>
            if byte_between (if (n0 =? 240)%nat then 144 else 128)
                            (if (n0 =? 244)%nat then 143 else 191) c1
               && byte_between 128 191 c2 && byte_between 128 191 c3
            then 4 else 1
        | _ => 1
        end
      else 1                                          (* F5..FF *)
  end.

Fixpoint drop (n : nat) (s : string) : string :=
  match n, s with
  | S n', String _ s' => drop n' s'
  | _, _ => s
  end.

(** [.]: one character, of one to four bytes, that is not a newline. *)
Definition any_char : matcher :=
  fun _ s k =>
    match s with
    | String c _ => if is_newline c then None else k false (drop (rune_width s) s)
    | EmptyString => None
    end.

(** Backtracking in the order of preference of the pattern, which finds
    the match that Go's leftmost-first semantics selects at a position. *)
Fixpoint run (r : regex) : matcher :=
  match r with
  | Eps => fun bot s k => k bot s
  | Chr c => one_char (Ascii.eqb c)
  | Dot => any_char
  | Digit => one_char is_digit
  | Cat r1 r2 => fun bot s k => run r1 bot s (fun bot' s' => run r2 bot' s' k)
  | Alt r1 r2 => fun bot s k => or_else (run r1 bot s k) (run r2 bot s k)
  | Quest r1 => fun bot s k => or_else (run r1 bot s k) (k bot s)
  | Star r1 => fun bot s k => star_loop (run r1) (String.length s) bot s k
  | Plus r1 =>
      fun bot s k =>
        run r1 bot s (fun bot' s' =>
          star_loop (run r1) (String.length s') bot' s' k)
  | RepeatLazy lo hi r1 =>
      fun bot s k =>
        repeat_exact (run r1) lo bot s (fun bot' s' =>
          repeat_lazy (run r1) (hi - lo) bot' s' k)
  | Bot => fun bot s k => if bot then k bot s else None
  | Eot => fun bot s k =>
             match s with EmptyString => k bot s | _ => None end
  end.

(** The text left after the match at the current position, if any. *)
Definition match_here (r : regex) (bot : bool) (s : string) : option string :=
  run r bot s (fun _ s' => Some s').

(** The leftmost match: the text before it and the text after it.  The
    search tries every byte position; every pattern of the package starts
    with [^] or with an ASCII literal, which match at no byte inside a
    character, so these are the positions at which Go finds a match. *)
Fixpoint find (r : regex) (bot : bool) (s : string)
  : option (string * string) :=
  match match_here r bot s with
  | Some rest => Some (EmptyString, rest)
  | None =>
      match s with
      | EmptyString => None
      | String c s' =>
          match find r false s' with
          | Some (before, rest) => Some (String c before, rest)
          | None => None
          end
      end
  end.

(** [regexp.MustCompile(r).MatchString(s)]. *)
Definition MatchString (r : regex) (s : string) : bool :=
  match find r true s with Some _ => true | None => false end.

(** [regexp.MustCompile(r).ReplaceAllString(src, "")]: the source without
    its successive leftmost matches.  After an empty match the search
    resumes one character further. *)
Fixpoint delete_all (fuel : nat) (r : regex) (bot : bool) (src : string)
  : string :=
  match fuel with
  | O => src
  | S fuel' =>
      match find r bot src with
      | None => src
      | Some (before, rest) =>
          if (String.length before + String.length rest
              <? String.length src)%nat
          then before ++ delete_all fuel' r false rest
          else
            match rest with
            | EmptyString => before
            | String c rest' =>
                before ++ String c (delete_all fuel' r false rest')
            end
      end
  end.

Definition ReplaceAllString_empty (r : regex) (src : string) : string :=
  delete_all (S (String.length src)) r true src.

(** [strings.HasPrefix(s, prefix)]. *)
Fixpoint HasPrefix (s prefix : string) : bool :=
  match prefix with
  | EmptyString => true
  | String a prefix' =>
      match s with
      | EmptyString => false
      | String b s' => Ascii.eqb a b && HasPrefix s' prefix'
      end
  end.

(** [strings.TrimPrefix(s, prefix)]. *)
Definition TrimPrefix (s prefix : string) : string :=
  if HasPrefix s prefix
  then String.substring (String.length prefix)
                        (String.length s - String.length prefix) s
  else s.

(** [strings.Contains(s, substr)]. *)
Fixpoint Contains (s substr : string) : bool :=
  HasPrefix s substr ||
  match s with
  | EmptyString => false
  | String _ s' => Contains s' substr
  end.

End Regexp.

(* ================================================================== *)
(** ** Package [fingerprint] *)

(** What the two revisions of [fingerprint.go] share. *)
Module FingerprintBase.

Import Regexp.
Local Open Scope string_scope.

Definition Vanilla : string := "vanilla".
Definition CraftBukkit : string := "craftbukkit".
Definition Paper : string := "paper".
Definition Fabric : string := "fabric".
Definition Forge : string := "forge".
Definition Velocity : string := "velocity".
Definition Empty : string := "empty".
Definition Encryption : string := "encryption".
Definition Success : string := "success".
Definition Compression : string := "compression".
Definition Plugin : string := "plugin".
Definition Unknown : string := "unknown".

(** The labels, in the order of their declaration. *)
Definition labels : list string :=
  [Vanilla; CraftBukkit; Paper; Fabric; Forge; Velocity; Empty; Encryption;
   Success; Compression; Plugin; Unknown].

Record DisconnectMsg : Type := mkDisconnectMsg {
  Translate : string;
  With : list string;
  Text : string
}.

(** A returned pair [(label, err)]; [None] is the nil error. *)
Definition verdict : Type := (string * option error)%type.

(** [errors.Is(err, io.EOF)]. *)
Fixpoint errors_Is_EOF (e : error) : bool :=
  match e with
  | EOF => true
  | Wrap _ e' => errors_Is_EOF e'
  | _ => false
  end.

(** The concatenation of a sequence of patterns. *)
Fixpoint seq (rs : list regex) : regex :=
  match rs with
  | [] => Eps
  | [r] => r
  | r :: rs' => Cat r (seq rs')
  end.

(** A string between double quotes, as the Go literals ["\"...\""]. *)
Definition quoted (s : string) : string :=
  String (ascii_of_nat 34) (s ++ String (ascii_of_nat 34) EmptyString).

Definition throttled : string :=
  "Connection throttled! Please wait before reconnecting.".

Definition velocity_text : string :=
  "This server is only compatible with Minecraft 1.13 and above.".

Definition netty_prefix : string :=
  "Internal Exception: io.netty.handler.codec.DecoderException: java.io.IOException: Packet ".

(** [^"Outdated client! Please use \d\.\d+\.\d+"$] *)
Definition versionMismatch : regex :=
  seq [Bot; lit (String (ascii_of_nat 34) "Outdated client! Please use ");
       Digit; lit "."; Plus Digit; lit "."; Plus Digit;
       Chr (ascii_of_nat 34); Eot].

Section Json.

(** [json.Unmarshal([]byte(res), msg)] into a [DisconnectMsg]. *)
Variable Unmarshal : string -> DisconnectMsg + error.

Definition NewDisconnectMsg (res : string) : DisconnectMsg + error :=
  match Unmarshal res with
  | inl msg => inl msg
  | inr err => inr (Wrap "failed to parse disconnect message" err)
  end.

End Json.

End FingerprintBase.

(** [fingerprint/fingerprint.go]. *)
Module Fingerprint.

Import Regexp.
Export FingerprintBase.
Local Open Scope string_scope.

(** [ was larger than I expected, found \d+ bytes extra whilst reading packet \d+$] *)
Definition re : regex :=
  seq [lit " was larger than I expected, found "; Plus Digit;
       lit " bytes extra whilst reading packet "; Plus Digit; Eot].

(** [^login/0 \(.{2,3}?\)$] *)
Definition vanillaRe : regex :=
  seq [Bot; lit "login/0 ("; RepeatLazy 2 3 Dot; lit ")"; Eot].

(** [^\d+/\d+ \(class_\d*\)$] *)
Definition fabricRe : regex :=
  seq [Bot; Plus Digit; lit "/"; Plus Digit; lit " (class_"; Star Digit;
       lit ")"; Eot].

Definition Fingerprint (m : DisconnectMsg) : verdict :=
  if String.eqb (Text m) velocity_text
  then (Velocity, None)
  else if String.eqb (Text m) throttled
  then (Unknown, Some ConnectionThrottled)
  else if String.eqb (Translate m) ""
  then (Unknown, Some (Msg "empty error topic"))
  else if negb (String.eqb (Translate m) "disconnect.genericReason")
          && negb (String.eqb (Translate m) "%s")
  then (Unknown,
        Some (MsgS "server responded with unfamiliar error topic: %s"
                   (Translate m)))
  else
    match With m with
    | [] => (Unknown, Some (Msg "incomplete disconnect message"))
    | with0 :: _ =>
        let msg := TrimPrefix with0 netty_prefix in
        let msg := ReplaceAllString_empty re msg in
        if String.eqb msg "login/0 (PacketLoginInStart)"
        then (CraftBukkit, None)
        else if String.eqb msg "login/0 (ServerboundHelloPacket)"
        then (Forge, None)
        else if MatchString vanillaRe msg then (Vanilla, None)
        else if MatchString fabricRe msg then (Fabric, None)
        else (Unknown, None)
    end.

Definition VersionMismatch (m : DisconnectMsg) : bool * string :=
  if String.eqb (Translate m) "multiplayer.disconnect.incompatible" then
    match With m with
    | [] => (true, "")
    | with0 :: _ => (true, with0)
    end
  else (false, "").

Section Json.

Variable Unmarshal : string -> DisconnectMsg + error.

(** [FingerprintWithProtocol] from the return of [client.LoginError()]
    on: [res], [id] and [err] are its three results. *)
Definition FingerprintWithProtocol (res : string) (id : Z)
    (err : option error) : verdict :=
  match err with
  | Some e =>
      if errors_Is_EOF e then (Empty, None) else (Unknown, Some e)
  | None =>
      if Z.eqb id Packet.LoginDisconnectID then
        if String.eqb res "" then (Empty, None)
        else if String.eqb res (quoted throttled)
        then (Unknown, Some ConnectionThrottled)
        else if MatchString versionMismatch res
        then (Unknown, Some (MsgS "version mismatch: %s" res))
        else if Contains res "Forge" then (Forge, None)
        else
          match NewDisconnectMsg Unmarshal res with
          | inr e => ("", Some e)
          | inl msg =>
              let '(mismatch, version) := VersionMismatch msg in
              if mismatch
              then (Unknown, Some (MsgS "version mismatch: %s" version))
              else Fingerprint msg
          end
      else if Z.eqb id Packet.LoginEncryptionID then (Encryption, None)
      else if Z.eqb id Packet.LoginSuccessID then (Success, None)
      else if Z.eqb id Packet.LoginCompressionID then (Compression, None)
      else if Z.eqb id Packet.LoginPluginID then (Plugin, None)
      else (Unknown, Some (MsgZ "unfamilliar packet id: %d" id))
  end.

End Json.

End Fingerprint.

(** The later revision of [fingerprint.go] ([unnamed/part_002]), the one
    [fingerprint/fingerprint_test.go] is written against. *)
Module FingerprintRev.

Import Regexp.
Export FingerprintBase.
Local Open Scope string_scope.

Definition hello : string := "serverbound/minecraft:hello".

(** [ was larger than I expected, found (?:\d+|(?:login/)?serverbound/minecraft:hello)
     bytes extra whilst reading packet (?:\d+|serverbound/minecraft:hello)$] *)
Definition larger_than_expected : regex :=
  seq [lit " was larger than I expected, found ";
       Alt (Plus Digit) (Cat (Quest (lit "login/")) (lit hello));
       lit " bytes extra whilst reading packet ";
       Alt (Plus Digit) (lit hello); Eot].

(** [^(login|\d+)/(serverbound/minecraft:hello|\d+) ] *)
Definition state_channel : regex :=
  seq [Bot; Alt (lit "login") (Plus Digit); lit "/";
       Alt (lit hello) (Plus Digit); lit " "].

(** [^\(.{2,3}?\)$] *)
Definition vanillaRe : regex :=
  seq [Bot; lit "("; RepeatLazy 2 3 Dot; lit ")"; Eot].

(** [^\(class_\d*\)$] *)
Definition fabricRe : regex :=
  seq [Bot; lit "(class_"; Star Digit; lit ")"; Eot].

Definition determineServerState (id : Z) : verdict :=
  if Z.eqb id Packet.LoginEncryptionID then (Encryption, None)
  else if Z.eqb id Packet.LoginSuccessID then (Success, None)
  else if Z.eqb id Packet.LoginCompressionID then (Compression, None)
  else if Z.eqb id Packet.LoginPluginID then (Plugin, None)
  else (Unknown, Some (MsgZ "unfamiliar packet id: %d" id)).

Definition parseErrorResponse (res : string) : verdict :=
  if String.eqb res "" then (Empty, None)
  else if String.eqb res (quoted throttled)
  then (Unknown, Some ConnectionThrottled)
  else if MatchString versionMismatch res
  then (Unknown, Some (MsgS "version mismatch: %s" res))
  else if Contains res "Forge" then (Forge, None)
  else (Unknown, None).

Definition Fingerprint (m : DisconnectMsg) : verdict :=
  if String.eqb (Text m) velocity_text
  then (Velocity, None)
  else if String.eqb (Text m) throttled
  then (Unknown, Some ConnectionThrottled)
  else if String.eqb (Translate m) ""
  then (Unknown, Some (Msg "empty error topic"))
  else if negb (String.eqb (Translate m) "disconnect.genericReason")
          && negb (String.eqb (Translate m) "%s")
  then (Unknown,
        Some (MsgS "server responded with unfamiliar error topic: %s"
                   (Translate m)))
  else
    match With m with
    | [] => (Unknown, Some (Msg "incomplete disconnect message"))
    | with0 :: _ =>
        let msg := TrimPrefix with0 netty_prefix in
        let msg := ReplaceAllString_empty larger_than_expected msg in
        let msg := ReplaceAllString_empty state_channel msg in
        if String.eqb msg "(PacketLoginInStart)" then (CraftBukkit, None)
        else if String.eqb msg "(ServerboundHelloPacket)" then (Paper, None)
        else if MatchString vanillaRe msg then (Vanilla, None)
        else if MatchString fabricRe msg then (Fabric, None)
        else (Unknown, None)
    end.

Definition VersionMismatch (m : DisconnectMsg) : bool * string :=
  if String.eqb (Translate m) "multiplayer.disconnect.incompatible"
     || String.eqb (Translate m) "multiplayer.disconnect.outdated_client"
  then
    match With m with
    | [] => (true, "")
    | with0 :: _ => (true, with0)
    end
  else (false, "").

Section Json.

Variable Unmarshal : string -> DisconnectMsg + error.

(** [FingerprintWithProtocol] from the return of [client.LoginError()]
    on: [res], [id] and [err] are its three results. *)
Definition FingerprintWithProtocol (res : string) (id : Z)
    (err : option error) : verdict :=
  match err with
  | Some e =>
      if errors_Is_EOF e then (Empty, None) else (Unknown, Some e)
  | None =>
      if negb (Z.eqb id Packet.LoginDisconnectID) then determineServerState id
      else if negb (HasPrefix res "{") then parseErrorResponse res
      else
        match NewDisconnectMsg Unmarshal res with
        | inr e => (Unknown, Some e)
        | inl msg =>
            let '(mismatch, version) := VersionMismatch msg in
            if mismatch
            then (Unknown, Some (MsgS "version mismatch: %s" version))
            else Fingerprint msg
        end
  end.

End Json.

End FingerprintRev.

(** [fingerprint/fingerprint_test.go], the table of
    [TestDisconnectMsg_VersionMismatch]. *)
Module FingerprintTest.

Import FingerprintBase.
Local Open Scope string_scope.

Record mismatch_case : Type := mkCase {
  msg : DisconnectMsg;
  mismatch : bool;
  version : string
}.

Definition incompatible_case : mismatch_case :=
  mkCase (mkDisconnectMsg "multiplayer.disconnect.incompatible" ["1.20.2"] "")
         true "1.20.2".

Definition outdated_client_case : mismatch_case :=
  mkCase (mkDisconnectMsg "multiplayer.disconnect.outdated_client" ["1.20.2"] "")
         true "1.20.2".

Definition generic_reason_case : mismatch_case :=
  mkCase (mkDisconnectMsg "disconnect.genericReason" [] "") false "".

Definition tests : list mismatch_case :=
  [incompatible_case; outdated_client_case; generic_reason_case].

(** The body of the test loop: both comparisons hold. *)
Definition passes (VersionMismatch : DisconnectMsg -> bool * string)
    (test : mismatch_case) : bool :=
  let '(got_mismatch, got_version) := VersionMismatch (msg test) in
  Bool.eqb got_mismatch (mismatch test)
  && String.eqb got_version (version test).

End FingerprintTest.

(** Concrete clients, connections and messages, on which the properties
    below are instantiated. *)
Module Scenario.

Import Client.
Local Open Scope string_scope.

Definition localhost : Address.Address :=
  Address.mkAddress (list_byte_of_string "localhost") Address.DefaultPort
                    [] 0 false false.

(** A peer that accepts every write and sends [bs] before closing. *)
Definition peer (bs : list byte) : Conn :=
  mkConn bs EOF None (fun _ => None) [].

Definition client_in (s : ConnState) (k : option Conn) : Client :=
  mkClient localhost DefaultTimeout false DefaultProtocol s k.

Definition no_ip (_ : list byte) : bool := false.
Definition no_srv (_ : list byte) : result (list Address.SRV) := Ok [].
Definition dial_peer (bs : list byte) (_ : Address.HostPort) (_ : Z)
  : result Conn := Ok (peer bs).

(** The handshake of [client_in] for the status state: protocol 47,
    host, port 25565, next state 1. *)
Definition handshake_body : list byte :=
  [Byte.x2f; Byte.x09] ++ list_byte_of_string "localhost"
    ++ [Byte.x63; Byte.xdd; Byte.x01].

Definition handshake_frame : list byte :=
  [Byte.x0f; Byte.x00] ++ handshake_body.

(** The JSON text of the disconnect message
    [{translate: multiplayer.disconnect.outdated_client, with: [1.20.2]}]. *)
Definition outdated_client_json : string :=
  "{" ++ FingerprintBase.quoted "translate" ++ ":"
      ++ FingerprintBase.quoted "multiplayer.disconnect.outdated_client"
      ++ "," ++ FingerprintBase.quoted "with" ++ ":["
      ++ FingerprintBase.quoted "1.20.2" ++ "]}".

(** A decoder that knows this one text. *)
Definition unmarshal_outdated (res : string)
  : FingerprintBase.DisconnectMsg + error :=
  if String.eqb res outdated_client_json
  then inl (FingerprintTest.msg FingerprintTest.outdated_client_case)
  else inr (Msg "invalid character").

(** The disconnect text of a CraftBukkit server (Spigot 1.20.4). *)
Definition craftbukkit_text : string :=
  "Internal Exception: io.netty.handler.codec.DecoderException: java.io.IOException: Packet login/0 (PacketLoginInStart) was larger than I expected, found 1 bytes extra whilst reading packet 0".

End Scenario.

(* ================================================================== *)
(** ** Package [address]: parsing ([address.New]) *)

Module AddressParse.

Import Address.

(** The byte [':'] and the digits. *)
Definition colon : byte := Byte.x3a.
Definition is_digit (b : byte) : bool :=
  (0x30 <=? byte_val b) && (byte_val b <=? 0x39).

(** [strings.Contains(addr, ":")]. *)
Definition contains_colon (addr : list byte) : bool :=
  existsb (Byte.eqb colon) addr.

(** [strings.Split(addr, ":")]: the pieces between the colons, one more
    than there are colons. *)
Fixpoint split_colon (addr : list byte) : list (list byte) :=
  match addr with
  | [] => [[]]
  | b :: addr' =>
      if Byte.eqb colon b then [] :: split_colon addr'
      else
        match split_colon addr' with
        | piece :: pieces => (b :: piece) :: pieces
        | [] => [[b]]
        end
  end.

(** The value of a string of decimal digits, [None] when it is empty or
    holds another character. *)
Fixpoint digits_value (acc : Z) (ds : list byte) : option Z :=
  match ds with
  | [] => Some acc
  | d :: ds' =>
      if is_digit d then digits_value (acc * 10 + (byte_val d - 0x30)) ds'
      else None
  end.

(** [strconv.Atoi(s)] where [int] has 64 bits: an optional sign and at
    least one decimal digit, with a value in the range of [int64]; every
    other string is an error. *)
Definition Atoi (s : list byte) : option Z :=
  match s with
  | [] => None
  | c :: rest =>
      let neg := Byte.eqb c Byte.x2d in
      let ds := if neg || Byte.eqb c Byte.x2b then rest else s in
      match ds with
      | [] => None
      | _ :: _ =>
          match digits_value 0 ds with
          | None => None
          | Some n =>
              let v := if neg then - n else n in
              if (- 2 ^ 63 <=? v) && (v <? 2 ^ 63) then Some v else None
          end
      end
  end.

Definition New (addr : list byte) : result Address :=
  if negb (contains_colon addr)
  then Ok (mkAddress addr DefaultPort [] 0 false false)
  else
    match split_colon addr with
    | [h; p] =>
        match Atoi p with
        | None => Err (MsgS "invalid port: %s" (string_of_list_byte p))
        | Some port => Ok (mkAddress h (uint16 port) [] 0 false true)
        end
    | _ => Err (MsgS "invalid address: %s" (string_of_list_byte addr))
    end.

End AddressParse.

(* ================================================================== *)
(** ** Package [mclib]: options, [NewClient] and [StatusPing] *)

Module ClientAPI.

Import Client.

(** [ClientOption], a function that updates the client. *)
Definition ClientOption : Type := Client -> Client.

Definition WithTimeout (t : Z) : ClientOption :=
  fun c => mkClient (addr c) t (srv c) (protocol c) (state c) (conn c).

Definition WithProtocolVersion (p : Z) : ClientOption :=
  fun c => mkClient (addr c) (timeout c) (srv c) p (state c) (conn c).

Definition WithoutSRV : ClientOption :=
  fun c => mkClient (addr c) (timeout c) false (protocol c) (state c) (conn c).

Definition WithConnection (k : option Conn) : ClientOption :=
  fun c => mkClient (addr c) (timeout c) (srv c) (protocol c) Connected k.

Definition WithAddress (a : Address.Address) : ClientOption :=
  fun c => mkClient a (timeout c) (srv c) (protocol c) (state c) (conn c).

Definition NewClient (addr : list byte) (opts : list ClientOption)
  : result Client :=
  match AddressParse.New addr with
  | Err e => Err e
  | Panic why => Panic why
  | Ok a =>
      Ok (fold_left (fun client opt => opt client) opts
            (mkClient a DefaultTimeout true DefaultProtocol Idle None))
  end.

Section Environment.

Variable ParseIP : list byte -> bool.
Variable LookupSRV : list byte -> result (list Address.SRV).
Variable DialTimeout : Address.HostPort -> Z -> result Conn.
Variable Response : Type.
Variable NewResponse : list byte -> result Response.
(** The assignment [res.Latency = latency]. *)
Variable SetLatency : Z -> Response -> Response.

(** [StatusPing]; [t0] and [t1] are the two readings of the clock that
    [Ping] takes. *)
Definition StatusPing (t0 t1 : Time) : M Client Response :=
  fun c =>
    match wrapping "failed to get server status"
            (Status ParseIP LookupSRV DialTimeout Response NewResponse) c with
    | (Err e, c1) => (Err e, c1)
    | (Panic why, c1) => (Panic why, c1)
    | (Ok res, c1) =>
        match Ping ParseIP LookupSRV DialTimeout t0 t1 c1 with
        | ((_, Err e), c2) => (Err (Wrap "failed to determine latency" e), c2)
        | ((_, Panic why), c2) => (Panic why, c2)
        | ((latency, Ok _), c2) => (Ok (SetLatency latency res), c2)
        end
    end.

End Environment.

End ClientAPI.

(* ================================================================== *)
(** ** Package [server]: the responder ([server/handler.go]) *)

Module Server.

Import Packet.

Record handshake : Type := mkHandshake {
  hs_protocol : Z;          (* int32 *)
  hs_hostname : list byte;
  hs_port : Z;              (* int16 *)
  hs_nextState : Z          (* int32 *)
}.

(** The handler of one accepted connection.  The remote address and the
    log lines, which no result depends on, are left out. *)
Record Handler : Type := mkHandler {
  h_conn : Conn;
  h_timeout : Z;
  h_handshake : option handshake
}.

Record Player : Type := mkPlayer { Name : list byte; PlayerID : list byte }.

Definition NewHandler (conn : Conn) (timeout : Z) : Handler :=
  mkHandler conn timeout None.

Definition on_hconn {A : Type} (m : M Conn A) : M Handler A :=
  zoom h_conn (fun k h => mkHandler k (h_timeout h) (h_handshake h)) m.

Definition set_handshake (hs : handshake) (h : Handler) : Handler :=
  mkHandler (h_conn h) (h_timeout h) (Some hs).

(** The fields are assigned one after the other, so a failed read leaves
    the ones read before it. *)
Definition handleHandshake : M Handler unit :=
  fun h =>
    match wrapping "failed to receive handshake packet"
            (on_hconn (NewInboundPacket (h_timeout h))) h with
    | (Err e, h1) => (Err e, h1)
    | (Panic why, h1) => (Panic why, h1)
    | (Ok p, h1) =>
        if negb (ID p =? HandshakeID) then
          (Err (MsgZZ "handshake packet id mismatch, expected %d, got %d"
                      HandshakeID (ID p)), h1)
        else
          match ReadVarInt p with
          | (Err e, _) =>
              (Err (Wrap "failed to read client protocol version" e),
               set_handshake (mkHandshake 0 [] 0 0) h1)
          | (Panic why, _) => (Panic why, set_handshake (mkHandshake 0 [] 0 0) h1)
          | (Ok protocol, p1) =>
              match ReadString p1 with
              | (Err e, _) =>
                  (Err (Wrap "failed to read hostname" e),
                   set_handshake (mkHandshake protocol [] 0 0) h1)
              | (Panic why, _) =>
                  (Panic why, set_handshake (mkHandshake protocol [] 0 0) h1)
              | (Ok hostname, p2) =>
                  match ReadShort p2 with
                  | (Err e, _) =>
                      (Err (Wrap "failed to read host port" e),
                       set_handshake (mkHandshake protocol hostname 0 0) h1)
                  | (Panic why, _) =>
                      (Panic why,
                       set_handshake (mkHandshake protocol hostname 0 0) h1)
                  | (Ok port, p3) =>
                      match ReadVarInt p3 with
                      | (Err e, _) =>
                          (Err (Wrap "failed to read next state" e),
                           set_handshake
                             (mkHandshake protocol hostname port 0) h1)
                      | (Panic why, _) =>
                          (Panic why,
                           set_handshake
                             (mkHandshake protocol hostname port 0) h1)
                      | (Ok nextState, _) =>
                          (Ok tt,
                           set_handshake
                             (mkHandshake protocol hostname port nextState) h1)
                      end
                  end
              end
          end
    end.

(** [p.WriteString(msg)] with the error dropped, then the packet. *)
Definition string_packet (id : Z) (msg : list byte) : OutboundPacket :=
  snd (WriteString msg (NewOutboundPacket id)).

Definition sendDisconnect (id : Z) (msg : list byte) : M Handler unit :=
  wrapping "failed to send disconnect packet"
    (on_hconn (Write (string_packet id msg))).

Definition handlePing (ping : InboundPacket) : M Handler unit :=
  fun h =>
    match wrapping "failed to read ping token" ReadLong ping with
    | (Err e, _) => (Err e, h)
    | (Panic why, _) => (Panic why, h)
    | (Ok token, _) =>
        let pong := snd (WriteLong token (NewOutboundPacket PongID)) in
        wrapping "failed to send pong" (on_hconn (Write pong)) h
    end.

Section Document.

(** [json.Marshal(res)] of the fixed status document. *)
Variable status_body : list byte.

Definition sendStatusResponse : M Handler unit :=
  wrapping "failed to send status response"
    (on_hconn (Write (string_packet StatusID status_body))).

(** [handleStatus] calls itself after every status request it has
    answered and drops the error of that call.  [fuel] bounds the depth of
    the recursion; [None] means that it did not suffice. *)
Fixpoint handleStatus (fuel : nat) (h : Handler)
  : option (result unit * Handler) :=
  match fuel with
  | O => None
  | S fuel' =>
      match wrapping "failed to receive status request packet"
              (on_hconn (NewInboundPacket (h_timeout h))) h with
      | (Err e, h1) => Some (Err e, h1)
      | (Panic why, h1) => Some (Panic why, h1)
      | (Ok p, h1) =>
          if ID p =? StatusID then
            match sendStatusResponse h1 with
            | (Err e, h2) => Some (Err e, h2)
            | (Panic why, h2) => Some (Panic why, h2)
            | (Ok _, h2) =>
                match handleStatus fuel' h2 with
                | None => None
                | Some (Panic why, h3) => Some (Panic why, h3)
                | Some (_, h3) => Some (Ok tt, h3)
                end
            end
          else if ID p =? PingID then Some (handlePing p h1)
          else
            (* the two expected identifiers, constants, are written out *)
            Some (Err (MsgZ
                         "status state packet id mismatch, expected 0 or 1, got %d"
                         (ID p)), h1)
      end
  end.

(** The error text of [handleLogin] for the identifier has no colon before
    the wrapped error; [Wrap] stands for it all the same. *)
Definition handleLogin : M Handler Player :=
  fun h =>
    match wrapping "failed to receive login start packet"
            (on_hconn (NewInboundPacket (h_timeout h))) h with
    | (Err e, h1) => (Err e, h1)
    | (Panic why, h1) => (Panic why, h1)
    | (Ok start, h1) =>
        if negb (ID start =? LoginStartID) then
          (Err (MsgZZ "login start packet id mismatch, expected %d, got %d"
                      LoginStartID (ID start)), h1)
        else
          match wrapping "failed to read player name" ReadString start with
          | (Err e, _) => (Err e, h1)
          | (Panic why, _) => (Panic why, h1)
          | (Ok name, start1) =>
              match wrapping "failed to read play id" ReadString start1 with
              | (Err e, _) => (Err e, h1)
              | (Panic why, _) => (Panic why, h1)
              | (Ok id, _) =>
                  match sendDisconnect LoginDisconnectID
                          (list_byte_of_string "login not supported") h1 with
                  | (Err e, h2) => (Err e, h2)
                  | (Panic why, h2) => (Panic why, h2)
                  | (Ok _, h2) => (Ok (mkPlayer name id), h2)
                  end
              end
          end
    end.

Definition Handle (fuel : nat) (h : Handler)
  : option (result unit * Handler) :=
  match handleHandshake h with
  | (Err e, h1) => Some (Err e, h1)
  | (Panic why, h1) => Some (Panic why, h1)
  | (Ok _, h1) =>
      match h_handshake h1 with
      | None => Some (Panic "nil pointer dereference", h1)
      | Some hs =>
          if hs_nextState hs =? Client.StatusState then handleStatus fuel h1
          else if hs_nextState hs =? Client.LoginState then
            match handleLogin h1 with
            | (Err e, h2) => Some (Err e, h2)
            | (Panic why, h2) => Some (Panic why, h2)
            | (Ok _, h2) => Some (Ok tt, h2)
            end
          else Some (Ok tt, h1)
      end
  end.

End Document.

End Server.

(* ================================================================== *)
(** ** Frames on the wire *)

(** The byte sequences of the frames that the properties below name. *)
Module Wire.

(** The frame of the login probe for a name of at most 16 bytes: the
    length, the identifier 0, the name with its length, the identifier of
    the player and one byte more. *)
Definition login_frame_of (name uuid : list byte) : list byte :=
  [byte_of_Z (len name + 19); Byte.x00; byte_of_Z (len name)]
    ++ name ++ uuid ++ [Byte.x00].

(** The frame of the disconnect with which the responder refuses a
    login: the length 21, the identifier 0 and the message of 19 bytes. *)
Definition login_refused : list byte :=
  [Byte.x15; Byte.x00; Byte.x13] ++ list_byte_of_string "login not supported".

(** The status request: the length 1 and the identifier 0. *)
Definition status_request : list byte := [Byte.x01; Byte.x00].

(** A short status document and the frame of its status response. *)
Definition small_status : list byte := list_byte_of_string "{}".

Definition small_status_frame : list byte :=
  [Byte.x04; Byte.x00; Byte.x02] ++ small_status.

(** A responder for a peer that sends [bs] and then closes. *)
Definition responder (bs : list byte) : Server.Handler :=
  Server.NewHandler (Scenario.peer bs) 15.

End Wire.

(* ================================================================== *)
(** ** Disconnect texts *)

(** The shape of the texts that servers send in the first substitution
    argument of the disconnect message. *)
Module Messages.

Import Regexp FingerprintBase.
Local Open Scope string_scope.

Fixpoint all_digits (s : string) : bool :=
  match s with
  | EmptyString => true
  | String c s' => is_digit c && all_digits s'
  end.

(** A decimal number: one digit at least. *)
Definition number (s : string) : bool :=
  match s with
  | EmptyString => false
  | String _ _ => all_digits s
  end.

(** The end of the decoder's complaint about [x] bytes too many in the
    packet [y]. *)
Definition larger_tail (x y : string) : string :=
  " was larger than I expected, found " ++ x
    ++ " bytes extra whilst reading packet " ++ y.

(** The complaint about the packet [b] of the state [a], decoded by the
    class [class_n]. *)
Definition class_text (a b n x y : string) : string :=
  netty_prefix ++ a ++ "/" ++ b ++ " (class_" ++ n ++ ")" ++ larger_tail x y.

(** The result of a search in what follows a prefix that it passed
    over. *)
Definition after (d : string) (o : option (string * string))
  : option (string * string) :=
  match o with
  | Some (before, rest) => Some (d ++ before, rest)
  | None => None
  end.

Definition starts_with_digit (s : string) : bool :=
  match s with
  | EmptyString => false
  | String c _ => is_digit c
  end.

End Messages.

(* ================================================================== *)
(** * Properties *)

Import Packet.

(** ** Bytes and bit arithmetic *)

Section ByteFacts.

Lemma byte_val_range (b : byte) : 0 <= byte_val b < 256.
Proof.
  unfold byte_val. pose proof (Byte.to_N_bounded b). lia.
Qed.

Lemma byte_val_of_Z (z : Z) : byte_val (byte_of_Z z) = z mod 256.
Proof.
  unfold byte_val, byte_of_Z.
  assert (Hr : 0 <= z mod 256 < 256) by (apply Z.mod_pos_bound; lia).
  destruct (Byte.of_N (Z.to_N (z mod 256))) as [b|] eqn:E.
  - apply Byte.to_of_N in E. rewrite E. lia.
  - apply Byte.of_N_None_iff in E. lia.
Qed.

Lemma byte_of_Z_val (b : byte) : byte_of_Z (byte_val b) = b.
Proof. destruct b; reflexivity. Qed.

(** The byte [byte(x) | 0x80] written for a continued group. *)
Lemma cont_byte_val (b : byte) :
  byte_val (byte_of_Z (Z.lor (byte_val b) 0x80)) = byte_val b mod 128 + 128.
Proof. destruct b; reflexivity. Qed.

Lemma low7_of_cont (v : Z) :
  0 <= v < 128 -> Z.land (v + 128) 0x7f = v.
Proof.
  intros Hv. change 0x7f with (Z.ones 7). rewrite Z.land_ones by lia.
  change (2 ^ 7) with 128.
  rewrite <- (Z.mul_1_l 128) at 1. rewrite Z.mod_add by lia.
  apply Z.mod_small; lia.
Qed.

Lemma high_of_cont (v : Z) :
  0 <= v < 128 -> Z.land (v + 128) 0x80 = 128.
Proof.
  intros Hv. apply Z.bits_inj'. intros n Hn.
  rewrite Z.land_spec.
  destruct (Z.eq_dec n 7) as [->|Hne].
  - change (Z.testbit 128 7) with true. rewrite andb_true_r.
    rewrite Z.testbit_true by lia. change (2 ^ 7) with 128.
    replace ((v + 128) / 128) with 1; [reflexivity|].
    apply Z.div_unique with (r := v); lia.
  - replace (Z.testbit 128 n) with false; [apply andb_false_r|].
    symmetry. change 128 with (2 ^ 7). apply Z.pow2_bits_false. lia.
Qed.

Lemma high_of_small (v : Z) : 0 <= v < 128 -> Z.land v 0x80 = 0.
Proof.
  intros Hv. apply Z.bits_inj'. intros n Hn.
  rewrite Z.land_spec, Z.bits_0.
  destruct (Z.eq_dec n 7) as [->|Hne].
  - replace (Z.testbit v 7) with false; [reflexivity|].
    symmetry. apply Z.bits_above_log2; [lia|].
    destruct (Z.eq_dec v 0) as [->|]; [reflexivity|].
    apply Z.log2_lt_pow2; lia.
  - replace (Z.testbit 128 n) with false; [apply andb_false_r|].
    symmetry. change 128 with (2 ^ 7). apply Z.pow2_bits_false. lia.
Qed.

Lemma low7_of_small (v : Z) : 0 <= v < 128 -> Z.land v 0x7f = v.
Proof.
  intros Hv. change 0x7f with (Z.ones 7). rewrite Z.land_ones by lia.
  apply Z.mod_small. change (2 ^ 7) with 128. lia.
Qed.

(** Splitting off the low seven bits commutes with the shift of the
    decoder. *)
Lemma lor_group (acc x s : Z) :
  0 <= x -> 0 <= s ->
  Z.lor (Z.lor acc (Z.shiftl (x mod 128) s)) (Z.shiftl (Z.shiftr x 7) (s + 7))
  = Z.lor acc (Z.shiftl x s).
Proof.
  intros Hx Hs. rewrite <- Z.lor_assoc. f_equal.
  apply Z.bits_inj'. intros n Hn.
  rewrite Z.lor_spec, !Z.shiftl_spec by lia.
  change 128 with (2 ^ 7).
  destruct (Z_lt_dec n s) as [Hlt|Hge].
  - rewrite !Z.testbit_neg_r by lia. reflexivity.
  - destruct (Z_lt_dec (n - s) 7) as [Hlo|Hhi].
    + rewrite Z.mod_pow2_bits_low by lia.
      rewrite (Z.testbit_neg_r _ (n - (s + 7))) by lia.
      apply orb_false_r.
    + rewrite Z.mod_pow2_bits_high by lia.
      rewrite Z.shiftr_spec by lia.
      replace (n - (s + 7) + 7) with (n - s) by lia. reflexivity.
Qed.

Lemma shiftl_bound (x s w : Z) :
  0 <= x -> 0 <= s -> x * 2 ^ s < 2 ^ w -> 0 <= Z.shiftl x s < 2 ^ w.
Proof.
  intros Hx Hs Hb. rewrite Z.shiftl_mul_pow2 by lia.
  split; [|assumption]. apply Z.mul_nonneg_nonneg; [lia|].
  apply Z.pow_nonneg; lia.
Qed.

Lemma uint64_small (z : Z) : 0 <= z < 2 ^ 64 -> uint64 z = z.
Proof. intros H. unfold uint64, wrap_unsigned. apply Z.mod_small; lia. Qed.

Lemma int32_small (z : Z) : - 2 ^ 31 <= z < 2 ^ 31 -> int32 z = z.
Proof.
  intros H. unfold int32, wrap_signed. change (32 - 1) with 31.
  rewrite Z.mod_small; lia.
Qed.

Lemma int64_small (z : Z) : - 2 ^ 63 <= z < 2 ^ 63 -> int64 z = z.
Proof.
  intros H. unfold int64, wrap_signed. change (64 - 1) with 63.
  rewrite Z.mod_small; lia.
Qed.

Lemma shiftr7_bound (x s : Z) (w : Z) :
  0 <= x -> 0 <= s -> x * 2 ^ s < 2 ^ w ->
  0 <= Z.shiftr x 7 /\ Z.shiftr x 7 * 2 ^ (s + 7) < 2 ^ w.
Proof.
  intros Hx Hs Hb. rewrite Z.shiftr_div_pow2 by lia.
  change (2 ^ 7) with 128.
  split; [apply Z.div_pos; lia|].
  rewrite Z.pow_add_r by lia. change (2 ^ 7) with 128.
  assert (Hp : 0 < 2 ^ s) by (apply Z.pow_pos_nonneg; lia).
  pose proof (Z.mul_div_le x 128 ltac:(lia)).
  nia.
Qed.

Lemma group_bound (x s w : Z) :
  0 <= x -> 0 <= s -> x * 2 ^ s < 2 ^ w ->
  0 <= x mod 128 /\ (x mod 128) * 2 ^ s < 2 ^ w.
Proof.
  intros Hx Hs Hb.
  assert (Hm : 0 <= x mod 128 < 128) by (apply Z.mod_pos_bound; lia).
  assert (Hle : x mod 128 <= x) by (apply Z.mod_le; lia).
  assert (Hp : 0 < 2 ^ s) by (apply Z.pow_pos_nonneg; lia).
  split; [lia|nia].
Qed.

(** A value that needs a further group leaves room for the shift. *)
Lemma shift_room (x s w : Z) :
  128 <= x -> 0 <= s -> 0 <= w -> x * 2 ^ s < 2 ^ w -> s + 7 < w.
Proof.
  intros Hx Hs Hw Hb.
  assert (Hp : 0 < 2 ^ s) by (apply Z.pow_pos_nonneg; lia).
  assert (H2 : 2 ^ (s + 7) < 2 ^ w).
  { rewrite Z.pow_add_r by lia. change (2 ^ 7) with 128. nia. }
  apply Z.pow_lt_mono_r_iff in H2; lia.
Qed.

End ByteFacts.

(** ** Varints: the encoder against both decoders *)

Section Varint.

Lemma mod256_mod128 (x : Z) : (x mod 256) mod 128 = x mod 128.
Proof.
  apply Z.mod_mod_divide. exists 2. reflexivity.
Qed.

Lemma cont_byte_of (x : Z) :
  byte_val (byte_of_Z (Z.lor (byte_val (byte_of_Z x)) 0x80))
  = x mod 128 + 128.
Proof.
  rewrite cont_byte_val, byte_val_of_Z, mod256_mod128. reflexivity.
Qed.

Lemma last_byte_of (x : Z) : 0 <= x < 128 -> byte_val (byte_of_Z x) = x.
Proof. intros H. rewrite byte_val_of_Z. apply Z.mod_small; lia. Qed.

(** The encoder never runs out of buffer when the value fits in seven
    bits per byte. *)
Lemma PutUvarint_fits (room : nat) :
  forall x, 0 <= x < 2 ^ (7 * Z.of_nat room) -> (1 <= room)%nat ->
            exists bs, Binary.PutUvarint room x = Some bs.
Proof.
  induction room as [|room IH]; intros x Hx Hroom; [lia|].
  simpl. destruct (0x80 <=? x) eqn:E.
  - apply Z.leb_le in E.
    destruct room as [|room'].
    + change (2 ^ (7 * Z.of_nat 1)) with 128 in Hx. lia.
    + destruct (IH (Z.shiftr x 7)) as [bs Hbs]; [|lia|].
      * rewrite Z.shiftr_div_pow2 by lia. change (2 ^ 7) with 128.
        split; [apply Z.div_pos; lia|].
        apply Z.div_lt_upper_bound; [lia|].
        replace (7 * Z.of_nat (S (S room')))
          with (7 + 7 * Z.of_nat (S room')) in Hx by lia.
        rewrite Z.pow_add_r in Hx by lia. exact (proj2 Hx).
      * rewrite Hbs. simpl. eauto.
  - eauto.
Qed.

(** An index-out-of-range panic of the 5-byte buffer: a value with more
    than 35 bits. *)
Lemma PutUvarint_overflows (room : nat) :
  forall x, 2 ^ (7 * Z.of_nat room) <= x -> Binary.PutUvarint room x = None.
Proof.
  induction room as [|room IH]; intros x Hx; [reflexivity|].
  simpl.
  replace (7 * Z.of_nat (S room)) with (7 + 7 * Z.of_nat room) in Hx by lia.
  rewrite Z.pow_add_r in Hx by lia. change (2 ^ 7) with 128 in Hx.
  assert (Hp : 0 < 2 ^ (7 * Z.of_nat room)) by (apply Z.pow_pos_nonneg; lia).
  assert (E : (0x80 <=? x) = true) by (apply Z.leb_le; nia).
  rewrite E, IH; [reflexivity|].
  rewrite Z.shiftr_div_pow2 by lia. change (2 ^ 7) with 128.
  apply Z.div_le_lower_bound; lia.
Qed.

Lemma PutUvarint_length (room : nat) :
  forall x bs, Binary.PutUvarint room x = Some bs ->
               (1 <= List.length bs <= room)%nat.
Proof.
  induction room as [|room IH]; intros x bs H; [discriminate|].
  simpl in H. destruct (0x80 <=? x).
  - destruct (Binary.PutUvarint room (Z.shiftr x 7)) as [l|] eqn:E;
      [|discriminate].
    simpl in H. injection H as <-. apply IH in E. simpl. lia.
  - injection H as <-. simpl. lia.
Qed.

(** [binary.ReadUvarint] reads back what [binary.PutUvarint] wrote, from
    any state of the loop that still has room for the value. *)
Lemma ReadUvarint_loop_put (room : nat) :
  forall x bs, Binary.PutUvarint room x = Some bs -> 0 <= x ->
  forall left i acc s rest,
    s = 7 * i -> 0 <= i -> Z.of_nat left + i = 10 ->
    x * 2 ^ s < 2 ^ 64 -> s <= 63 ->
    Binary.ReadUvarint_loop left i acc s (bs ++ rest)
    = (Ok (Z.lor acc (Z.shiftl x s)), rest).
Proof.
  induction room as [|room IH]; intros x bs H Hx left i acc s rest
    Hs Hi Hleft Hb Hs63; [discriminate|].
  simpl in H. destruct (0x80 <=? x) eqn:E.
  - apply Z.leb_le in E.
    destruct (Binary.PutUvarint room (Z.shiftr x 7)) as [l|] eqn:El;
      [|discriminate].
    simpl in H. injection H as <-.
    pose proof (shift_room x s 64 ltac:(lia) ltac:(lia) ltac:(lia) Hb) as Hroom.
    destruct left as [|left']; [lia|].
    cbn [Binary.ReadUvarint_loop app].
    rewrite cont_byte_of.
    assert (Hm : 0 <= x mod 128 < 128) by (apply Z.mod_pos_bound; lia).
    replace (x mod 128 + 128 <? 0x80) with false
      by (symmetry; apply Z.ltb_ge; lia).
    rewrite low7_of_cont by assumption.
    destruct (group_bound x s 64 Hx ltac:(lia) Hb) as [_ Hg].
    rewrite uint64_small by (apply shiftl_bound; lia).
    destruct (shiftr7_bound x s 64 Hx ltac:(lia) Hb) as [Hr0 Hr].
    rewrite (IH _ _ El Hr0 left' (i + 1) _ (s + 7) rest) by lia.
    rewrite lor_group by lia. reflexivity.
  - apply Z.leb_gt in E. injection H as <-.
    destruct left as [|left']; [lia|].
    cbn [Binary.ReadUvarint_loop app].
    rewrite last_byte_of by lia.
    replace (x <? 0x80) with true by (symmetry; apply Z.ltb_lt; lia).
    assert (Hlast : ((i =? Z.of_nat Binary.MaxVarintLen64 - 1) && (1 <? x))
                    = false).
    { destruct (i =? Z.of_nat Binary.MaxVarintLen64 - 1) eqn:Ei;
        [|reflexivity].
      apply Z.eqb_eq in Ei. change (Z.of_nat Binary.MaxVarintLen64) with 10 in Ei.
      subst. replace (7 * (10 - 1)) with 63 in Hb by lia.
      simpl. apply Z.ltb_ge. change (2 ^ 64) with (2 * 2 ^ 63) in Hb. lia. }
    rewrite Hlast.
    rewrite uint64_small by (apply shiftl_bound; lia).
    reflexivity.
Qed.

(** [readVarInt] reads back what [binary.PutUvarint] wrote for a value
    below [2^31]. *)
Lemma readVarInt_loop_put (room : nat) :
  forall x bs, Binary.PutUvarint room x = Some bs -> 0 <= x ->
  forall e acc s rest,
    0 <= s -> x * 2 ^ s < 2 ^ 31 ->
    readVarInt_loop e acc s (bs ++ rest)
    = (Ok (Z.lor acc (Z.shiftl x s)), rest).
Proof.
  induction room as [|room IH]; intros x bs H Hx e acc s rest Hs Hb;
    [discriminate|].
  simpl in H. destruct (0x80 <=? x) eqn:E.
  - apply Z.leb_le in E.
    destruct (Binary.PutUvarint room (Z.shiftr x 7)) as [l|] eqn:El;
      [|discriminate].
    simpl in H. injection H as <-.
    pose proof (shift_room x s 31 ltac:(lia) ltac:(lia) ltac:(lia) Hb) as Hroom.
    cbn [readVarInt_loop app].
    rewrite cont_byte_of.
    assert (Hm : 0 <= x mod 128 < 128) by (apply Z.mod_pos_bound; lia).
    rewrite (low7_of_cont (x mod 128)) by assumption.
    change (Z.land (x mod 128 + 128) 128) with (Z.land (x mod 128 + 128) 0x80).
    rewrite high_of_cont by assumption.
    change (128 =? 0) with false. cbv iota.
    replace (s + 7 >=? 32) with false
      by (symmetry; rewrite Z.geb_leb; apply Z.leb_gt; lia).
    destruct (group_bound x s 31 Hx ltac:(lia) Hb) as [_ Hg].
    rewrite int32_small
      by (pose proof (shiftl_bound (x mod 128) s 31 ltac:(lia) Hs Hg); lia).
    destruct (shiftr7_bound x s 31 Hx ltac:(lia) Hb) as [Hr0 Hr].
    rewrite (IH _ _ El Hr0 e _ (s + 7) rest) by lia.
    rewrite lor_group by lia. reflexivity.
  - apply Z.leb_gt in E. injection H as <-.
    cbn [readVarInt_loop app].
    rewrite last_byte_of by lia.
    rewrite low7_of_small by lia.
    change (Z.land x 128) with (Z.land x 0x80).
    rewrite high_of_small by lia.
    change (0 =? 0) with true. cbv iota.
    rewrite int32_small
      by (pose proof (shiftl_bound x s 31 Hx Hs Hb); lia).
    reflexivity.
Qed.

Lemma encodeVarInt_ok (v : Z) :
  0 <= v < 2 ^ 31 ->
  exists bs, encodeVarInt v = Ok bs /\
             Binary.PutUvarint Binary.MaxVarintLen32 v = Some bs.
Proof.
  intros Hv. unfold encodeVarInt, put_uvarint.
  rewrite uint64_small by lia.
  destruct (PutUvarint_fits Binary.MaxVarintLen32 v) as [bs Hbs].
  - change (2 ^ (7 * Z.of_nat Binary.MaxVarintLen32)) with (2 ^ 35). lia.
  - unfold Binary.MaxVarintLen32. lia.
  - rewrite Hbs. eauto.
Qed.

(** A negative [int32] converts to a [uint64] of 64 significant bits and
    overruns the five-byte buffer. *)
Lemma encodeVarInt_negative (v : Z) :
  - 2 ^ 31 <= v < 0 -> encodeVarInt v = Panic "index out of range".
Proof.
  intros Hv. unfold encodeVarInt, put_uvarint.
  rewrite PutUvarint_overflows; [reflexivity|].
  change (2 ^ (7 * Z.of_nat Binary.MaxVarintLen32)) with (2 ^ 35).
  unfold uint64, wrap_unsigned.
  replace (v mod 2 ^ 64) with (v + 2 ^ 64); [lia|].
  apply Z.mod_unique with (q := -1); [left; lia|lia].
Qed.

Lemma encodeVarInt_inv (v : Z) (bs : list byte) :
  is_int32 v -> encodeVarInt v = Ok bs ->
  0 <= v /\ Binary.PutUvarint Binary.MaxVarintLen32 v = Some bs.
Proof.
  intros Hv H. unfold is_int32 in Hv.
  destruct (Z_lt_dec v 0) as [Hneg|Hpos].
  - rewrite encodeVarInt_negative in H by lia. discriminate.
  - destruct (encodeVarInt_ok v ltac:(lia)) as [bs' [H1 H2]].
    rewrite H in H1. injection H1 as ->. split; [lia|assumption].
Qed.

End Varint.

(** ** Frames *)

Section Frames.

Lemma len_app {A : Type} (l1 l2 : list A) : len (l1 ++ l2) = len l1 + len l2.
Proof. unfold len. rewrite length_app. lia. Qed.

Lemma len_nonneg {A : Type} (l : list A) : 0 <= len l.
Proof. unfold len. lia. Qed.

Lemma readVarInt_put (room : nat) (x : Z) (bs rest : list byte) (c : Conn) :
  Binary.PutUvarint room x = Some bs -> 0 <= x < 2 ^ 31 ->
  incoming c = bs ++ rest ->
  readVarInt c = (Ok x, set_incoming rest c).
Proof.
  intros Hput Hx Hin. unfold readVarInt. rewrite Hin.
  rewrite (readVarInt_loop_put room x bs Hput) by (rewrite ?Z.mul_1_r; lia).
  rewrite Z.shiftl_0_r, Z.lor_0_l. reflexivity.
Qed.

Lemma ReadUvarint_put (room : nat) (x : Z) (bs rest : list byte) :
  Binary.PutUvarint room x = Some bs -> 0 <= x < 2 ^ 64 ->
  Binary.ReadUvarint (bs ++ rest) = (Ok x, rest).
Proof.
  intros Hput Hx. unfold Binary.ReadUvarint.
  rewrite (ReadUvarint_loop_put room x bs Hput) by
    (rewrite ?Z.mul_1_r; change (Z.of_nat Binary.MaxVarintLen64) with 10; lia).
  rewrite Z.shiftl_0_r, Z.lor_0_l. reflexivity.
Qed.

(** [Build] on a packet whose identifier has an encoding and whose
    payload is within the limit. *)
Lemma Build_within_limit (id : Z) (body idb : list byte) :
  is_int32 id -> encodeVarInt id = Ok idb ->
  len (idb ++ body) <= MaxPacketLength ->
  exists lb,
    Binary.PutUvarint Binary.MaxVarintLen32 (len (idb ++ body)) = Some lb /\
    Build (mkOutbound id body) = (Ok (lb ++ idb ++ body), mkOutbound id body).
Proof.
  intros Hid Henc Hlen.
  pose proof (len_nonneg (idb ++ body)) as Hnn.
  unfold MaxPacketLength in Hlen.
  destruct (encodeVarInt_ok (len (idb ++ body)) ltac:(lia)) as [lb [H1 H2]].
  exists lb. split; [assumption|].
  unfold Build, bind, get, lift, ret, fail. cbn [out_id out_body].
  rewrite Henc.
  replace (len (idb ++ body) >? MaxPacketLength) with false
    by (symmetry; rewrite Z.gtb_ltb; apply Z.ltb_ge; unfold MaxPacketLength; lia).
  rewrite int32_small by lia. rewrite H1. reflexivity.
Qed.

Lemma firstn_len_app (l1 l2 : list byte) :
  firstn (Z.to_nat (len l1)) (l1 ++ l2) = l1.
Proof.
  unfold len. rewrite Nat2Z.id. rewrite firstn_app, Nat.sub_diag.
  rewrite firstn_all. simpl. apply app_nil_r.
Qed.

Lemma skipn_len_app (l1 l2 : list byte) :
  skipn (Z.to_nat (len l1)) (l1 ++ l2) = l2.
Proof.
  unfold len. rewrite Nat2Z.id. rewrite skipn_app, Nat.sub_diag.
  rewrite skipn_all. reflexivity.
Qed.

(** Receiving a frame whose declared length [n] is the length of the
    payload that follows. *)
Lemma NewInboundPacket_frame (timeout : Z) (c : Conn)
    (lb : list byte) (payload rest : list byte) :
  deadline_err c = None ->
  Binary.PutUvarint Binary.MaxVarintLen32 (len payload) = Some lb ->
  len payload <= MaxPacketLength ->
  incoming c = lb ++ payload ++ rest ->
  NewInboundPacket timeout c =
    match ReadVarInt (mkInbound 0 payload) with
    | (Ok packetID, p) =>
        (Ok (mkInbound (int32 packetID) (reader p)), set_incoming rest c)
    | (Err e, _) =>
        (Err (Wrap "failed to read packet id" e), set_incoming rest c)
    | (Panic why, _) => (Panic why, set_incoming rest c)
    end.
Proof.
  intros Hdl Hput Hlen Hin.
  pose proof (len_nonneg payload) as Hnn. unfold MaxPacketLength in Hlen.
  unfold NewInboundPacket, bind, wrapping, SetReadDeadline.
  rewrite Hdl.
  rewrite (readVarInt_put _ _ _ _ _ Hput ltac:(lia) Hin).
  replace (len payload >? MaxPacketLength) with false
    by (symmetry; rewrite Z.gtb_ltb; apply Z.ltb_ge; unfold MaxPacketLength; lia).
  unfold lift, make_bytes.
  replace (len payload <? 0) with false by (symmetry; apply Z.ltb_ge; lia).
  unfold ConnReadFull, Binary.ReadFull. cbn [incoming set_incoming at_end].
  replace (Z.to_nat (len payload) <=? List.length (payload ++ rest))%nat
    with true
    by (symmetry; apply Nat.leb_le; unfold len; rewrite Nat2Z.id, length_app; lia).
  rewrite firstn_len_app, skipn_len_app.
  cbn [set_incoming incoming at_end deadline_err write_err sent].
  destruct (ReadVarInt (mkInbound 0 payload)) as [[packetID|e|why] p];
    reflexivity.
Qed.

Lemma ReadVarInt_put (room : nat) (x : Z) (bs rest : list byte) (i : Z) :
  Binary.PutUvarint room x = Some bs -> 0 <= x < 2 ^ 31 ->
  ReadVarInt (mkInbound i (bs ++ rest)) = (Ok x, mkInbound i rest).
Proof.
  intros Hput Hx. unfold ReadVarInt, bind, on_reader, zoom, ret.
  cbn [reader in_id].
  rewrite (ReadUvarint_put room x bs rest Hput) by lia.
  rewrite int32_small by lia. reflexivity.
Qed.

End Frames.

Section FrameIdentifiers.

Lemma int32_uint32 (z : Z) : is_int32 z -> int32 (uint32 z) = z.
Proof.
  unfold is_int32, int32, uint32, wrap_signed, wrap_unsigned.
  change (32 - 1) with 31. intros H.
  destruct (Z_lt_dec z 0) as [Hneg|Hpos].
  - replace (z mod 2 ^ 32) with (z + 2 ^ 32)
      by (apply Z.mod_unique with (q := -1); [left; lia | lia]).
    replace ((z + 2 ^ 32 + 2 ^ 31) mod 2 ^ 32) with (z + 2 ^ 31); [lia|].
    apply Z.mod_unique with (q := 1); [left; lia | lia].
  - rewrite (Z.mod_small z) by lia. rewrite Z.mod_small; lia.
Qed.

Lemma uint32_range (z : Z) : 0 <= uint32 z < 2 ^ 32.
Proof. unfold uint32, wrap_unsigned. apply Z.mod_pos_bound. lia. Qed.

(** [ReadVarInt] on the varint of the 32 bits of an [int32]. *)
Lemma ReadVarInt_put_bits (room : nat) (z : Z) (bs rest : list byte) (i : Z) :
  Binary.PutUvarint room (uint32 z) = Some bs -> is_int32 z ->
  ReadVarInt (mkInbound i (bs ++ rest)) = (Ok z, mkInbound i rest).
Proof.
  intros Hput Hz. unfold ReadVarInt, bind, on_reader, zoom, ret.
  cbn [reader in_id]. pose proof (uint32_range z).
  rewrite (ReadUvarint_put room (uint32 z) bs rest Hput) by lia.
  rewrite (int32_uint32 z Hz). reflexivity.
Qed.

End FrameIdentifiers.

(** C1 (negative identifiers).  Frame round trip.  Let [idb] be the varint
    of the packet identifier [id], that is of its 32 bits, one to five
    bytes, and let the payload [idb ++ body] be at most 2,097,151 bytes
    long.  [NewInboundPacket] on a connection that delivers the frame of
    this payload (followed by anything) returns a packet with the
    identifier [id] whose readable bytes are exactly [body], and the bytes
    after the frame stay on the connection: this holds for every [int32],
    the negative ones included.  [Build] produces this frame when [id] is
    not negative; for every negative [id] it panics in [encodeVarInt] and
    produces no frame, so that there is nothing to decode. *)
Theorem frame_round_trip (id : Z) (body idb : list byte) :
  is_int32 id ->
  Binary.PutUvarint Binary.MaxVarintLen32 (uint32 id) = Some idb ->
  len (idb ++ body) <= MaxPacketLength ->
  exists lb,
    Binary.PutUvarint Binary.MaxVarintLen32 (len (idb ++ body)) = Some lb /\
    Build (mkOutbound id body)
    = (if id <? 0 then Panic "index out of range"
       else Ok (lb ++ idb ++ body),
       mkOutbound id body) /\
    forall (timeout : Z) (c : Conn) (rest : list byte),
      deadline_err c = None ->
      incoming c = (lb ++ idb ++ body) ++ rest ->
      NewInboundPacket timeout c
        = (Ok (mkInbound id body), set_incoming rest c) /\
      ID (mkInbound id body) = id /\
      ReadBytes (len body) (mkInbound id body) = (Ok body, mkInbound id []).
Proof.
  intros Hid Hput Hlen.
  pose proof (len_nonneg (idb ++ body)) as Hnn.
  pose proof (len_nonneg body) as Hnb. pose proof (len_nonneg idb) as Hni.
  assert (Hlb : exists lb,
             Binary.PutUvarint Binary.MaxVarintLen32 (len (idb ++ body))
             = Some lb).
  { apply PutUvarint_fits; [|unfold Binary.MaxVarintLen32; lia].
    change (2 ^ (7 * Z.of_nat Binary.MaxVarintLen32)) with (2 ^ 35).
    unfold MaxPacketLength in Hlen. lia. }
  destruct Hlb as [lb Hlb]. exists lb. split; [exact Hlb|]. split.
  - destruct (id <? 0) eqn:Hsign.
    + apply Z.ltb_lt in Hsign. unfold is_int32 in Hid.
      unfold Build, bind, get, lift. cbn [out_id out_body].
      rewrite encodeVarInt_negative by lia. reflexivity.
    + apply Z.ltb_ge in Hsign. unfold is_int32 in Hid.
      assert (Hu : uint32 id = id)
        by (unfold uint32, wrap_unsigned; apply Z.mod_small; lia).
      rewrite Hu in Hput.
      destruct (encodeVarInt_ok id ltac:(lia)) as [idb' [Henc Hput']].
      rewrite Hput in Hput'. injection Hput' as <-.
      destruct (Build_within_limit id body idb Hid Henc Hlen) as [lb' [Hlb' HB]].
      rewrite Hlb in Hlb'. injection Hlb' as <-. exact HB.
  - intros timeout c rest Hdl Hin. split; [|split].
    + rewrite (NewInboundPacket_frame timeout c lb (idb ++ body) rest Hdl Hlb Hlen)
        by (rewrite Hin, <- !app_assoc; reflexivity).
      rewrite (ReadVarInt_put_bits _ id idb body 0 Hput Hid).
      cbn [reader]. unfold is_int32 in Hid. rewrite int32_small by lia.
      reflexivity.
    + reflexivity.
    + unfold ReadBytes, wrapping, on_reader, zoom, readBytes.
      cbn [reader in_id].
      replace (len body <? 0) with false by (symmetry; apply Z.ltb_ge; lia).
      replace (len body >? maxAlloc) with false
        by (symmetry; rewrite Z.gtb_ltb; apply Z.ltb_ge;
            rewrite len_app in Hlen;
            unfold MaxPacketLength in Hlen; unfold maxAlloc; lia).
      rewrite Z.leb_refl.
      unfold len. rewrite Nat2Z.id, firstn_all, skipn_all. reflexivity.
Qed.

Lemma frame_round_trip_witness :
  (exists lb,
     Binary.PutUvarint Binary.MaxVarintLen32
       (len ([Byte.xff; Byte.xff; Byte.xff; Byte.xff; Byte.x0f] ++ []))
     = Some lb /\
     Build (mkOutbound (-1) [])
     = (Panic "index out of range", mkOutbound (-1) []) /\
     forall (timeout : Z) (c : Conn) (rest : list byte),
       deadline_err c = None ->
       incoming c
       = (lb ++ [Byte.xff; Byte.xff; Byte.xff; Byte.xff; Byte.x0f] ++ [])
           ++ rest ->
       NewInboundPacket timeout c
         = (Ok (mkInbound (-1) []), set_incoming rest c) /\
       ID (mkInbound (-1) []) = -1 /\
       ReadBytes (len (@nil byte)) (mkInbound (-1) [])
         = (Ok [], mkInbound (-1) []))
  /\
  (exists lb,
     Binary.PutUvarint Binary.MaxVarintLen32
       (len ([Byte.x01] ++ [Byte.x00; Byte.x2a; Byte.xff])) = Some lb /\
     Build (mkOutbound 1 [Byte.x00; Byte.x2a; Byte.xff])
     = (Ok (lb ++ [Byte.x01] ++ [Byte.x00; Byte.x2a; Byte.xff]),
        mkOutbound 1 [Byte.x00; Byte.x2a; Byte.xff]) /\
     forall (timeout : Z) (c : Conn) (rest : list byte),
       deadline_err c = None ->
       incoming c
       = (lb ++ [Byte.x01] ++ [Byte.x00; Byte.x2a; Byte.xff]) ++ rest ->
       NewInboundPacket timeout c
         = (Ok (mkInbound 1 [Byte.x00; Byte.x2a; Byte.xff]),
            set_incoming rest c) /\
       ID (mkInbound 1 [Byte.x00; Byte.x2a; Byte.xff]) = 1 /\
       ReadBytes (len [Byte.x00; Byte.x2a; Byte.xff])
                 (mkInbound 1 [Byte.x00; Byte.x2a; Byte.xff])
         = (Ok [Byte.x00; Byte.x2a; Byte.xff], mkInbound 1 [])).
Proof.
  split.
  - apply (frame_round_trip (-1) []
             [Byte.xff; Byte.xff; Byte.xff; Byte.xff; Byte.x0f]).
    + unfold is_int32. lia.
    + reflexivity.
    + vm_compute. discriminate.
  - apply (frame_round_trip 1 [Byte.x00; Byte.x2a; Byte.xff] [Byte.x01]).
    + unfold is_int32. lia.
    + reflexivity.
    + vm_compute. discriminate.
Defined.

(** ** The length checks of [NewInboundPacket] *)

Section InboundLength.

Variable timeout : Z.

(** What [NewInboundPacket] does once the length varint has been read. *)
Lemma NewInboundPacket_after_length (c c' : Conn) (n : Z) :
  deadline_err c = None ->
  readVarInt c = (Ok n, c') ->
  NewInboundPacket timeout c =
    if n >? MaxPacketLength
    then (Err (MsgZ "received packet is too long: %d" n), c')
    else if n <? 0
    then (Panic "makeslice: len out of range", c')
    else
      match ConnReadFull (Z.to_nat n) c' with
      | (Ok body, c'') =>
          match ReadVarInt (mkInbound 0 body) with
          | (Ok packetID, p) =>
              (Ok (mkInbound (int32 packetID) (reader p)), c'')
          | (Err e, _) => (Err (Wrap "failed to read packet id" e), c'')
          | (Panic why, _) => (Panic why, c'')
          end
      | (Err e, c'') => (Err (Wrap "failed to receive packet body" e), c'')
      | (Panic why, c'') => (Panic why, c'')
      end.
Proof.
  intros Hdl Hread.
  unfold NewInboundPacket, bind, wrapping, SetReadDeadline.
  rewrite Hdl, Hread.
  destruct (n >? MaxPacketLength); [reflexivity|].
  unfold lift, make_bytes. destruct (n <? 0); [reflexivity|].
  destruct (ConnReadFull (Z.to_nat n) c') as [[body|e|why] c''];
    try reflexivity.
  destruct (ReadVarInt (mkInbound 0 body)) as [[packetID|e|why] p];
    reflexivity.
Qed.

Lemma ConnReadFull_enough (c : Conn) (body rest : list byte) :
  incoming c = body ++ rest ->
  ConnReadFull (Z.to_nat (len body)) c = (Ok body, set_incoming rest c).
Proof.
  intros Hin. unfold ConnReadFull, Binary.ReadFull. rewrite Hin.
  replace (Z.to_nat (len body) <=? List.length (body ++ rest))%nat with true
    by (symmetry; apply Nat.leb_le; unfold len; rewrite Nat2Z.id, length_app; lia).
  rewrite firstn_len_app, skipn_len_app. reflexivity.
Qed.

End InboundLength.

Section InboundAllocations.

Variable timeout : Z.

(** The log does not change what [NewInboundPacket] returns or what it
    reads. *)
Lemma NewInboundPacket_logged_erase (r : Receiving) :
  fst (NewInboundPacket_logged timeout r)
  = fst (NewInboundPacket timeout (rc_conn r))
  /\ rc_conn (snd (NewInboundPacket_logged timeout r))
     = snd (NewInboundPacket timeout (rc_conn r)).
Proof.
  unfold NewInboundPacket_logged, NewInboundPacket, bind, wrapping, on_rconn,
    zoom, SetReadDeadline.
  destruct (deadline_err (rc_conn r)); [split; reflexivity|].
  cbn [rc_conn rc_allocated].
  destruct (readVarInt (rc_conn r)) as [[n|e|why] c']; try (split; reflexivity).
  cbn [rc_conn rc_allocated].
  destruct (n >? MaxPacketLength); [split; reflexivity|].
  unfold make_logged, lift. destruct (make_bytes n) as [m|e|why];
    try (split; reflexivity).
  cbn [rc_conn rc_allocated].
  destruct (ConnReadFull m c') as [[body|e|why] c'']; try (split; reflexivity).
  cbn [rc_conn rc_allocated].
  destruct (ReadVarInt (mkInbound 0 body)) as [[packetID|e|why] p];
    split; reflexivity.
Qed.

(** The log once the length varint has been read. *)
Lemma NewInboundPacket_logged_after_length (c c' : Conn) (log : list Z)
    (n : Z) :
  deadline_err c = None ->
  readVarInt c = (Ok n, c') ->
  ((n >? MaxPacketLength) = true ->
   NewInboundPacket_logged timeout (mkReceiving c log)
   = (Err (MsgZ "received packet is too long: %d" n), mkReceiving c' log))
  /\ ((n >? MaxPacketLength) = false -> 0 <= n ->
      rc_allocated (snd (NewInboundPacket_logged timeout (mkReceiving c log)))
      = log ++ [n]).
Proof.
  intros Hdl Hread.
  unfold NewInboundPacket_logged, bind, wrapping, on_rconn, zoom,
    SetReadDeadline.
  cbn [rc_conn rc_allocated]. rewrite Hdl. cbn [rc_conn rc_allocated].
  rewrite Hread. cbn [rc_conn rc_allocated].
  split.
  - intros ->. reflexivity.
  - intros -> Hn. unfold make_logged, make_bytes.
    replace (n <? 0) with false by (symmetry; apply Z.ltb_ge; lia).
    cbn [rc_conn rc_allocated].
    destruct (ConnReadFull (Z.to_nat n) c') as [[body|e|why] c''];
      try reflexivity.
    cbn [rc_conn rc_allocated].
    destruct (ReadVarInt (mkInbound 0 body)) as [[packetID|e|why] p];
      reflexivity.
Qed.

End InboundAllocations.

(** C3.  Inbound frame length bound.  When the length varint decodes to
    2,097,151 the frame is accepted, a body buffer of that length is
    allocated and exactly that many bytes are read as the body: on a
    connection that delivers [body] of that length and then [rest], the
    outcome is the decoding of the packet identifier from [body], and
    [rest] stays unread.  When it decodes to 2,097,152,
    [NewInboundPacket] returns the too-long error, the connection is as
    the length read left it, so that no byte of the body has been read,
    and the log of the body buffers is as it was, so that none has been
    allocated.  The log is that of [NewInboundPacket_logged], which
    returns and reads what [NewInboundPacket] does. *)
Theorem frame_length_boundary (timeout : Z) (c1 c1' c2 c2' : Conn)
    (body rest : list byte) (log : list Z) :
  deadline_err c1 = None ->
  readVarInt c1 = (Ok 2097151, c1') ->
  incoming c1' = body ++ rest ->
  len body = 2097151 ->
  deadline_err c2 = None ->
  readVarInt c2 = (Ok 2097152, c2') ->
  NewInboundPacket timeout c1 =
    match ReadVarInt (mkInbound 0 body) with
    | (Ok packetID, p) =>
        (Ok (mkInbound (int32 packetID) (reader p)), set_incoming rest c1')
    | (Err e, _) =>
        (Err (Wrap "failed to read packet id" e), set_incoming rest c1')
    | (Panic why, _) => (Panic why, set_incoming rest c1')
    end
  /\ NewInboundPacket timeout c2 =
       (Err (MsgZ "received packet is too long: %d" 2097152), c2')
  /\ rc_allocated
       (snd (NewInboundPacket_logged timeout (mkReceiving c1 log)))
     = log ++ [2097151]
  /\ NewInboundPacket_logged timeout (mkReceiving c2 log)
     = (Err (MsgZ "received packet is too long: %d" 2097152),
        mkReceiving c2' log)
  /\ (forall r : Receiving,
        fst (NewInboundPacket_logged timeout r)
        = fst (NewInboundPacket timeout (rc_conn r))
        /\ rc_conn (snd (NewInboundPacket_logged timeout r))
           = snd (NewInboundPacket timeout (rc_conn r))).
Proof.
  intros Hd1 Hr1 Hin Hlen Hd2 Hr2. split; [|split; [|split; [|split]]].
  - rewrite (NewInboundPacket_after_length timeout c1 c1' _ Hd1 Hr1).
    change (2097151 >? MaxPacketLength) with false.
    change (2097151 <? 0) with false. cbv iota.
    rewrite <- Hlen. rewrite (ConnReadFull_enough c1' body rest Hin).
    reflexivity.
  - rewrite (NewInboundPacket_after_length timeout c2 c2' _ Hd2 Hr2).
    reflexivity.
  - apply (NewInboundPacket_logged_after_length timeout c1 c1' log 2097151
             Hd1 Hr1); [reflexivity | lia].
  - apply (NewInboundPacket_logged_after_length timeout c2 c2' log 2097152
             Hd2 Hr2). reflexivity.
  - apply NewInboundPacket_logged_erase.
Qed.

Lemma frame_length_boundary_witness :
  NewInboundPacket 5
    (mkConn (Byte.xff :: Byte.xff :: Byte.x7f ::
             repeat Byte.x00 (Z.to_nat 2097151) ++ [Byte.x2a])
            EOF None (fun _ => None) [])
  = match ReadVarInt (mkInbound 0 (repeat Byte.x00 (Z.to_nat 2097151))) with
    | (Ok packetID, p) =>
        (Ok (mkInbound (int32 packetID) (reader p)),
         set_incoming [Byte.x2a]
           (mkConn (repeat Byte.x00 (Z.to_nat 2097151) ++ [Byte.x2a])
                   EOF None (fun _ => None) []))
    | (Err e, _) =>
        (Err (Wrap "failed to read packet id" e),
         set_incoming [Byte.x2a]
           (mkConn (repeat Byte.x00 (Z.to_nat 2097151) ++ [Byte.x2a])
                   EOF None (fun _ => None) []))
    | (Panic why, _) =>
        (Panic why,
         set_incoming [Byte.x2a]
           (mkConn (repeat Byte.x00 (Z.to_nat 2097151) ++ [Byte.x2a])
                   EOF None (fun _ => None) []))
    end
  /\ NewInboundPacket 5
       (mkConn [Byte.x80; Byte.x80; Byte.x80; Byte.x01; Byte.x2a]
               EOF None (fun _ => None) [])
     = (Err (MsgZ "received packet is too long: %d" 2097152),
        mkConn [Byte.x2a] EOF None (fun _ => None) [])
  /\ rc_allocated
       (snd (NewInboundPacket_logged 5
               (mkReceiving
                  (mkConn (Byte.xff :: Byte.xff :: Byte.x7f ::
                           repeat Byte.x00 (Z.to_nat 2097151) ++ [Byte.x2a])
                          EOF None (fun _ => None) [])
                  [])))
     = [] ++ [2097151]
  /\ NewInboundPacket_logged 5
       (mkReceiving
          (mkConn [Byte.x80; Byte.x80; Byte.x80; Byte.x01; Byte.x2a]
                  EOF None (fun _ => None) [])
          [])
     = (Err (MsgZ "received packet is too long: %d" 2097152),
        mkReceiving (mkConn [Byte.x2a] EOF None (fun _ => None) []) [])
  /\ (forall r : Receiving,
        fst (NewInboundPacket_logged 5 r)
        = fst (NewInboundPacket 5 (rc_conn r))
        /\ rc_conn (snd (NewInboundPacket_logged 5 r))
           = snd (NewInboundPacket 5 (rc_conn r))).
Proof.
  apply (frame_length_boundary 5
           (mkConn (Byte.xff :: Byte.xff :: Byte.x7f ::
                    repeat Byte.x00 (Z.to_nat 2097151) ++ [Byte.x2a])
                   EOF None (fun _ => None) [])
           (mkConn (repeat Byte.x00 (Z.to_nat 2097151) ++ [Byte.x2a])
                   EOF None (fun _ => None) [])
           (mkConn [Byte.x80; Byte.x80; Byte.x80; Byte.x01; Byte.x2a]
                   EOF None (fun _ => None) [])
           (mkConn [Byte.x2a] EOF None (fun _ => None) [])
           (repeat Byte.x00 (Z.to_nat 2097151)) [Byte.x2a] []).
  - reflexivity.
  - reflexivity.
  - reflexivity.
  - unfold len. rewrite repeat_length. apply Z2Nat.id. lia.
  - reflexivity.
  - reflexivity.
Defined.

(** C10 (the code panics).  Whenever the frame-length varint decodes to a
    negative [int32], [NewInboundPacket] reaches [make([]byte, length)]
    with that negative length and panics, instead of returning a packet or
    an error. *)
Theorem NewInboundPacket_negative_length_panics (timeout : Z) (c c' : Conn)
    (n : Z) :
  deadline_err c = None ->
  readVarInt c = (Ok n, c') ->
  n < 0 ->
  NewInboundPacket timeout c = (Panic "makeslice: len out of range", c').
Proof.
  intros Hdl Hread Hneg.
  rewrite (NewInboundPacket_after_length timeout c c' n Hdl Hread).
  replace (n >? MaxPacketLength) with false
    by (symmetry; rewrite Z.gtb_ltb; apply Z.ltb_ge; unfold MaxPacketLength; lia).
  replace (n <? 0) with true by (symmetry; apply Z.ltb_lt; lia).
  reflexivity.
Qed.

Lemma NewInboundPacket_negative_length_panics_witness :
  NewInboundPacket 5
    (mkConn [Byte.x80; Byte.x80; Byte.x80; Byte.x80; Byte.x08] EOF None
            (fun _ => None) [])
  = (Panic "makeslice: len out of range",
     mkConn [] EOF None (fun _ => None) []).
Proof.
  apply (NewInboundPacket_negative_length_panics 5 _ _ (-2147483648)).
  - reflexivity.
  - vm_compute. reflexivity.
  - lia.
Defined.

(** ** Typed reads and writes *)

Section TypedFields.

Lemma int32_range (z : Z) : - 2 ^ 31 <= int32 z < 2 ^ 31.
Proof.
  unfold int32, wrap_signed. change (32 - 1) with 31.
  pose proof (Z.mod_pos_bound (z + 2 ^ 31) (2 ^ 32) ltac:(lia)). lia.
Qed.

Lemma WriteVarInt_nonneg (n : Z) (p : OutboundPacket) :
  0 <= n < 2 ^ 31 ->
  exists bs,
    Binary.PutUvarint Binary.MaxVarintLen32 n = Some bs /\
    WriteVarInt n p = (Ok tt, mkOutbound (out_id p) (out_body p ++ bs)).
Proof.
  intros Hn. destruct (encodeVarInt_ok n Hn) as [bs [H1 H2]].
  exists bs. split; [assumption|].
  unfold WriteVarInt, bind, lift. unfold encodeVarInt in H1. rewrite H1.
  reflexivity.
Qed.

Lemma WriteVarLong_nonneg (n : Z) (p : OutboundPacket) :
  0 <= n < 2 ^ 63 ->
  exists bs,
    Binary.PutUvarint Binary.MaxVarintLen64 n = Some bs /\
    WriteVarLong n p = (Ok tt, mkOutbound (out_id p) (out_body p ++ bs)).
Proof.
  intros Hn.
  destruct (PutUvarint_fits Binary.MaxVarintLen64 n) as [bs Hbs].
  - change (2 ^ (7 * Z.of_nat Binary.MaxVarintLen64)) with (2 ^ 70). lia.
  - unfold Binary.MaxVarintLen64. lia.
  - exists bs. split; [assumption|].
    unfold WriteVarLong, bind, lift, put_uvarint.
    rewrite uint64_small by lia. rewrite Hbs. reflexivity.
Qed.

(** [ReadVarLong] goes through [ReadVarInt], whose result is an
    [int32]. *)
Lemma ReadVarLong_put (room : nat) (x : Z) (bs rest : list byte) (i : Z) :
  Binary.PutUvarint room x = Some bs -> 0 <= x < 2 ^ 64 ->
  ReadVarLong (mkInbound i (bs ++ rest)) = (Ok (int32 x), mkInbound i rest).
Proof.
  intros Hput Hx.
  unfold ReadVarLong, ReadVarInt, bind, on_reader, zoom, ret.
  cbn [reader in_id].
  rewrite (ReadUvarint_put room x bs rest Hput Hx).
  pose proof (int32_range x).
  rewrite int64_small by lia. reflexivity.
Qed.

End TypedFields.

(** C2 (the code truncates var-longs).  The 32-bit half of the round trip
    holds: what [WriteVarInt n] appends reads back as [n] for every
    [0 <= n < 2^31], from a packet with [ReadVarInt] and from a connection
    with [readVarInt].  The 64-bit half does not: what [WriteVarLong m]
    appends reads back through [ReadVarLong] as [int32 m], the low 32 bits
    of [m] taken as a signed number, which is [m] exactly when
    [m < 2^31]. *)
Theorem varint_round_trip_varlong_truncated (n m i : Z) (p : OutboundPacket)
    (rest : list byte) :
  0 <= n < 2 ^ 31 ->
  0 <= m < 2 ^ 63 ->
  (exists bs,
      WriteVarInt n p = (Ok tt, mkOutbound (out_id p) (out_body p ++ bs)) /\
      ReadVarInt (mkInbound i (bs ++ rest)) = (Ok n, mkInbound i rest) /\
      forall c : Conn,
        incoming c = bs ++ rest -> readVarInt c = (Ok n, set_incoming rest c))
  /\
  (exists bs,
      WriteVarLong m p = (Ok tt, mkOutbound (out_id p) (out_body p ++ bs)) /\
      ReadVarLong (mkInbound i (bs ++ rest)) = (Ok (int32 m), mkInbound i rest))
  /\ (int32 m = m <-> m < 2 ^ 31).
Proof.
  intros Hn Hm. split; [|split].
  - destruct (WriteVarInt_nonneg n p Hn) as [bs [Hput Hw]].
    exists bs. split; [assumption|]. split.
    + apply (ReadVarInt_put _ n bs rest i Hput Hn).
    + intros c Hin. apply (readVarInt_put _ n bs rest c Hput Hn Hin).
  - destruct (WriteVarLong_nonneg m p Hm) as [bs [Hput Hw]].
    exists bs. split; [assumption|].
    apply (ReadVarLong_put _ m bs rest i Hput). lia.
  - pose proof (int32_range m) as Hr. split.
    + intros E. rewrite E in Hr. lia.
    + intros Hlt. apply int32_small. lia.
Qed.

Lemma varint_round_trip_varlong_truncated_witness :
  (exists bs,
      WriteVarInt 300 (NewOutboundPacket 0)
        = (Ok tt, mkOutbound 0 ([] ++ bs)) /\
      ReadVarInt (mkInbound 0 (bs ++ [])) = (Ok 300, mkInbound 0 []) /\
      forall c : Conn,
        incoming c = bs ++ [] -> readVarInt c = (Ok 300, set_incoming [] c))
  /\
  (exists bs,
      WriteVarLong 2147483648 (NewOutboundPacket 0)
        = (Ok tt, mkOutbound 0 ([] ++ bs)) /\
      ReadVarLong (mkInbound 0 (bs ++ []))
        = (Ok (-2147483648), mkInbound 0 []))
  /\ (int32 2147483648 = 2147483648 <-> 2147483648 < 2 ^ 31).
Proof.
  apply (varint_round_trip_varlong_truncated
           300 2147483648 0 (NewOutboundPacket 0) []); lia.
Defined.

(** C4.  String length bound on both paths.  [WriteString] appends the
    length prefix and the bytes of every string of exactly 32,767 bytes,
    and for a string of 32,768 bytes returns the too-long error and leaves
    the packet as it was.  [ReadString] on a length prefix of 32,767
    followed by that many bytes returns them; when the prefix decodes to
    more than 32,767 it returns the too-long error with the reader where
    the prefix ended, so no byte of the string has been read. *)
Theorem string_length_boundary (p : OutboundPacket) (s s' rest r r' : list byte)
    (i n : Z) :
  len s = 32767 ->
  len s' = 32768 ->
  ReadVarInt (mkInbound i r) = (Ok n, mkInbound i r') ->
  n > 32767 ->
  WriteString s p
    = (Ok tt, mkOutbound (out_id p)
                (out_body p ++ [Byte.xff; Byte.xff; Byte.x01] ++ s))
  /\ WriteString s' p = (Err (MsgZ "string is longer than %d" 32767), p)
  /\ ReadString (mkInbound i ([Byte.xff; Byte.xff; Byte.x01] ++ s ++ rest))
     = (Ok s, mkInbound i rest)
  /\ ReadString (mkInbound i r)
     = (Err (MsgZ "received string exceeds the max string length: %d" n),
        mkInbound i r').
Proof.
  intros Hs Hs' Hread Hn. repeat split.
  - unfold WriteString. rewrite Hs. change (32767 >? MaxStringLength) with false.
    cbv iota. unfold bind, WriteVarInt, lift, bind.
    change (put_uvarint Binary.MaxVarintLen32 (int32 32767))
      with (Ok [Byte.xff; Byte.xff; Byte.x01]).
    unfold WriteBytes, modify. cbn [out_id out_body].
    rewrite <- app_assoc. reflexivity.
  - unfold WriteString. rewrite Hs'. reflexivity.
  - unfold ReadString, bind, wrapping.
    rewrite (ReadVarInt_put Binary.MaxVarintLen32 32767
               [Byte.xff; Byte.xff; Byte.x01] (s ++ rest) i eq_refl) by lia.
    change (32767 >? MaxStringLength) with false. cbv iota.
    unfold ReadBytes, wrapping, on_reader, zoom, readBytes.
    cbn [reader in_id]. change (32767 <? 0) with false.
    change (32767 >? maxAlloc) with false. cbv iota.
    replace (32767 <=? len (s ++ rest)) with true
      by (symmetry; apply Z.leb_le; rewrite len_app, Hs;
          pose proof (len_nonneg rest); lia).
    rewrite <- Hs, firstn_len_app, skipn_len_app. reflexivity.
  - unfold ReadString, bind, wrapping. rewrite Hread.
    replace (n >? MaxStringLength) with true
      by (symmetry; apply Z.gtb_lt; unfold MaxStringLength; lia).
    reflexivity.
Qed.

Lemma string_length_boundary_witness :
  WriteString (repeat Byte.x41 (Z.to_nat 32767)) (NewOutboundPacket 0)
    = (Ok tt, mkOutbound 0
                ([] ++ [Byte.xff; Byte.xff; Byte.x01]
                    ++ repeat Byte.x41 (Z.to_nat 32767)))
  /\ WriteString (repeat Byte.x41 (Z.to_nat 32768)) (NewOutboundPacket 0)
     = (Err (MsgZ "string is longer than %d" 32767), NewOutboundPacket 0)
  /\ ReadString (mkInbound 0 ([Byte.xff; Byte.xff; Byte.x01]
                              ++ repeat Byte.x41 (Z.to_nat 32767) ++ [Byte.x2a]))
     = (Ok (repeat Byte.x41 (Z.to_nat 32767)), mkInbound 0 [Byte.x2a])
  /\ ReadString (mkInbound 0 [Byte.x80; Byte.x80; Byte.x02; Byte.x41])
     = (Err (MsgZ "received string exceeds the max string length: %d" 32768),
        mkInbound 0 [Byte.x41]).
Proof.
  apply (string_length_boundary (NewOutboundPacket 0)
           (repeat Byte.x41 (Z.to_nat 32767))
           (repeat Byte.x41 (Z.to_nat 32768))
           [Byte.x2a] [Byte.x80; Byte.x80; Byte.x02; Byte.x41] [Byte.x41]
           0 32768).
  - unfold len. rewrite repeat_length. apply Z2Nat.id. lia.
  - unfold len. rewrite repeat_length. apply Z2Nat.id. lia.
  - reflexivity.
  - lia.
Defined.

(** ** Bounded varint reads *)

(** The continuation bit of a byte, [(b & 0x80) != 0]. *)
Lemma continues_not_small (b : byte) :
  (Z.land (byte_val b) 0x80 =? 0) = false -> (byte_val b <? 0x80) = false.
Proof. destruct b; vm_compute; congruence. Qed.

Lemma terminates_small (b : byte) :
  (Z.land (byte_val b) 0x80 =? 0) = true -> (byte_val b <? 0x80) = true.
Proof. destruct b; vm_compute; congruence. Qed.

(** C5 (the packet-level read is not bounded by five bytes).  On a stream
    whose first five bytes all have the continuation bit set, [readVarInt]
    on the connection returns the varint-too-long error after exactly five
    bytes.  [ReadVarInt] on a packet does not: when the sixth byte ends the
    varint it consumes all six bytes and returns a value with no error. *)
Theorem varint_read_bound (c : Conn) (i : Z) (b1 b2 b3 b4 b5 b6 : byte)
    (rest : list byte) :
  (forall b, In b [b1; b2; b3; b4; b5] ->
             (Z.land (byte_val b) 0x80 =? 0) = false) ->
  (Z.land (byte_val b6) 0x80 =? 0) = true ->
  incoming c = b1 :: b2 :: b3 :: b4 :: b5 :: b6 :: rest ->
  readVarInt c = (Err (Msg "varint is too long"), set_incoming (b6 :: rest) c)
  /\ exists v,
       ReadVarInt (mkInbound i (b1 :: b2 :: b3 :: b4 :: b5 :: b6 :: rest))
       = (Ok v, mkInbound i rest).
Proof.
  intros Hcont Hlast Hin.
  assert (H1 := Hcont b1 ltac:(simpl; tauto)).
  assert (H2 := Hcont b2 ltac:(simpl; tauto)).
  assert (H3 := Hcont b3 ltac:(simpl; tauto)).
  assert (H4 := Hcont b4 ltac:(simpl; tauto)).
  assert (H5 := Hcont b5 ltac:(simpl; tauto)).
  split.
  - unfold readVarInt. rewrite Hin.
    cbn [readVarInt_loop]. rewrite H1. cbv iota.
    change (0 + 7 >=? 32) with false. cbv iota.
    cbn [readVarInt_loop]. rewrite H2. cbv iota.
    change (0 + 7 + 7 >=? 32) with false. cbv iota.
    cbn [readVarInt_loop]. rewrite H3. cbv iota.
    change (0 + 7 + 7 + 7 >=? 32) with false. cbv iota.
    cbn [readVarInt_loop]. rewrite H4. cbv iota.
    change (0 + 7 + 7 + 7 + 7 >=? 32) with false. cbv iota.
    cbn [readVarInt_loop]. rewrite H5. cbv iota.
    change (0 + 7 + 7 + 7 + 7 + 7 >=? 32) with true. cbv iota.
    reflexivity.
  - apply continues_not_small in H1, H2, H3, H4, H5.
    apply terminates_small in Hlast.
    unfold ReadVarInt, bind, on_reader, zoom, ret, Binary.ReadUvarint.
    cbn [reader in_id].
    unfold Binary.MaxVarintLen64.
    cbn [Binary.ReadUvarint_loop]. rewrite H1.
    cbn [Binary.ReadUvarint_loop]. rewrite H2.
    cbn [Binary.ReadUvarint_loop]. rewrite H3.
    cbn [Binary.ReadUvarint_loop]. rewrite H4.
    cbn [Binary.ReadUvarint_loop]. rewrite H5.
    cbn [Binary.ReadUvarint_loop]. rewrite Hlast.
    change (0 + 1 + 1 + 1 + 1 + 1 =? Z.of_nat 10 - 1) with false.
    cbn [andb]. eexists. reflexivity.
Qed.

Lemma varint_read_bound_witness :
  readVarInt (mkConn [Byte.x80; Byte.x80; Byte.x80; Byte.x80; Byte.x80;
                      Byte.x00; Byte.x07] EOF None (fun _ => None) [])
  = (Err (Msg "varint is too long"),
     set_incoming [Byte.x00; Byte.x07]
       (mkConn [Byte.x80; Byte.x80; Byte.x80; Byte.x80; Byte.x80;
                Byte.x00; Byte.x07] EOF None (fun _ => None) []))
  /\ exists v,
       ReadVarInt (mkInbound 0 [Byte.x80; Byte.x80; Byte.x80; Byte.x80;
                                Byte.x80; Byte.x00; Byte.x07])
       = (Ok v, mkInbound 0 [Byte.x07]).
Proof.
  apply (varint_read_bound _ 0 Byte.x80 Byte.x80 Byte.x80 Byte.x80 Byte.x80
                           Byte.x00 [Byte.x07]).
  - intros b Hb. simpl in Hb.
    destruct Hb as [<-|[<-|[<-|[<-|[<-|[]]]]]]; reflexivity.
  - reflexivity.
  - reflexivity.
Defined.

(** ** Fixed-width integers on the wire *)

Section BigEndian.

Lemma big_endian_put_length (n : nat) :
  forall z, List.length (big_endian_put n z) = n.
Proof.
  induction n as [|n IH]; intros z; [reflexivity|].
  simpl. rewrite length_app, IH. simpl. lia.
Qed.

Lemma big_endian_get_snoc (bs : list byte) (b : byte) :
  big_endian_get (bs ++ [b])
  = Z.lor (Z.shiftl (big_endian_get bs) 8) (byte_val b).
Proof. unfold big_endian_get. rewrite fold_left_app. reflexivity. Qed.

Lemma big_endian_get_put (n : nat) :
  forall z, big_endian_get (big_endian_put n z) = z mod 2 ^ (8 * Z.of_nat n).
Proof.
  induction n as [|n IH]; intros z.
  - simpl. rewrite Z.mod_1_r. reflexivity.
  - cbn [big_endian_put]. rewrite big_endian_get_snoc, IH, byte_val_of_Z.
    change 256 with (2 ^ 8).
    apply Z.bits_inj'. intros j Hj.
    rewrite Z.lor_spec, Z.shiftl_spec by lia.
    destruct (Z_lt_dec j 8) as [Hlo|Hhi].
    + rewrite Z.testbit_neg_r by lia.
      rewrite !Z.mod_pow2_bits_low by lia. reflexivity.
    + rewrite (Z.mod_pow2_bits_high z 8 j) by lia. rewrite orb_false_r.
      destruct (Z_lt_dec (j - 8) (8 * Z.of_nat n)) as [Hin|Hout].
      * rewrite !Z.mod_pow2_bits_low by lia.
        rewrite Z.shiftr_spec by lia. f_equal. lia.
      * rewrite !Z.mod_pow2_bits_high by lia. reflexivity.
Qed.

(** [int64(binary.BigEndian.Uint64(buf))] after
    [binary.BigEndian.PutUint64(buf, uint64(v))]. *)
Lemma long_round_trip (v : Z) :
  is_int64 v -> int64 (big_endian_get (big_endian_put 8 (uint64 v))) = v.
Proof.
  unfold is_int64. intros Hv. rewrite big_endian_get_put.
  change (2 ^ (8 * Z.of_nat 8)) with (2 ^ 64).
  unfold uint64, wrap_unsigned. rewrite Z.mod_mod by lia.
  unfold int64, wrap_signed. change (64 - 1) with 63.
  rewrite Zplus_mod_idemp_l. rewrite Z.mod_small; lia.
Qed.

End BigEndian.

(** ** The client *)

Section ClientFacts.

Import Client.

Variable ParseIP : list byte -> bool.
Variable LookupSRV : list byte -> result (list Address.SRV).
Variable DialTimeout : Address.HostPort -> Z -> result Conn.
Variable Response : Type.
Variable NewResponse : list byte -> result Response.

Local Abbreviation connect := (connect ParseIP LookupSRV DialTimeout).
Local Abbreviation resolved := (resolved ParseIP LookupSRV).
Local Abbreviation connectAndHandshake :=
  (connectAndHandshake ParseIP LookupSRV DialTimeout).
Local Abbreviation Status :=
  (Status ParseIP LookupSRV DialTimeout Response NewResponse).
Local Abbreviation Ping := (Ping ParseIP LookupSRV DialTimeout).

Lemma resolved_fields (c : Client) :
  state (resolved c) = state c /\ timeout (resolved c) = timeout c /\
  protocol (resolved c) = protocol c /\ conn (resolved c) = conn c.
Proof. unfold Client.resolved. destruct (srv c); repeat split. Qed.

Lemma connect_idle (c : Client) (k : Conn) :
  state c = Idle ->
  DialTimeout (Address.String (addr (resolved c))) (timeout (resolved c))
    = Ok k ->
  connect c = (Ok tt, set_state Connected (set_conn (Some k) (resolved c))).
Proof.
  intros Hst Hdial. unfold Client.connect. rewrite Hst.
  change (state_gt Idle Idle) with false. cbv iota zeta.
  rewrite Hdial. reflexivity.
Qed.

Lemma connect_not_idle (c : Client) :
  state_rank (state c) > state_rank Idle ->
  connect c = (Err (Msg "client is already connected"), c).
Proof.
  intros Hst. unfold Client.connect, state_gt.
  replace (state_rank (state c) >? state_rank Idle) with true
    by (symmetry; apply Z.gtb_lt; lia).
  reflexivity.
Qed.

Lemma Write_ok (p : OutboundPacket) (frame : list byte) (k : Conn) :
  fst (Build p) = Ok frame ->
  write_err k (List.length (sent k)) = None ->
  Write p k = (Ok tt, after_write frame k).
Proof.
  intros HB Hw. unfold Write, bind, lift, wrapping, ConnWrite.
  rewrite HB, Hw. reflexivity.
Qed.

Lemma sendHandshake_ok (c : Client) (next : Z) (k : Conn)
    (hp : OutboundPacket) (hs : list byte) :
  conn c = Some k ->
  handshakePacket c next = Ok hp ->
  fst (Build hp) = Ok hs ->
  write_err k (List.length (sent k)) = None ->
  sendHandshake next c
  = (Ok tt, set_state HandshakeComplete (set_conn (Some (after_write hs k)) c)).
Proof.
  intros Hc Hhp HB Hw.
  unfold sendHandshake, bind, get, lift, wrapping, on_conn, modify.
  rewrite Hhp, Hc, (Write_ok hp hs k HB Hw). reflexivity.
Qed.

Lemma handshakePacket_indep (c : Client) (next : Z) (s : ConnState)
    (k : option Conn) :
  handshakePacket (set_state s (set_conn k c)) next = handshakePacket c next.
Proof. reflexivity. Qed.

(** From [Idle], [connectAndHandshake] dials and then sends the
    handshake. *)
Lemma connectAndHandshake_idle (c : Client) (next : Z) (k : Conn)
    (hp : OutboundPacket) (hs : list byte) :
  state c = Idle ->
  DialTimeout (Address.String (addr (resolved c))) (timeout (resolved c))
    = Ok k ->
  handshakePacket (resolved c) next = Ok hp ->
  fst (Build hp) = Ok hs ->
  write_err k (List.length (sent k)) = None ->
  connectAndHandshake next c
  = (Ok tt, set_state HandshakeComplete
              (set_conn (Some (after_write hs k)) (resolved c))).
Proof.
  intros Hst Hdial Hhp HB Hw.
  unfold Client.connectAndHandshake, bind, get. rewrite Hst.
  change (state_lt Idle Connected) with true. cbv iota.
  rewrite (connect_idle c k Hst Hdial).
  cbn [state set_state].
  change (state_lt Connected HandshakeComplete) with true. cbv iota.
  rewrite (sendHandshake_ok (set_state Connected (set_conn (Some k) (resolved c)))
             next k hp hs eq_refl Hhp HB Hw).
  reflexivity.
Qed.

(** Receiving a packet only consumes incoming bytes. *)
Lemma NewInboundPacket_consumes (t : Z) (k : Conn) :
  exists bs, snd (NewInboundPacket t k) = set_incoming bs k.
Proof.
  assert (Hid : k = set_incoming (incoming k) k) by (destruct k; reflexivity).
  unfold NewInboundPacket, bind, wrapping, SetReadDeadline.
  destruct (deadline_err k); [exists (incoming k); exact Hid|].
  unfold readVarInt.
  destruct (readVarInt_loop (at_end k) 0 0 (incoming k)) as [[n|e|why] bs].
  - destruct (n >? MaxPacketLength); [exists bs; reflexivity|].
    unfold lift, make_bytes. destruct (n <? 0); [exists bs; reflexivity|].
    unfold ConnReadFull. cbn [at_end incoming set_incoming].
    destruct (Binary.ReadFull (at_end k) (Z.to_nat n) bs) as [[body|e|why] bs'].
    + destruct (ReadVarInt (mkInbound 0 body)) as [[id|e|why] q];
        exists bs'; reflexivity.
    + exists bs'. reflexivity.
    + exists bs'. reflexivity.
  - exists bs. reflexivity.
  - exists bs. reflexivity.
Qed.

Lemma recvStatusResponse_sent (c : Client) (k : Conn) :
  conn c = Some k ->
  exists bs,
    snd (recvStatusResponse c) = set_conn (Some (set_incoming bs k)) c.
Proof.
  intros Hc. unfold recvStatusResponse, bind, get, wrapping, on_conn.
  rewrite Hc.
  destruct (NewInboundPacket_consumes (timeout c) k) as [bs Hbs].
  destruct (NewInboundPacket (timeout c) k) as [[res|e|why] k'];
    cbn [snd] in Hbs; subst k'; exists bs; try reflexivity.
  unfold reading, lift, fail.
  destruct ((ID res =? DisconnectID) || (ID res =? LegacyDisconnectID)).
  - destruct (fst (ReadString res)); reflexivity.
  - destruct (negb (ID res =? StatusID)); [reflexivity|].
    destruct (fst (ReadString res)); reflexivity.
Qed.

(** The status request is the frame of an empty packet with
    identifier 0, the two bytes [01 00]. *)
Lemma sendStatusRequest_ok (c : Client) (k : Conn) :
  conn c = Some k ->
  write_err k (List.length (sent k)) = None ->
  sendStatusRequest c
  = (Ok tt, set_conn (Some (after_write [Byte.x01; Byte.x00] k)) c).
Proof.
  intros Hc Hw. unfold sendStatusRequest, wrapping, on_conn. rewrite Hc.
  rewrite (Write_ok (NewOutboundPacket StatusID) [Byte.x01; Byte.x00] k
             eq_refl Hw).
  reflexivity.
Qed.

(** C6.  State-machine sequencing.  On a client [c] in state [Idle] whose
    dial succeeds with the connection [k], [Status] first connects, then
    sends the handshake frame [hs], which takes the client to
    [HandshakeComplete], and only then sends the status request: at the
    end of the call the frames written on the connection are, in this
    order, [hs] and the status request.  On a client [d] whose state is
    above [Idle], [connect] fails with the already-connected error and
    changes nothing. *)
Theorem status_handshakes_first_connect_once (c d : Client) (k : Conn)
    (hp : OutboundPacket) (hs : list byte) :
  state c = Idle ->
  DialTimeout (Address.String (addr (resolved c))) (timeout (resolved c))
    = Ok k ->
  handshakePacket (resolved c) StatusState = Ok hp ->
  fst (Build hp) = Ok hs ->
  write_err k (List.length (sent k)) = None ->
  write_err k (S (List.length (sent k))) = None ->
  state_rank (state d) > state_rank Idle ->
  (exists c1,
      connectAndHandshake StatusState c = (Ok tt, c1) /\
      state c1 = HandshakeComplete /\
      option_map sent (conn c1) = Some (sent k ++ [hs]) /\
      state (snd (Status c)) = HandshakeComplete /\
      option_map sent (conn (snd (Status c)))
        = Some (sent k ++ [hs; [Byte.x01; Byte.x00]]))
  /\ connect d = (Err (Msg "client is already connected"), d).
Proof.
  intros Hst Hdial Hhp HB Hw1 Hw2 Hd. split.
  - eexists. split;
      [apply (connectAndHandshake_idle c StatusState k hp hs Hst Hdial Hhp HB Hw1)|].
    split; [reflexivity|]. split; [reflexivity|].
    unfold Client.Status, bind.
    rewrite (connectAndHandshake_idle c StatusState k hp hs Hst Hdial Hhp HB Hw1).
    rewrite (sendStatusRequest_ok
               (set_state HandshakeComplete
                  (set_conn (Some (after_write hs k)) (resolved c)))
               (after_write hs k) eq_refl)
      by (cbn [after_write sent write_err]; rewrite length_app, Nat.add_comm;
          exact Hw2).
    unfold wrapping.
    match goal with
    | |- context [recvStatusResponse ?x] =>
        destruct (recvStatusResponse_sent x
                    (after_write [Byte.x01; Byte.x00] (after_write hs k))
                    eq_refl) as [bs Hbs];
        destruct (recvStatusResponse x) as [[raw|e|why] c3];
        cbn [snd] in Hbs; subst c3
    end.
    + unfold lift. destruct (NewResponse raw); cbn [snd];
        (split; [reflexivity|]);
        cbn [conn set_conn option_map set_incoming sent after_write];
        rewrite <- app_assoc; reflexivity.
    + cbn [snd]. split; [reflexivity|].
      cbn [conn set_conn option_map set_incoming sent after_write].
      rewrite <- app_assoc. reflexivity.
    + cbn [snd]. split; [reflexivity|].
      cbn [conn set_conn option_map set_incoming sent after_write].
      rewrite <- app_assoc. reflexivity.
  - apply connect_not_idle. exact Hd.
Qed.

(** *** Ping *)

Lemma Build_long (z : Z) :
  fst (Build (mkOutbound PingID (big_endian_put 8 z)))
  = Ok ([Byte.x09; Byte.x01] ++ big_endian_put 8 z).
Proof.
  assert (Hlen : len ([Byte.x01] ++ big_endian_put 8 z) = 9).
  { unfold len. rewrite length_app, big_endian_put_length. reflexivity. }
  destruct (Build_within_limit PingID (big_endian_put 8 z) [Byte.x01])
    as [lb [Hlb HB]].
  - unfold is_int32, PingID. lia.
  - reflexivity.
  - rewrite Hlen. unfold MaxPacketLength. lia.
  - rewrite HB. cbn [fst]. rewrite Hlen in Hlb.
    vm_compute in Hlb. injection Hlb as <-. reflexivity.
Qed.

Lemma sendPing_ok (c : Client) (k : Conn) (timestamp : Z) :
  conn c = Some k ->
  write_err k (List.length (sent k)) = None ->
  sendPing timestamp c
  = (Ok tt, set_conn (Some (after_write (ping_frame timestamp) k)) c).
Proof.
  intros Hc Hw. unfold sendPing, bind, lift, wrapping, on_conn.
  change (assemble PingID (WriteLong timestamp))
    with (Ok (mkOutbound PingID (big_endian_put 8 (uint64 timestamp)))).
  cbv iota beta. rewrite Hc.
  rewrite (Write_ok _ _ k (Build_long (uint64 timestamp)) Hw).
  reflexivity.
Qed.

Lemma recvPong_ok (c : Client) (k : Conn) (payload : Z) (rest : list byte) :
  conn c = Some k ->
  deadline_err k = None ->
  incoming k = ping_frame payload ++ rest ->
  is_int64 payload ->
  recvPong c = (Ok payload, set_conn (Some (set_incoming rest k)) c).
Proof.
  intros Hc Hdl Hin Hp.
  unfold recvPong, bind, get, wrapping, on_conn. rewrite Hc.
  assert (Hlen : len ([Byte.x01] ++ big_endian_put 8 (uint64 payload)) = 9).
  { unfold len. rewrite length_app, big_endian_put_length. reflexivity. }
  rewrite (NewInboundPacket_frame (timeout c) k [Byte.x09]
             ([Byte.x01] ++ big_endian_put 8 (uint64 payload)) rest Hdl).
  - rewrite (ReadVarInt_put Binary.MaxVarintLen32 1 [Byte.x01]
               (big_endian_put 8 (uint64 payload)) 0 eq_refl) by lia.
    cbn [reader]. change (int32 1) with 1.
    change (negb (ID (mkInbound 1 (big_endian_put 8 (uint64 payload))) =? PongID))
      with false.
    cbv iota.
    unfold reading, lift, ReadLong, bind, wrapping, on_reader, zoom,
      Binary.ReadFull, ret.
    cbn [reader in_id fst].
    rewrite big_endian_put_length. change (8 <=? 8)%nat with true.
    cbv iota.
    rewrite <- (big_endian_put_length 8 (uint64 payload)) at 1.
    rewrite firstn_all. cbn [fst].
    rewrite (long_round_trip payload Hp). reflexivity.
  - rewrite Hlen. reflexivity.
  - rewrite Hlen. unfold MaxPacketLength. lia.
  - rewrite Hin. unfold ping_frame. reflexivity.
Qed.

Lemma recvPong_silent (c : Client) (k : Conn) :
  conn c = Some k ->
  deadline_err k = None ->
  incoming k = [] ->
  recvPong c
  = (Err (Wrap "failed to read pong"
            (Wrap "failed to read packet length"
               (Wrap "failed to read varint" (at_end k)))),
     set_conn (Some (set_incoming [] k)) c).
Proof.
  intros Hc Hdl Hin.
  unfold recvPong, bind, get, wrapping, on_conn. rewrite Hc.
  unfold NewInboundPacket, bind, wrapping, SetReadDeadline, readVarInt.
  rewrite Hdl, Hin. reflexivity.
Qed.

(** The latency: the nanoseconds between the two readings of the
    monotonic clock, in whole milliseconds. *)
Lemma elapsed_milliseconds (t0 t1 : Time) :
  0 <= mono t1 - mono t0 < 2 ^ 63 ->
  Milliseconds (Since t0 t1) = (mono t1 - mono t0) / 1000000.
Proof.
  intros H. unfold Milliseconds, Since.
  rewrite Z.min_r by lia. rewrite Z.max_r by lia.
  apply Z.quot_div_nonneg; lia.
Qed.

(** C7.  Ping semantics.  Take clients on which the connection and the
    handshake succeed and the ping can be written, and two readings of the
    clock between which less than 2^63 nanoseconds have passed.  When the
    peer answers with a pong frame whose payload differs from the
    timestamp sent, [Ping] returns the wrong-pong-id error together with
    the latency measured around the round trip, the nanoseconds elapsed
    divided by 1,000,000, and leaves the state alone; this latency is
    zero only when less than a millisecond has elapsed.  When the payload
    is the timestamp sent, [Ping] returns the same latency with no error
    and the state is [Idle].  When the peer does not answer at all, [Ping]
    returns the error of the read with the latency 0, whatever time has
    elapsed: the mismatch is the one error with which the measurement is
    returned. *)
Theorem ping_mismatch_keeps_latency_success_resets
    (cw cw1 cr cr1 cs cs1 : Client) (kw kr ks : Conn) (t0 t1 : Time)
    (payload : Z) (rest : list byte) :
  connectAndHandshake StatusState cw = (Ok tt, cw1) ->
  conn cw1 = Some kw ->
  deadline_err kw = None ->
  write_err kw (List.length (sent kw)) = None ->
  incoming kw = ping_frame payload ++ rest ->
  is_int64 payload ->
  payload <> Unix t0 ->
  connectAndHandshake StatusState cr = (Ok tt, cr1) ->
  conn cr1 = Some kr ->
  deadline_err kr = None ->
  write_err kr (List.length (sent kr)) = None ->
  incoming kr = ping_frame (Unix t0) ++ rest ->
  is_int64 (Unix t0) ->
  connectAndHandshake StatusState cs = (Ok tt, cs1) ->
  conn cs1 = Some ks ->
  deadline_err ks = None ->
  write_err ks (List.length (sent ks)) = None ->
  incoming ks = [] ->
  0 <= mono t1 - mono t0 < 2 ^ 63 ->
  Ping t0 t1 cw
  = (((mono t1 - mono t0) / 1000000,
      Err (Msg "server responded with wrong pong id")),
     set_conn
       (Some (set_incoming rest (after_write (ping_frame (Unix t0)) kw))) cw1)
  /\ state (snd (Ping t0 t1 cw)) = state cw1
  /\ (fst (fst (Ping t0 t1 cw)) = 0 <-> mono t1 - mono t0 < 1000000)
  /\ Ping t0 t1 cr
     = (((mono t1 - mono t0) / 1000000, Ok tt),
        set_state Idle
          (set_conn
             (Some (set_incoming rest (after_write (ping_frame (Unix t0)) kr)))
             cr1))
  /\ state (snd (Ping t0 t1 cr)) = Idle
  /\ Ping t0 t1 cs
     = ((0,
         Err (Wrap "failed to receive pong"
                (Wrap "failed to read pong"
                   (Wrap "failed to read packet length"
                      (Wrap "failed to read varint" (at_end ks)))))),
        set_conn
          (Some (set_incoming [] (after_write (ping_frame (Unix t0)) ks)))
          cs1).
Proof.
  intros Hchw Hcw Hdw Hww Hinw Hp Hne Hchr Hcr Hdr Hwr Hinr Ht0
         Hchs Hcs Hds Hws Hins Hclock.
  pose proof (elapsed_milliseconds t0 t1 Hclock) as Hms.
  assert (HW : Ping t0 t1 cw
               = (((mono t1 - mono t0) / 1000000,
                   Err (Msg "server responded with wrong pong id")),
                  set_conn
                    (Some (set_incoming rest
                             (after_write (ping_frame (Unix t0)) kw))) cw1)).
  { unfold Client.Ping. rewrite Hchw.
    rewrite (sendPing_ok cw1 kw (Unix t0) Hcw Hww).
    rewrite (recvPong_ok
               (set_conn (Some (after_write (ping_frame (Unix t0)) kw)) cw1)
               (after_write (ping_frame (Unix t0)) kw) payload rest
               eq_refl Hdw Hinw Hp).
    replace (negb (payload =? Unix t0)) with true
      by (symmetry; apply negb_true_iff, Z.eqb_neq; exact Hne).
    rewrite Hms. reflexivity. }
  assert (HR : Ping t0 t1 cr
               = (((mono t1 - mono t0) / 1000000, Ok tt),
                  set_state Idle
                    (set_conn
                       (Some (set_incoming rest
                                (after_write (ping_frame (Unix t0)) kr)))
                       cr1))).
  { unfold Client.Ping. rewrite Hchr.
    rewrite (sendPing_ok cr1 kr (Unix t0) Hcr Hwr).
    rewrite (recvPong_ok
               (set_conn (Some (after_write (ping_frame (Unix t0)) kr)) cr1)
               (after_write (ping_frame (Unix t0)) kr) (Unix t0) rest
               eq_refl Hdr Hinr Ht0).
    rewrite Z.eqb_refl. cbn [negb]. rewrite Hms. reflexivity. }
  split; [exact HW|]. split; [rewrite HW; reflexivity|].
  split.
  { rewrite HW. cbn [fst]. split; intros H.
    - destruct (Z_lt_dec (mono t1 - mono t0) 1000000) as [Hlt|Hge];
        [exact Hlt|].
      pose proof (Z.div_le_mono 1000000 (mono t1 - mono t0) 1000000
                    ltac:(lia) ltac:(lia)) as Hd.
      rewrite Z.div_same in Hd by lia. lia.
    - apply Z.div_small. lia. }
  split; [exact HR|]. split; [rewrite HR; reflexivity|].
  unfold Client.Ping. rewrite Hchs.
  rewrite (sendPing_ok cs1 ks (Unix t0) Hcs Hws).
  rewrite (recvPong_silent
             (set_conn (Some (after_write (ping_frame (Unix t0)) ks)) cs1)
             (after_write (ping_frame (Unix t0)) ks) eq_refl Hds Hins).
  reflexivity.
Qed.

End ClientFacts.

(** ** The fingerprint cascade *)

Section FingerprintFacts.

Import Regexp FingerprintBase.
Local Open Scope string_scope.

(** C8.  Literal case of the cascade.  A disconnect message whose
    [translate] is [disconnect.genericReason] and whose first substitution
    argument is the CraftBukkit text is classified as [craftbukkit] with
    no error, by both revisions of [Fingerprint].  (The [text] field,
    which such a message leaves empty, must not be one of the two texts
    the cascade tests before [translate].) *)
Theorem fingerprint_craftbukkit_literal (m : DisconnectMsg)
    (others : list string) :
  Translate m = "disconnect.genericReason" ->
  With m = Scenario.craftbukkit_text :: others ->
  Text m <> velocity_text ->
  Text m <> throttled ->
  Fingerprint.Fingerprint m = (CraftBukkit, None)
  /\ FingerprintRev.Fingerprint m = (CraftBukkit, None).
Proof.
  intros Htr Hwith Hvel Hthr.
  apply String.eqb_neq in Hvel, Hthr.
  split.
  - unfold Fingerprint.Fingerprint.
    rewrite Hvel, Hthr, Htr, Hwith. vm_compute. reflexivity.
  - unfold FingerprintRev.Fingerprint.
    rewrite Hvel, Hthr, Htr, Hwith. vm_compute. reflexivity.
Qed.

Lemma HasPrefix_brace (res : string) :
  HasPrefix res "{" = true -> exists tail, res = String "{" tail.
Proof.
  destruct res as [|a tail]; cbn [HasPrefix]; [discriminate|].
  destruct (Ascii.eqb "{" a) eqn:E; [|discriminate].
  apply Ascii.eqb_eq in E. subst a. eauto.
Qed.

(** A pattern that starts with [^] matches nowhere but at the beginning. *)
Lemma find_versionMismatch_inside (s : string) :
  find versionMismatch false s = None.
Proof.
  induction s as [|a s IH].
  - reflexivity.
  - cbn [find].
    change (match_here versionMismatch false (String a s)) with (@None string).
    rewrite IH. reflexivity.
Qed.

Lemma versionMismatch_brace (tail : string) :
  MatchString versionMismatch (String "{" tail) = false.
Proof.
  unfold MatchString. cbn [find].
  change (match_here versionMismatch true (String "{" tail))
    with (@None string).
  rewrite find_versionMismatch_inside. reflexivity.
Qed.

Lemma fingerprint_craftbukkit_literal_witness :
  Fingerprint.Fingerprint
    (mkDisconnectMsg "disconnect.genericReason" [Scenario.craftbukkit_text] "")
  = (CraftBukkit, None)
  /\ FingerprintRev.Fingerprint
       (mkDisconnectMsg "disconnect.genericReason" [Scenario.craftbukkit_text] "")
     = (CraftBukkit, None).
Proof.
  apply (fingerprint_craftbukkit_literal
           (mkDisconnectMsg "disconnect.genericReason"
                            [Scenario.craftbukkit_text] "") []).
  - reflexivity.
  - reflexivity.
  - simpl. discriminate.
  - simpl. discriminate.
Defined.

(** C9 (one revision misses the case).  For the disconnect message with
    [translate = multiplayer.disconnect.outdated_client] and
    [with = [1.20.2]], the case of the test table: the [VersionMismatch]
    of [fingerprint/fingerprint.go] does not recognise it, the test fails
    on it, and the classification ends in the unfamiliar-error-topic
    error; the later revision recognises it and the classification
    reports the version-mismatch error carrying [1.20.2] with the label
    [unknown]. *)
Theorem outdated_client_version_mismatch
    (Unmarshal : string -> DisconnectMsg + error) (res : string) :
  Unmarshal res = inl (FingerprintTest.msg FingerprintTest.outdated_client_case) ->
  HasPrefix res "{" = true ->
  Contains res "Forge" = false ->
  map (FingerprintTest.passes Fingerprint.VersionMismatch) FingerprintTest.tests
    = [true; false; true]
  /\ map (FingerprintTest.passes FingerprintRev.VersionMismatch)
         FingerprintTest.tests
     = [true; true; true]
  /\ Fingerprint.FingerprintWithProtocol Unmarshal res
       Packet.LoginDisconnectID None
     = (Unknown,
        Some (MsgS "server responded with unfamiliar error topic: %s"
                   "multiplayer.disconnect.outdated_client"))
  /\ FingerprintRev.FingerprintWithProtocol Unmarshal res
       Packet.LoginDisconnectID None
     = (Unknown, Some (MsgS "version mismatch: %s" "1.20.2")).
Proof.
  intros Hjson Hbrace Hforge.
  split; [reflexivity|]. split; [reflexivity|].
  destruct (HasPrefix_brace res Hbrace) as [tail ->].
  split.
  - unfold Fingerprint.FingerprintWithProtocol.
    change (Z.eqb Packet.LoginDisconnectID Packet.LoginDisconnectID) with true.
    cbv iota.
    change (String.eqb (String "{" tail) "") with false.
    change (String.eqb (String "{" tail) (quoted throttled)) with false.
    cbv iota.
    rewrite versionMismatch_brace, Hforge.
    unfold NewDisconnectMsg. rewrite Hjson. reflexivity.
  - unfold FingerprintRev.FingerprintWithProtocol.
    change (Z.eqb Packet.LoginDisconnectID Packet.LoginDisconnectID) with true.
    cbn [negb]. rewrite Hbrace. cbn [negb].
    unfold NewDisconnectMsg. rewrite Hjson. reflexivity.
Qed.

Lemma outdated_client_version_mismatch_witness :
  map (FingerprintTest.passes Fingerprint.VersionMismatch) FingerprintTest.tests
    = [true; false; true]
  /\ map (FingerprintTest.passes FingerprintRev.VersionMismatch)
         FingerprintTest.tests
     = [true; true; true]
  /\ Fingerprint.FingerprintWithProtocol Scenario.unmarshal_outdated
       Scenario.outdated_client_json Packet.LoginDisconnectID None
     = (Unknown,
        Some (MsgS "server responded with unfamiliar error topic: %s"
                   "multiplayer.disconnect.outdated_client"))
  /\ FingerprintRev.FingerprintWithProtocol Scenario.unmarshal_outdated
       Scenario.outdated_client_json Packet.LoginDisconnectID None
     = (Unknown, Some (MsgS "version mismatch: %s" "1.20.2")).
Proof.
  apply (outdated_client_version_mismatch Scenario.unmarshal_outdated
           Scenario.outdated_client_json); reflexivity.
Defined.

(** [.] counts characters, not bytes: a name of two characters of two
    bytes each is within [.{2,3}?], a name of four ASCII characters is
    not. *)
Example vanilla_counts_characters :
  MatchString FingerprintRev.vanillaRe
    (String "("
       (String (ascii_of_nat 195) (String (ascii_of_nat 164)
          (String (ascii_of_nat 195) (String (ascii_of_nat 182) ")")))))
  = true
  /\ MatchString FingerprintRev.vanillaRe "(abcd)" = false.
Proof. split; vm_compute; reflexivity. Qed.

End FingerprintFacts.

(** ** The properties of the client on a concrete exchange *)

Section ClientScenario.

Import Client Scenario.

Lemma status_handshakes_first_connect_once_witness :
  (exists c1,
      connectAndHandshake no_ip no_srv (dial_peer []) StatusState
        (client_in Idle None) = (Ok tt, c1) /\
      state c1 = HandshakeComplete /\
      option_map sent (conn c1) = Some (sent (peer []) ++ [handshake_frame]) /\
      state (snd (Status no_ip no_srv (dial_peer []) unit
                         (fun _ => Ok tt) (client_in Idle None)))
        = HandshakeComplete /\
      option_map sent
        (conn (snd (Status no_ip no_srv (dial_peer []) unit
                           (fun _ => Ok tt) (client_in Idle None))))
        = Some (sent (peer []) ++ [handshake_frame; [Byte.x01; Byte.x00]]))
  /\ connect no_ip no_srv (dial_peer []) (client_in Connected (Some (peer [])))
     = (Err (Msg "client is already connected"),
        client_in Connected (Some (peer []))).
Proof.
  apply (status_handshakes_first_connect_once no_ip no_srv (dial_peer [])
           unit (fun _ => Ok tt)
           (client_in Idle None) (client_in Connected (Some (peer [])))
           (peer []) (mkOutbound HandshakeID handshake_body) handshake_frame).
  - reflexivity.
  - reflexivity.
  - reflexivity.
  - reflexivity.
  - reflexivity.
  - reflexivity.
  - vm_compute. reflexivity.
Defined.

Lemma ping_mismatch_keeps_latency_success_resets_witness :
  Ping no_ip no_srv (dial_peer [])
       (mkTime 1700000000 5000000) (mkTime 1700000000 47000000)
       (client_in HandshakeComplete (Some (peer (ping_frame 7 ++ []))))
  = ((42, Err (Msg "server responded with wrong pong id")),
     set_conn
       (Some (set_incoming []
                (after_write (ping_frame 1700000000)
                   (peer (ping_frame 7 ++ [])))))
       (client_in HandshakeComplete (Some (peer (ping_frame 7 ++ [])))))
  /\ state (snd (Ping no_ip no_srv (dial_peer [])
                      (mkTime 1700000000 5000000)
                      (mkTime 1700000000 47000000)
                      (client_in HandshakeComplete
                                 (Some (peer (ping_frame 7 ++ []))))))
     = HandshakeComplete
  /\ (fst (fst (Ping no_ip no_srv (dial_peer [])
                     (mkTime 1700000000 5000000)
                     (mkTime 1700000000 47000000)
                     (client_in HandshakeComplete
                                (Some (peer (ping_frame 7 ++ [])))))) = 0
      <-> 47000000 - 5000000 < 1000000)
  /\ Ping no_ip no_srv (dial_peer [])
          (mkTime 1700000000 5000000) (mkTime 1700000000 47000000)
          (client_in HandshakeComplete
                     (Some (peer (ping_frame 1700000000 ++ []))))
     = ((42, Ok tt),
        set_state Idle
          (set_conn
             (Some (set_incoming []
                      (after_write (ping_frame 1700000000)
                         (peer (ping_frame 1700000000 ++ [])))))
             (client_in HandshakeComplete
                        (Some (peer (ping_frame 1700000000 ++ []))))))
  /\ state (snd (Ping no_ip no_srv (dial_peer [])
                      (mkTime 1700000000 5000000)
                      (mkTime 1700000000 47000000)
                      (client_in HandshakeComplete
                                 (Some (peer (ping_frame 1700000000 ++ []))))))
     = Idle
  /\ Ping no_ip no_srv (dial_peer [])
          (mkTime 1700000000 5000000) (mkTime 1700000000 47000000)
          (client_in HandshakeComplete (Some (peer [])))
     = ((0,
         Err (Wrap "failed to receive pong"
                (Wrap "failed to read pong"
                   (Wrap "failed to read packet length"
                      (Wrap "failed to read varint" EOF))))),
        set_conn
          (Some (set_incoming []
                   (after_write (ping_frame 1700000000) (peer []))))
          (client_in HandshakeComplete (Some (peer [])))).
Proof.
  exact (ping_mismatch_keeps_latency_success_resets no_ip no_srv (dial_peer [])
           (client_in HandshakeComplete (Some (peer (ping_frame 7 ++ []))))
           (client_in HandshakeComplete (Some (peer (ping_frame 7 ++ []))))
           (client_in HandshakeComplete
                      (Some (peer (ping_frame 1700000000 ++ []))))
           (client_in HandshakeComplete
                      (Some (peer (ping_frame 1700000000 ++ []))))
           (client_in HandshakeComplete (Some (peer [])))
           (client_in HandshakeComplete (Some (peer [])))
           (peer (ping_frame 7 ++ []))
           (peer (ping_frame 1700000000 ++ []))
           (peer [])
           (mkTime 1700000000 5000000) (mkTime 1700000000 47000000) 7 []
           eq_refl eq_refl eq_refl eq_refl eq_refl
           ltac:(unfold is_int64; lia)
           ltac:(cbn [Unix]; lia)
           eq_refl eq_refl eq_refl eq_refl eq_refl
           ltac:(unfold is_int64; cbn [Unix]; lia)
           eq_refl eq_refl eq_refl eq_refl eq_refl
           ltac:(cbn [mono]; lia)).
Defined.

(** The latency of this exchange is 42 ms, and it comes with the error. *)
Example ping_mismatch_returns_42ms :
  fst (Ping no_ip no_srv (dial_peer [])
            (mkTime 1700000000 5000000) (mkTime 1700000000 47000000)
            (client_in HandshakeComplete (Some (peer (ping_frame 7)))))
  = (42, Err (Msg "server responded with wrong pong id")).
Proof. vm_compute. reflexivity. Qed.

End ClientScenario.

(* ================================================================== *)
(** * Further properties of the codec *)

Section FixedWidth.

(** A value written on [n] bytes and read back, as a signed number. *)
Lemma signed_round_trip (n : nat) (v : Z) :
  (1 <= n)%nat ->
  - 2 ^ (8 * Z.of_nat n - 1) <= v < 2 ^ (8 * Z.of_nat n - 1) ->
  wrap_signed (8 * Z.of_nat n)
    (big_endian_get (big_endian_put n (wrap_unsigned (8 * Z.of_nat n) v))) = v.
Proof.
  intros Hn Hv. rewrite big_endian_get_put.
  set (w := 8 * Z.of_nat n) in *.
  assert (Hw : 1 <= w) by (unfold w; lia).
  assert (Hp : 0 < 2 ^ w) by (apply Z.pow_pos_nonneg; lia).
  assert (H2 : 2 ^ w = 2 * 2 ^ (w - 1)).
  { rewrite <- Z.pow_succ_r by lia. f_equal. lia. }
  unfold wrap_unsigned. rewrite Z.mod_mod by lia.
  unfold wrap_signed. rewrite Zplus_mod_idemp_l.
  rewrite Z.mod_small; lia.
Qed.

Lemma ReadFull_exact (bs rest : list byte) :
  Binary.ReadFull EOF (List.length bs) (bs ++ rest) = (Ok bs, rest).
Proof.
  unfold Binary.ReadFull.
  replace (List.length bs <=? List.length (bs ++ rest))%nat with true
    by (symmetry; apply Nat.leb_le; rewrite length_app; lia).
  rewrite firstn_app, Nat.sub_diag, firstn_all. simpl. rewrite app_nil_r.
  rewrite skipn_app, Nat.sub_diag, skipn_all. reflexivity.
Qed.

Lemma ReadFull_short (n : nat) (r : list byte) :
  (List.length r < n)%nat ->
  Binary.ReadFull EOF n r
  = (Err (match r with [] => EOF | _ :: _ => ErrUnexpectedEOF end), []).
Proof.
  intros Hlt. unfold Binary.ReadFull.
  replace (n <=? List.length r)%nat with false
    by (symmetry; apply Nat.leb_gt; lia).
  destruct r; reflexivity.
Qed.

End FixedWidth.

(** X1.  Fixed-width integers round trip.  What [WriteLong], [WriteInt] and
    [WriteShort] append for a value of their type is 8, 4 and 2 bytes long,
    and [ReadLong], [ReadInt] and [ReadShort] read the value back from these
    bytes and leave what follows them. *)
Theorem fixed_width_round_trip (p : OutboundPacket) (i l n s : Z)
    (rest : list byte) :
  is_int64 l ->
  is_int32 n ->
  - 2 ^ 15 <= s < 2 ^ 15 ->
  (exists bs,
      WriteLong l p = (Ok tt, mkOutbound (out_id p) (out_body p ++ bs)) /\
      len bs = 8 /\
      ReadLong (mkInbound i (bs ++ rest)) = (Ok l, mkInbound i rest))
  /\ (exists bs,
      WriteInt n p = (Ok tt, mkOutbound (out_id p) (out_body p ++ bs)) /\
      len bs = 4 /\
      ReadInt (mkInbound i (bs ++ rest)) = (Ok n, mkInbound i rest))
  /\ (exists bs,
      WriteShort s p = (Ok tt, mkOutbound (out_id p) (out_body p ++ bs)) /\
      len bs = 2 /\
      ReadShort (mkInbound i (bs ++ rest)) = (Ok s, mkInbound i rest)).
Proof.
  intros Hl Hn Hs. unfold is_int64 in Hl. unfold is_int32 in Hn.
  split; [|split].
  - exists (big_endian_put 8 (uint64 l)). split; [reflexivity|].
    split; [unfold len; rewrite big_endian_put_length; reflexivity|].
    unfold ReadLong, bind, wrapping, on_reader, zoom, ret. cbn [reader in_id].
    rewrite <- (big_endian_put_length 8 (uint64 l)) at 1.
    rewrite ReadFull_exact.
    change (int64 (big_endian_get (big_endian_put 8 (uint64 l))))
      with (wrap_signed (8 * Z.of_nat 8)
              (big_endian_get (big_endian_put 8
                 (wrap_unsigned (8 * Z.of_nat 8) l)))).
    rewrite signed_round_trip by (simpl; lia). reflexivity.
  - exists (big_endian_put 4 (uint32 n)). split; [reflexivity|].
    split; [unfold len; rewrite big_endian_put_length; reflexivity|].
    unfold ReadInt, bind, wrapping, on_reader, zoom, ret. cbn [reader in_id].
    rewrite <- (big_endian_put_length 4 (uint32 n)) at 1.
    rewrite ReadFull_exact.
    change (int32 (big_endian_get (big_endian_put 4 (uint32 n))))
      with (wrap_signed (8 * Z.of_nat 4)
              (big_endian_get (big_endian_put 4
                 (wrap_unsigned (8 * Z.of_nat 4) n)))).
    rewrite signed_round_trip by (simpl; lia). reflexivity.
  - exists (big_endian_put 2 (uint16 s)). split; [reflexivity|].
    split; [unfold len; rewrite big_endian_put_length; reflexivity|].
    unfold ReadShort, bind, wrapping, on_reader, zoom, ret. cbn [reader in_id].
    rewrite <- (big_endian_put_length 2 (uint16 s)) at 1.
    rewrite ReadFull_exact.
    change (int16 (big_endian_get (big_endian_put 2 (uint16 s))))
      with (wrap_signed (8 * Z.of_nat 2)
              (big_endian_get (big_endian_put 2
                 (wrap_unsigned (8 * Z.of_nat 2) s)))).
    rewrite signed_round_trip by (simpl; lia). reflexivity.
Qed.

Lemma fixed_width_round_trip_witness :
  (exists bs,
      WriteLong (-2) (NewOutboundPacket 1)
        = (Ok tt, mkOutbound 1 ([] ++ bs)) /\
      len bs = 8 /\
      ReadLong (mkInbound 1 (bs ++ [Byte.x2a])) = (Ok (-2), mkInbound 1 [Byte.x2a]))
  /\ (exists bs,
      WriteInt 2147483647 (NewOutboundPacket 1)
        = (Ok tt, mkOutbound 1 ([] ++ bs)) /\
      len bs = 4 /\
      ReadInt (mkInbound 1 (bs ++ [Byte.x2a]))
        = (Ok 2147483647, mkInbound 1 [Byte.x2a]))
  /\ (exists bs,
      WriteShort (-32768) (NewOutboundPacket 1)
        = (Ok tt, mkOutbound 1 ([] ++ bs)) /\
      len bs = 2 /\
      ReadShort (mkInbound 1 (bs ++ [Byte.x2a]))
        = (Ok (-32768), mkInbound 1 [Byte.x2a])).
Proof.
  apply (fixed_width_round_trip (NewOutboundPacket 1) 1 (-2) 2147483647
           (-32768) [Byte.x2a]).
  - unfold is_int64. lia.
  - unfold is_int32. lia.
  - lia.
Defined.

(** X2.  Fixed-width reads need all their bytes.  On a packet with fewer
    bytes left than the width, [ReadLong], [ReadInt] and [ReadShort] return
    an error, [io.EOF] when nothing is left and [io.ErrUnexpectedEOF]
    otherwise, wrapped in the message of the read, and the bytes that were
    left are gone. *)
Theorem fixed_width_short_read (i : Z) (r8 r4 r2 : list byte) :
  len r8 < 8 ->
  len r4 < 4 ->
  len r2 < 2 ->
  ReadLong (mkInbound i r8)
  = (Err (Wrap "failed to read long"
            (match r8 with [] => EOF | _ :: _ => ErrUnexpectedEOF end)),
     mkInbound i [])
  /\ ReadInt (mkInbound i r4)
     = (Err (Wrap "failed to read int"
               (match r4 with [] => EOF | _ :: _ => ErrUnexpectedEOF end)),
        mkInbound i [])
  /\ ReadShort (mkInbound i r2)
     = (Err (Wrap "failed to read short"
               (match r2 with [] => EOF | _ :: _ => ErrUnexpectedEOF end)),
        mkInbound i []).
Proof.
  unfold len. intros H8 H4 H2. repeat split.
  - unfold ReadLong, bind, wrapping, on_reader, zoom. cbn [reader in_id].
    rewrite ReadFull_short by lia. reflexivity.
  - unfold ReadInt, bind, wrapping, on_reader, zoom. cbn [reader in_id].
    rewrite ReadFull_short by lia. reflexivity.
  - unfold ReadShort, bind, wrapping, on_reader, zoom. cbn [reader in_id].
    rewrite ReadFull_short by lia. reflexivity.
Qed.

Lemma fixed_width_short_read_witness :
  ReadLong (mkInbound 1 [Byte.x00; Byte.x00; Byte.x00; Byte.x00; Byte.x00;
                         Byte.x00; Byte.x07])
  = (Err (Wrap "failed to read long" ErrUnexpectedEOF), mkInbound 1 [])
  /\ ReadInt (mkInbound 1 [])
     = (Err (Wrap "failed to read int" EOF), mkInbound 1 [])
  /\ ReadShort (mkInbound 1 [Byte.x63])
     = (Err (Wrap "failed to read short" ErrUnexpectedEOF), mkInbound 1 []).
Proof.
  apply (fixed_width_short_read 1
           [Byte.x00; Byte.x00; Byte.x00; Byte.x00; Byte.x00; Byte.x00; Byte.x07]
           [] [Byte.x63]); vm_compute; reflexivity.
Defined.

(** X3.  Booleans.  [WriteBool] appends one byte and [ReadBool] reads the
    value back; on any byte [ReadBool] answers whether the byte is not
    zero, and on an exhausted packet it returns an error. *)
Theorem bool_round_trip (p : OutboundPacket) (i : Z) (value : bool)
    (b : byte) (rest : list byte) :
  (exists x,
      WriteBool value p = (Ok tt, mkOutbound (out_id p) (out_body p ++ [x])) /\
      ReadBool (mkInbound i (x :: rest)) = (Ok value, mkInbound i rest))
  /\ ReadBool (mkInbound i (b :: rest))
     = (Ok (negb (Byte.eqb b Byte.x00)), mkInbound i rest)
  /\ ReadBool (mkInbound i [])
     = (Err (Wrap "failed to read bool"
               (Wrap "failed to read byte"
                  (Wrap "failed to read bytes"
                     (Wrap "failed to read packet segment" EOF)))),
        mkInbound i []).
Proof.
  assert (Hread : forall x : byte,
             ReadBool (mkInbound i (x :: rest))
             = (Ok (negb (byte_val x =? 0)), mkInbound i rest)).
  { intros x.
    unfold ReadBool, ReadByte, ReadBytes, bind, wrapping, on_reader, zoom,
      readBytes, ret.
    cbn [reader in_id]. change (1 <? 0) with false.
    change (1 >? maxAlloc) with false. cbv iota.
    replace (1 <=? len (x :: rest)) with true
      by (symmetry; apply Z.leb_le; unfold len; simpl List.length; lia).
    reflexivity. }
  split; [|split].
  - destruct value.
    + exists Byte.x01. split; [reflexivity|]. rewrite Hread. reflexivity.
    + exists Byte.x00. split; [reflexivity|]. rewrite Hread. reflexivity.
  - rewrite Hread. f_equal. f_equal. destruct b; reflexivity.
  - reflexivity.
Qed.

Section Strings.

Lemma readBytes_exact (s rest : list byte) :
  len s <= maxAlloc ->
  readBytes (len s) (s ++ rest) = (Ok s, rest).
Proof.
  intros Hmax. unfold readBytes. pose proof (len_nonneg s).
  replace (len s <? 0) with false by (symmetry; apply Z.ltb_ge; lia).
  replace (len s >? maxAlloc) with false
    by (symmetry; rewrite Z.gtb_ltb; apply Z.ltb_ge; lia).
  replace (len s <=? len (s ++ rest)) with true
    by (symmetry; apply Z.leb_le; rewrite len_app;
        pose proof (len_nonneg rest); lia).
  rewrite firstn_len_app, skipn_len_app. reflexivity.
Qed.

End Strings.

(** X4.  Strings round trip.  For every string of at most 32,767 bytes,
    [WriteString] appends a length prefix and the bytes, and [ReadString]
    reads the string back from them and leaves what follows. *)
Theorem string_round_trip (p : OutboundPacket) (i : Z) (s rest : list byte) :
  len s <= MaxStringLength ->
  exists bs,
    WriteString s p = (Ok tt, mkOutbound (out_id p) (out_body p ++ bs)) /\
    ReadString (mkInbound i (bs ++ rest)) = (Ok s, mkInbound i rest).
Proof.
  intros Hs. pose proof (len_nonneg s) as Hnn. unfold MaxStringLength in Hs.
  destruct (encodeVarInt_ok (len s) ltac:(lia)) as [lb [H1 H2]].
  exists (lb ++ s). split.
  - unfold WriteString.
    replace (len s >? MaxStringLength) with false
      by (symmetry; rewrite Z.gtb_ltb; apply Z.ltb_ge; unfold MaxStringLength; lia).
    unfold bind, WriteVarInt, lift, bind. rewrite int32_small by lia.
    unfold encodeVarInt in H1. rewrite H1.
    unfold WriteBytes, modify. cbn [out_id out_body].
    rewrite <- app_assoc. reflexivity.
  - unfold ReadString, bind, wrapping. rewrite <- app_assoc.
    rewrite (ReadVarInt_put _ (len s) lb (s ++ rest) i H2) by lia.
    replace (len s >? MaxStringLength) with false
      by (symmetry; rewrite Z.gtb_ltb; apply Z.ltb_ge; unfold MaxStringLength; lia).
    unfold ReadBytes, wrapping, on_reader, zoom. cbn [reader in_id].
    rewrite readBytes_exact by (unfold maxAlloc; lia). reflexivity.
Qed.

Lemma string_round_trip_witness :
  exists bs,
    WriteString (list_byte_of_string "localhost") (NewOutboundPacket 0)
      = (Ok tt, mkOutbound 0 ([] ++ bs)) /\
    ReadString (mkInbound 0 (bs ++ [Byte.x63; Byte.xdd]))
      = (Ok (list_byte_of_string "localhost"), mkInbound 0 [Byte.x63; Byte.xdd]).
Proof.
  apply (string_round_trip (NewOutboundPacket 0) 0
           (list_byte_of_string "localhost") [Byte.x63; Byte.xdd]).
  vm_compute. discriminate.
Defined.

(** X5.  [ReadBytes] checks its length.  A negative length is an error and
    the packet is not touched (no panic, unlike the frame length).  For a
    length within the frame limit of 2,097,151 bytes: a length beyond what
    is left is an error and the packet is drained; any other length
    returns exactly that many bytes and leaves the rest.  The buffer is
    allocated before anything is read, so a length above what [make]
    accepts (2^48 bytes) panics whatever the packet holds. *)
Theorem ReadBytes_bounds (i neg over huge : Z) (s rest r : list byte) :
  neg < 0 ->
  len r < over <= MaxPacketLength ->
  len s <= MaxPacketLength ->
  maxAlloc < huge ->
  ReadBytes neg (mkInbound i r)
  = (Err (Wrap "failed to read bytes"
            (MsgZ "read length cannot be negative: %d" neg)),
     mkInbound i r)
  /\ ReadBytes over (mkInbound i r)
     = (Err (Wrap "failed to read bytes"
               (Wrap "failed to read packet segment" EOF)),
        mkInbound i [])
  /\ ReadBytes (len s) (mkInbound i (s ++ rest)) = (Ok s, mkInbound i rest)
  /\ ReadBytes huge (mkInbound i r)
     = (Panic "makeslice: len out of range", mkInbound i r).
Proof.
  intros Hneg Hover Hs Hhuge. pose proof (len_nonneg r).
  unfold MaxPacketLength in Hover, Hs. unfold maxAlloc in Hhuge.
  unfold ReadBytes, wrapping, on_reader, zoom. cbn [reader in_id].
  repeat split.
  - unfold readBytes.
    replace (neg <? 0) with true by (symmetry; apply Z.ltb_lt; lia).
    reflexivity.
  - unfold readBytes.
    replace (over <? 0) with false by (symmetry; apply Z.ltb_ge; lia).
    replace (over >? maxAlloc) with false
      by (symmetry; rewrite Z.gtb_ltb; apply Z.ltb_ge; unfold maxAlloc; lia).
    replace (over <=? len r) with false by (symmetry; apply Z.leb_gt; lia).
    reflexivity.
  - rewrite readBytes_exact by (unfold maxAlloc; lia). reflexivity.
  - unfold readBytes.
    replace (huge <? 0) with false by (symmetry; apply Z.ltb_ge; lia).
    replace (huge >? maxAlloc) with true
      by (symmetry; apply Z.gtb_lt; unfold maxAlloc; lia).
    reflexivity.
Qed.

Lemma ReadBytes_bounds_witness :
  ReadBytes (-1) (mkInbound 0 [Byte.x01; Byte.x02])
  = (Err (Wrap "failed to read bytes"
            (MsgZ "read length cannot be negative: %d" (-1))),
     mkInbound 0 [Byte.x01; Byte.x02])
  /\ ReadBytes 3 (mkInbound 0 [Byte.x01; Byte.x02])
     = (Err (Wrap "failed to read bytes"
               (Wrap "failed to read packet segment" EOF)),
        mkInbound 0 [])
  /\ ReadBytes (len [Byte.x01]) (mkInbound 0 ([Byte.x01] ++ [Byte.x02]))
     = (Ok [Byte.x01], mkInbound 0 [Byte.x02])
  /\ ReadBytes (2 ^ 62) (mkInbound 0 [Byte.x01; Byte.x02])
     = (Panic "makeslice: len out of range",
        mkInbound 0 [Byte.x01; Byte.x02]).
Proof.
  apply (ReadBytes_bounds 0 (-1) 3 (2 ^ 62) [Byte.x01] [Byte.x02]
           [Byte.x01; Byte.x02]).
  - lia.
  - vm_compute. split; [reflexivity | discriminate].
  - vm_compute. discriminate.
  - unfold maxAlloc. lia.
Defined.

(** ** The shape and the length of a varint *)

Section VarintShape.

Lemma PutUvarint_room_mono (room : nat) :
  forall x bs room',
    Binary.PutUvarint room x = Some bs -> (room <= room')%nat ->
    Binary.PutUvarint room' x = Some bs.
Proof.
  induction room as [|room IH]; intros x bs room' H Hle; [discriminate|].
  destruct room' as [|room']; [lia|].
  simpl in *. destruct (0x80 <=? x); [|assumption].
  destruct (Binary.PutUvarint room (Z.shiftr x 7)) as [l|] eqn:E;
    [|discriminate].
  rewrite (IH _ _ room' E) by lia. assumption.
Qed.

Lemma PutUvarint_length_le (room k : nat) (x : Z) (bs : list byte) :
  Binary.PutUvarint room x = Some bs ->
  (1 <= k)%nat -> 0 <= x < 2 ^ (7 * Z.of_nat k) ->
  (List.length bs <= k)%nat.
Proof.
  intros H Hk Hx.
  destruct (PutUvarint_fits k x Hx Hk) as [bs' Hbs'].
  pose proof (PutUvarint_length k x bs' Hbs') as Hlen.
  pose proof (PutUvarint_room_mono room x bs (Nat.max room k) H
                (Nat.le_max_l _ _)) as H1.
  pose proof (PutUvarint_room_mono k x bs' (Nat.max room k) Hbs'
                (Nat.le_max_r _ _)) as H2.
  rewrite H1 in H2. injection H2 as ->. lia.
Qed.

Lemma PutUvarint_length_gt (k : nat) :
  forall room x bs,
    Binary.PutUvarint room x = Some bs -> 2 ^ (7 * Z.of_nat k) <= x ->
    (k < List.length bs)%nat.
Proof.
  induction k as [|k IH]; intros room x bs H Hx.
  - pose proof (PutUvarint_length room x bs H). lia.
  - destruct room as [|room]; [discriminate|]. simpl in H.
    replace (7 * Z.of_nat (S k)) with (7 + 7 * Z.of_nat k) in Hx by lia.
    rewrite Z.pow_add_r in Hx by lia. change (2 ^ 7) with 128 in Hx.
    assert (Hp : 0 < 2 ^ (7 * Z.of_nat k)) by (apply Z.pow_pos_nonneg; lia).
    replace (0x80 <=? x) with true in H by (symmetry; apply Z.leb_le; nia).
    destruct (Binary.PutUvarint room (Z.shiftr x 7)) as [l|] eqn:E;
      [|discriminate].
    simpl in H. injection H as <-.
    apply IH in E.
    + simpl. lia.
    + rewrite Z.shiftr_div_pow2 by lia. change (2 ^ 7) with 128.
      apply Z.div_le_lower_bound; lia.
Qed.

(** Every byte but the last has the continuation bit, the last has not. *)
Lemma PutUvarint_shape (room : nat) :
  forall x bs,
    Binary.PutUvarint room x = Some bs -> 0 <= x ->
    exists init last,
      bs = init ++ [last] /\
      Forall (fun b => 128 <= byte_val b) init /\
      byte_val last < 128.
Proof.
  induction room as [|room IH]; intros x bs H Hx; [discriminate|].
  simpl in H. destruct (0x80 <=? x) eqn:E.
  - destruct (Binary.PutUvarint room (Z.shiftr x 7)) as [l|] eqn:El;
      [|discriminate].
    simpl in H. injection H as <-.
    destruct (IH _ _ El) as [init [last [-> [Hinit Hlast]]]].
    { rewrite Z.shiftr_div_pow2 by lia. apply Z.div_pos; lia. }
    exists (byte_of_Z (Z.lor (byte_val (byte_of_Z x)) 128) :: init), last.
    split; [reflexivity|]. split; [|assumption].
    constructor; [|assumption].
    change 128 with 0x80 at 2. rewrite cont_byte_of.
    pose proof (Z.mod_pos_bound x 128 ltac:(lia)). lia.
  - apply Z.leb_gt in E. injection H as <-.
    exists [], (byte_of_Z x). split; [reflexivity|].
    split; [constructor|]. rewrite last_byte_of; lia.
Qed.

End VarintShape.

(** X6.  The shape of a varint.  For every non-negative [int32],
    [encodeVarInt] returns between one and five bytes, of which all but the
    last have the continuation bit and the last has not, and it returns at
    most [k] bytes exactly when the value is below [2^(7k)]. *)
Theorem encodeVarInt_canonical (n : Z) (bs : list byte) :
  is_int32 n ->
  encodeVarInt n = Ok bs ->
  1 <= len bs <= 5
  /\ (forall k : nat, (1 <= k)%nat ->
        (len bs <= Z.of_nat k <-> n < 2 ^ (7 * Z.of_nat k)))
  /\ exists init last,
       bs = init ++ [last] /\
       Forall (fun b => 128 <= byte_val b) init /\
       byte_val last < 128.
Proof.
  intros Hn Henc.
  destruct (encodeVarInt_inv n bs Hn Henc) as [Hpos Hput].
  pose proof (PutUvarint_length _ _ _ Hput) as Hlen.
  unfold Binary.MaxVarintLen32 in Hlen.
  split; [unfold len; lia|]. split.
  - intros k Hk. unfold len. split.
    + intros Hle. destruct (Z_lt_dec n (2 ^ (7 * Z.of_nat k))) as [|Hge];
        [assumption|].
      pose proof (PutUvarint_length_gt k _ _ _ Hput ltac:(lia)). lia.
    + intros Hlt.
      pose proof (PutUvarint_length_le _ k _ _ Hput Hk ltac:(lia)). lia.
  - apply (PutUvarint_shape _ _ _ Hput Hpos).
Qed.

Lemma encodeVarInt_canonical_witness :
  1 <= len [Byte.xac; Byte.x02] <= 5
  /\ (forall k : nat, (1 <= k)%nat ->
        (len [Byte.xac; Byte.x02] <= Z.of_nat k <-> 300 < 2 ^ (7 * Z.of_nat k)))
  /\ exists init last,
       [Byte.xac; Byte.x02] = init ++ [last] /\
       Forall (fun b => 128 <= byte_val b) init /\
       byte_val last < 128.
Proof.
  apply (encodeVarInt_canonical 300 [Byte.xac; Byte.x02]).
  - unfold is_int32. lia.
  - reflexivity.
Defined.

(** X7.  Negative varints.  [WriteVarInt] panics for every negative
    [int32] (the value takes ten bytes as a [uint64] and the buffer has
    five) and leaves the packet as it was, so the handshake of a client
    whose protocol version is negative panics; [WriteVarLong] appends
    between one and ten bytes for every [int64]. *)
Theorem negative_varint_panics (p : OutboundPacket) (n l : Z)
    (c : Client.Client) (next : Z) :
  - 2 ^ 31 <= n < 0 ->
  is_int64 l ->
  - 2 ^ 31 <= Client.protocol c < 0 ->
  WriteVarInt n p = (Panic "index out of range", p)
  /\ Client.handshakePacket c next = Panic "index out of range"
  /\ exists bs,
       WriteVarLong l p = (Ok tt, mkOutbound (out_id p) (out_body p ++ bs)) /\
       1 <= len bs <= 10.
Proof.
  intros Hn Hl Hc. split; [|split].
  - unfold WriteVarInt, bind, lift.
    pose proof (encodeVarInt_negative n Hn) as E. unfold encodeVarInt in E.
    rewrite E. reflexivity.
  - unfold Client.handshakePacket, Client.assemble, bind, WriteVarInt, lift.
    pose proof (encodeVarInt_negative _ Hc) as E. unfold encodeVarInt in E.
    rewrite E. reflexivity.
  - unfold is_int64 in Hl.
    destruct (PutUvarint_fits Binary.MaxVarintLen64 (uint64 l)) as [bs Hbs].
    + change (2 ^ (7 * Z.of_nat Binary.MaxVarintLen64)) with (2 ^ 70).
      unfold uint64, wrap_unsigned.
      pose proof (Z.mod_pos_bound l (2 ^ 64) ltac:(lia)). lia.
    + unfold Binary.MaxVarintLen64. lia.
    + exists bs. split.
      * unfold WriteVarLong, bind, lift, put_uvarint. rewrite Hbs. reflexivity.
      * pose proof (PutUvarint_length _ _ _ Hbs) as Hlen.
        unfold Binary.MaxVarintLen64 in Hlen. unfold len. lia.
Qed.

Lemma negative_varint_panics_witness :
  WriteVarInt (-1) (NewOutboundPacket 0)
  = (Panic "index out of range", NewOutboundPacket 0)
  /\ Client.handshakePacket
       (ClientAPI.WithProtocolVersion (-1)
          (Scenario.client_in Client.Connected (Some (Scenario.peer []))))
       Client.StatusState
     = Panic "index out of range"
  /\ exists bs,
       WriteVarLong (-1) (NewOutboundPacket 0)
         = (Ok tt, mkOutbound 0 ([] ++ bs)) /\
       1 <= len bs <= 10.
Proof.
  apply (negative_varint_panics (NewOutboundPacket 0) (-1) (-1)
           (ClientAPI.WithProtocolVersion (-1)
              (Scenario.client_in Client.Connected (Some (Scenario.peer []))))
           Client.StatusState).
  - lia.
  - unfold is_int64. lia.
  - simpl. lia.
Defined.

(** ** [Build] and [Size] *)

Section BuildFacts.

Lemma varint_len_mono (a b : Z) (la lb : list byte) (ra rb : nat) :
  0 <= a <= b ->
  Binary.PutUvarint ra a = Some la ->
  Binary.PutUvarint rb b = Some lb ->
  len la <= len lb.
Proof.
  intros Hab Ha Hb. unfold len.
  pose proof (PutUvarint_length _ _ _ Hb) as Hlb.
  destruct (Z_lt_dec b (2 ^ (7 * Z.of_nat (List.length lb)))) as [Hlt|Hge].
  - pose proof (PutUvarint_length_le ra (List.length lb) a la Ha
                  ltac:(lia) ltac:(lia)). lia.
  - pose proof (PutUvarint_length_gt (List.length lb) _ _ _ Hb ltac:(lia)). lia.
Qed.

End BuildFacts.

(** X8.  [Build] enforces the frame limit.  For a packet whose identifier
    has an encoding: when the payload (identifier and body) is longer than
    2,097,151 bytes, [Build] returns the error that names the excess and no
    frame; otherwise it returns the length varint, of at most three bytes,
    followed by the payload, so no frame is longer than 2,097,154 bytes.
    The packet is not changed. *)
Theorem Build_limit (id : Z) (body idb : list byte) :
  is_int32 id ->
  encodeVarInt id = Ok idb ->
  (len (idb ++ body) > MaxPacketLength ->
   Build (mkOutbound id body)
   = (Err (MsgZZ "packet exceeds max packet length of %d by %d bytes"
                 MaxPacketLength (len (idb ++ body) - MaxPacketLength)),
      mkOutbound id body))
  /\ (len (idb ++ body) <= MaxPacketLength ->
      exists lb,
        Build (mkOutbound id body) = (Ok (lb ++ idb ++ body), mkOutbound id body)
        /\ encodeVarInt (len (idb ++ body)) = Ok lb
        /\ 1 <= len lb <= 3
        /\ len (lb ++ idb ++ body) <= MaxPacketLength + 3).
Proof.
  intros Hid Henc. split; intros Hlen.
  - unfold Build, bind, get, lift, fail. cbn [out_id out_body]. rewrite Henc.
    replace (len (idb ++ body) >? MaxPacketLength) with true
      by (symmetry; apply Z.gtb_lt; lia).
    reflexivity.
  - destruct (Build_within_limit id body idb Hid Henc Hlen) as [lb [Hlb HB]].
    exists lb. split; [assumption|].
    pose proof (len_nonneg (idb ++ body)) as Hnn.
    unfold MaxPacketLength in Hlen.
    assert (Hl3 : 1 <= len lb <= 3).
    { pose proof (PutUvarint_length _ _ _ Hlb).
      pose proof (PutUvarint_length_le _ 3 _ _ Hlb ltac:(lia)
                    ltac:(change (2 ^ (7 * Z.of_nat 3)) with 2097152; lia)).
      unfold len. lia. }
    split; [|split; [assumption|]].
    + unfold encodeVarInt, put_uvarint. rewrite uint64_small by lia.
      rewrite Hlb. reflexivity.
    + rewrite len_app. unfold MaxPacketLength. lia.
Qed.

Lemma Build_limit_witness :
  (len ([Byte.x00] ++ repeat Byte.x41 (Z.to_nat 2097151)) > MaxPacketLength ->
   Build (mkOutbound 0 (repeat Byte.x41 (Z.to_nat 2097151)))
   = (Err (MsgZZ "packet exceeds max packet length of %d by %d bytes"
                 MaxPacketLength
                 (len ([Byte.x00] ++ repeat Byte.x41 (Z.to_nat 2097151))
                  - MaxPacketLength)),
      mkOutbound 0 (repeat Byte.x41 (Z.to_nat 2097151))))
  /\ (len ([Byte.x00] ++ repeat Byte.x41 (Z.to_nat 2097151)) <= MaxPacketLength ->
      exists lb,
        Build (mkOutbound 0 (repeat Byte.x41 (Z.to_nat 2097151)))
        = (Ok (lb ++ [Byte.x00] ++ repeat Byte.x41 (Z.to_nat 2097151)),
           mkOutbound 0 (repeat Byte.x41 (Z.to_nat 2097151)))
        /\ encodeVarInt (len ([Byte.x00] ++ repeat Byte.x41 (Z.to_nat 2097151)))
           = Ok lb
        /\ 1 <= len lb <= 3
        /\ len (lb ++ [Byte.x00] ++ repeat Byte.x41 (Z.to_nat 2097151))
           <= MaxPacketLength + 3).
Proof.
  apply (Build_limit 0 (repeat Byte.x41 (Z.to_nat 2097151)) [Byte.x00]).
  - unfold is_int32. lia.
  - reflexivity.
Defined.

(** X9.  [Size] against [Build].  [Size] counts the varint of the length
    of the body where the frame carries the varint of the length of the
    payload, so it never exceeds the length of the frame that [Build]
    returns, equals it when the payload is shorter than 128 bytes, and is
    one less when the body is shorter than 128 bytes and the payload is
    not. *)
Theorem Size_against_Build (id : Z) (body idb : list byte) :
  is_int32 id ->
  encodeVarInt id = Ok idb ->
  len (idb ++ body) <= MaxPacketLength ->
  exists sz frame,
    Size (mkOutbound id body) = (Ok sz, mkOutbound id body) /\
    Build (mkOutbound id body) = (Ok frame, mkOutbound id body) /\
    sz <= len frame /\
    (len (idb ++ body) < 128 -> sz = len frame) /\
    (len body < 128 <= len (idb ++ body) -> sz + 1 = len frame).
Proof.
  intros Hid Henc Hlen.
  destruct (Build_within_limit id body idb Hid Henc Hlen) as [lb [Hlb HB]].
  pose proof (len_nonneg body) as Hb. pose proof (len_nonneg idb) as Hi.
  pose proof (len_app idb body) as Happ.
  unfold MaxPacketLength in Hlen.
  destruct (encodeVarInt_ok (len body) ltac:(lia)) as [bb [Hbb1 Hbb2]].
  exists (len idb + len bb + len body), (lb ++ idb ++ body).
  split; [|split; [assumption|]].
  - unfold Size, bind, get, lift, ret. cbn [out_id out_body].
    rewrite Henc. rewrite int32_small by lia. rewrite Hbb1. reflexivity.
  - rewrite !len_app.
    pose proof (varint_len_mono (len body) (len (idb ++ body)) bb lb _ _
                  ltac:(lia) Hbb2 Hlb) as Hmono.
    pose proof (PutUvarint_length _ _ _ Hlb) as Hlb1.
    pose proof (PutUvarint_length _ _ _ Hbb2) as Hbb3.
    split; [lia|]. split.
    + intros Hsmall.
      pose proof (PutUvarint_length_le _ 1 _ _ Hlb ltac:(lia)
                    ltac:(change (2 ^ (7 * Z.of_nat 1)) with 128; lia)).
      unfold len in *. lia.
    + intros [Hsmall Hbig].
      pose proof (PutUvarint_length_le _ 1 _ _ Hbb2 ltac:(lia)
                    ltac:(change (2 ^ (7 * Z.of_nat 1)) with 128; lia)).
      pose proof (PutUvarint_length_gt 1 _ _ _ Hlb
                    ltac:(change (2 ^ (7 * Z.of_nat 1)) with 128; lia)).
      assert (Hidb : len idb <= 5).
      { destruct (encodeVarInt_inv id idb Hid Henc) as [_ Hput].
        pose proof (PutUvarint_length _ _ _ Hput) as H5.
        unfold Binary.MaxVarintLen32 in H5. unfold len. lia. }
      pose proof (PutUvarint_length_le _ 2 _ _ Hlb ltac:(lia)
                    ltac:(change (2 ^ (7 * Z.of_nat 2)) with 16384; lia)).
      unfold len in *. lia.
Qed.

Lemma Size_against_Build_witness :
  exists sz frame,
    Size (mkOutbound 0 (repeat Byte.x41 127))
      = (Ok sz, mkOutbound 0 (repeat Byte.x41 127)) /\
    Build (mkOutbound 0 (repeat Byte.x41 127))
      = (Ok frame, mkOutbound 0 (repeat Byte.x41 127)) /\
    sz <= len frame /\
    (len ([Byte.x00] ++ repeat Byte.x41 127) < 128 -> sz = len frame) /\
    (len (repeat Byte.x41 127) < 128 <= len ([Byte.x00] ++ repeat Byte.x41 127) ->
     sz + 1 = len frame).
Proof.
  apply (Size_against_Build 0 (repeat Byte.x41 127) [Byte.x00]).
  - unfold is_int32. lia.
  - reflexivity.
  - vm_compute. discriminate.
Defined.

(** ** What [NewInboundPacket] returns *)

Section InboundInvariant.

(** The length varint takes between one and five bytes of the stream. *)
Lemma readVarInt_loop_consumes (st : list byte) :
  forall e num shift r st',
    0 <= shift <= 28 -> shift mod 7 = 0 ->
    readVarInt_loop e num shift st = (Ok r, st') ->
    exists pre, st = pre ++ st' /\
                1 <= len pre /\ 7 * len pre <= 35 - shift.
Proof.
  induction st as [|b st IH]; intros e num shift r st' Hs Hm H; [discriminate|].
  cbn [readVarInt_loop] in H.
  destruct (Z.land (byte_val b) 0x80 =? 0).
  - injection H as _ <-. exists [b]. split; [reflexivity|].
    unfold len. simpl List.length. lia.
  - destruct (shift + 7 >=? 32) eqn:E; [discriminate|].
    rewrite Z.geb_leb in E. apply Z.leb_gt in E.
    assert (Hm' : (shift + 7) mod 7 = 0)
      by (rewrite <- Zplus_mod_idemp_l, Hm; reflexivity).
    assert (Hs' : shift + 7 <= 28).
    { rewrite Z.mod_divide in Hm' by lia. destruct Hm' as [q Hq]. lia. }
    apply IH in H; [|lia|assumption].
    destruct H as [pre [-> [H1 H2]]].
    exists (b :: pre). split; [reflexivity|].
    unfold len in *. simpl List.length. lia.
Qed.

Lemma ReadUvarint_loop_consumes (left : nat) :
  forall i x s r v r',
    Binary.ReadUvarint_loop left i x s r = (Ok v, r') ->
    exists pre, r = pre ++ r' /\ 1 <= len pre.
Proof.
  induction left as [|left IH]; intros i x s r v r' H; [discriminate|].
  cbn [Binary.ReadUvarint_loop] in H.
  destruct r as [|b r]; [discriminate|].
  destruct (byte_val b <? 0x80).
  - destruct ((i =? Z.of_nat Binary.MaxVarintLen64 - 1) && (1 <? byte_val b));
      [discriminate|].
    injection H as _ <-. exists [b]. split; [reflexivity|].
    unfold len. simpl. lia.
  - apply IH in H. destruct H as [pre [-> Hlen]].
    exists (b :: pre). split; [reflexivity|].
    unfold len in *. simpl List.length. lia.
Qed.

(** The parts of the stream that a successful [NewInboundPacket] has
    taken: the length varint [pre], and the body, which is the encoded
    identifier [idb] and what is left to read. *)
Lemma NewInboundPacket_ok_parts (timeout : Z) (c c' : Conn)
    (p : InboundPacket) :
  NewInboundPacket timeout c = (Ok p, c') ->
  exists pre idb v,
    incoming c = pre ++ (idb ++ reader p) ++ incoming c' /\
    1 <= len pre <= 5 /\
    1 <= len idb /\
    len (idb ++ reader p) <= MaxPacketLength /\
    in_id p = int32 (int32 v) /\
    c' = set_incoming (incoming c') c.
Proof.
  intros H.
  unfold NewInboundPacket, bind, wrapping, SetReadDeadline in H.
  destruct (deadline_err c); [discriminate|].
  unfold readVarInt in H.
  destruct (readVarInt_loop (at_end c) 0 0 (incoming c)) as [[n|e|w] st1] eqn:E1;
    try discriminate.
  destruct (n >? MaxPacketLength) eqn:En; [discriminate|].
  unfold lift, make_bytes in H. destruct (n <? 0) eqn:En0; [discriminate|].
  unfold ConnReadFull, Binary.ReadFull in H.
  cbn [incoming set_incoming at_end] in H.
  destruct (Z.to_nat n <=? List.length st1)%nat eqn:En1; [|discriminate].
  destruct (ReadVarInt (mkInbound 0 (firstn (Z.to_nat n) st1)))
    as [[id|e|w] q] eqn:E2; try discriminate.
  unfold ret in H. injection H as <- <-.
  rewrite Z.gtb_ltb in En. apply Z.ltb_ge in En. apply Z.ltb_ge in En0.
  apply Nat.leb_le in En1.
  apply readVarInt_loop_consumes in E1; [|lia|reflexivity].
  destruct E1 as [pre [Hpre [Hp1 Hp2]]].
  unfold ReadVarInt, bind, on_reader, zoom, Binary.ReadUvarint in E2.
  cbn [reader in_id] in E2.
  destruct (Binary.ReadUvarint_loop Binary.MaxVarintLen64 0 0 0
              (firstn (Z.to_nat n) st1)) as [[v|e|w] r'] eqn:E3;
    try discriminate.
  unfold ret in E2. injection E2 as <- <-.
  apply ReadUvarint_loop_consumes in E3. destruct E3 as [idb [Hidb Hi1]].
  assert (Hbody : len (firstn (Z.to_nat n) st1) = n).
  { unfold len. rewrite length_firstn. lia. }
  exists pre, idb, v. cbn [in_id reader incoming set_incoming].
  split; [|split; [lia|split; [assumption|split; [|split; reflexivity]]]].
  - rewrite Hpre, <- Hidb, firstn_skipn. reflexivity.
  - rewrite <- Hidb, Hbody. assumption.
Qed.

Lemma NewInboundPacket_shrinks (timeout : Z) (c c' : Conn)
    (p : InboundPacket) :
  NewInboundPacket timeout c = (Ok p, c') ->
  (List.length (incoming c') < List.length (incoming c))%nat.
Proof.
  intros H. apply NewInboundPacket_ok_parts in H.
  destruct H as [pre [idb [v [Hin [Hpre _]]]]].
  rewrite Hin, !length_app. unfold len in Hpre. lia.
Qed.

End InboundInvariant.

(** X10.  What a received packet is.  Whenever [NewInboundPacket] returns a
    packet, its identifier is an [int32], fewer than 2,097,151 bytes are
    left to read in it, and the connection has lost a prefix of its
    incoming bytes and nothing else: the length varint of one to five
    bytes and the body, between 2 and 2,097,156 bytes in all. *)
Theorem NewInboundPacket_returns (timeout : Z) (c c' : Conn)
    (p : InboundPacket) :
  NewInboundPacket timeout c = (Ok p, c') ->
  is_int32 (in_id p)
  /\ len (reader p) < MaxPacketLength
  /\ exists consumed,
       incoming c = consumed ++ incoming c' /\
       2 <= len consumed <= MaxPacketLength + 5 /\
       c' = set_incoming (incoming c') c.
Proof.
  intros H. apply NewInboundPacket_ok_parts in H.
  destruct H as [pre [idb [v [Hin [Hpre [Hidb [Hbody [Hid Hc]]]]]]]].
  pose proof (len_nonneg (reader p)) as Hr.
  rewrite len_app in Hbody.
  split; [rewrite Hid; apply int32_range|]. split; [lia|].
  exists (pre ++ idb ++ reader p). split; [|split; [|assumption]].
  - rewrite Hin, <- !app_assoc. reflexivity.
  - rewrite !len_app. lia.
Qed.

Lemma NewInboundPacket_returns_witness :
  is_int32 (in_id (mkInbound 1 [Byte.x2a]))
  /\ len (reader (mkInbound 1 [Byte.x2a])) < MaxPacketLength
  /\ exists consumed,
       incoming (Scenario.peer [Byte.x02; Byte.x01; Byte.x2a; Byte.x07])
         = consumed ++ incoming (Scenario.peer [Byte.x07]) /\
       2 <= len consumed <= MaxPacketLength + 5 /\
       Scenario.peer [Byte.x07]
         = set_incoming (incoming (Scenario.peer [Byte.x07]))
             (Scenario.peer [Byte.x02; Byte.x01; Byte.x2a; Byte.x07]).
Proof.
  apply (NewInboundPacket_returns 5
           (Scenario.peer [Byte.x02; Byte.x01; Byte.x2a; Byte.x07])
           (Scenario.peer [Byte.x07]) (mkInbound 1 [Byte.x2a])).
  vm_compute. reflexivity.
Defined.

(* ================================================================== *)
(** * Further properties of the client *)

Section ClientMore.

Import Client.

Variable ParseIP : list byte -> bool.
Variable LookupSRV : list byte -> result (list Address.SRV).
Variable DialTimeout : Address.HostPort -> Z -> result Conn.
Variable Response : Type.
Variable NewResponse : list byte -> result Response.
Variable SetLatency : Z -> Response -> Response.

Local Abbreviation connect := (connect ParseIP LookupSRV DialTimeout).
Local Abbreviation resolved := (resolved ParseIP LookupSRV).
Local Abbreviation connectAndHandshake :=
  (connectAndHandshake ParseIP LookupSRV DialTimeout).
Local Abbreviation Status :=
  (Status ParseIP LookupSRV DialTimeout Response NewResponse).
Local Abbreviation Ping := (Ping ParseIP LookupSRV DialTimeout).
Local Abbreviation LoginError := (LoginError ParseIP LookupSRV DialTimeout).
Local Abbreviation StatusPing :=
  (ClientAPI.StatusPing ParseIP LookupSRV DialTimeout Response NewResponse
     SetLatency).

Lemma connectAndHandshake_done (c : Client) (next : Z) :
  state c = HandshakeComplete ->
  connectAndHandshake next c = (Ok tt, c).
Proof.
  intros Hst. unfold Client.connectAndHandshake, bind, get, ret.
  rewrite Hst. change (state_lt HandshakeComplete Connected) with false.
  cbv iota beta. rewrite Hst. reflexivity.
Qed.

Lemma connectAndHandshake_connected (c : Client) (next : Z) (k : Conn)
    (hp : OutboundPacket) (hs : list byte) :
  state c = Connected ->
  conn c = Some k ->
  handshakePacket c next = Ok hp ->
  fst (Build hp) = Ok hs ->
  write_err k (List.length (sent k)) = None ->
  connectAndHandshake next c
  = (Ok tt, set_state HandshakeComplete (set_conn (Some (after_write hs k)) c)).
Proof.
  intros Hst Hc Hhp HB Hw. unfold Client.connectAndHandshake, bind, get, ret.
  rewrite Hst. change (state_lt Connected Connected) with false.
  cbv iota beta.
  rewrite Hst. change (state_lt Connected HandshakeComplete) with true.
  cbv iota. apply (sendHandshake_ok c next k hp hs Hc Hhp HB Hw).
Qed.

(** X11.  The handshake is sent once and a supplied connection is not
    redialled.  On a client in state [HandshakeComplete],
    [connectAndHandshake] does nothing at all; on a client in state
    [Connected] (the state that [WithConnection] sets) it writes the
    handshake on the connection the client holds and does not dial,
    whatever the dialler would answer. *)
Theorem connectAndHandshake_skips (c d : Client) (next : Z) (k : Conn)
    (hp : OutboundPacket) (hs : list byte) :
  state c = HandshakeComplete ->
  state d = Connected ->
  conn d = Some k ->
  handshakePacket d next = Ok hp ->
  fst (Build hp) = Ok hs ->
  write_err k (List.length (sent k)) = None ->
  connectAndHandshake next c = (Ok tt, c)
  /\ connectAndHandshake next d
     = (Ok tt, set_state HandshakeComplete
                 (set_conn (Some (after_write hs k)) d))
  /\ state (ClientAPI.WithConnection (Some k) c) = Connected.
Proof.
  intros Hc Hd Hk Hhp HB Hw. split; [|split].
  - apply connectAndHandshake_done. exact Hc.
  - apply (connectAndHandshake_connected d next k hp hs Hd Hk Hhp HB Hw).
  - reflexivity.
Qed.

Lemma connect_dial_fails (c : Client) (e : error) :
  state c = Idle ->
  DialTimeout (Address.String (addr (resolved c))) (timeout (resolved c))
    = Err e ->
  connectAndHandshake StatusState c
  = (Err (Wrap "failed to connect" e), resolved c).
Proof.
  intros Hst Hdial. unfold Client.connectAndHandshake, bind, get.
  rewrite Hst. change (state_lt Idle Connected) with true. cbv iota.
  unfold Client.connect. rewrite Hst.
  change (state_gt Idle Idle) with false. cbv iota zeta.
  rewrite Hdial. reflexivity.
Qed.

(** X12.  A failed dial.  When the dial of an [Idle] client fails, [Status]
    and [Ping] return the failed-to-connect error that wraps the error of
    the dial, [Ping] with the latency 0; the client stays [Idle], holds
    the connection it held before, and nothing has been sent. *)
Theorem dial_failure (c : Client) (e : error) (t0 t1 : Time) :
  state c = Idle ->
  DialTimeout (Address.String (addr (resolved c))) (timeout (resolved c))
    = Err e ->
  Status c = (Err (Wrap "failed to connect" e), resolved c)
  /\ Ping t0 t1 c = ((0, Err (Wrap "failed to connect" e)), resolved c)
  /\ state (resolved c) = Idle
  /\ conn (resolved c) = conn c.
Proof.
  intros Hst Hdial.
  pose proof (connect_dial_fails c e Hst Hdial) as H.
  destruct (resolved_fields ParseIP LookupSRV c) as [Hs [_ [_ Hconn]]].
  split; [|split; [|split]].
  - unfold Client.Status, bind. rewrite H. reflexivity.
  - unfold Client.Ping. rewrite H. reflexivity.
  - rewrite Hs. exact Hst.
  - exact Hconn.
Qed.

End ClientMore.

Lemma connectAndHandshake_skips_witness :
  Client.connectAndHandshake Scenario.no_ip Scenario.no_srv
    (fun _ _ => Err (Msg "connection refused")) Client.StatusState
    (Scenario.client_in Client.HandshakeComplete (Some (Scenario.peer [])))
  = (Ok tt, Scenario.client_in Client.HandshakeComplete (Some (Scenario.peer [])))
  /\ Client.connectAndHandshake Scenario.no_ip Scenario.no_srv
       (fun _ _ => Err (Msg "connection refused")) Client.StatusState
       (Scenario.client_in Client.Connected (Some (Scenario.peer [])))
     = (Ok tt, Client.set_state Client.HandshakeComplete
                 (Client.set_conn
                    (Some (after_write Scenario.handshake_frame (Scenario.peer [])))
                    (Scenario.client_in Client.Connected (Some (Scenario.peer [])))))
  /\ Client.state
       (ClientAPI.WithConnection (Some (Scenario.peer []))
          (Scenario.client_in Client.HandshakeComplete (Some (Scenario.peer []))))
     = Client.Connected.
Proof.
  apply (connectAndHandshake_skips Scenario.no_ip Scenario.no_srv
           (fun _ _ => Err (Msg "connection refused"))
           (Scenario.client_in Client.HandshakeComplete (Some (Scenario.peer [])))
           (Scenario.client_in Client.Connected (Some (Scenario.peer [])))
           Client.StatusState (Scenario.peer [])
           (mkOutbound HandshakeID Scenario.handshake_body)
           Scenario.handshake_frame); reflexivity.
Defined.

Lemma dial_failure_witness :
  Client.Status Scenario.no_ip Scenario.no_srv
    (fun _ _ => Err (Msg "connection refused")) unit (fun _ => Ok tt)
    (Scenario.client_in Client.Idle None)
  = (Err (Wrap "failed to connect" (Msg "connection refused")),
     Client.resolved Scenario.no_ip Scenario.no_srv
       (Scenario.client_in Client.Idle None))
  /\ Client.Ping Scenario.no_ip Scenario.no_srv
       (fun _ _ => Err (Msg "connection refused"))
       (Client.mkTime 1700000000 0) (Client.mkTime 1700000000 1)
       (Scenario.client_in Client.Idle None)
     = ((0, Err (Wrap "failed to connect" (Msg "connection refused"))),
        Client.resolved Scenario.no_ip Scenario.no_srv
          (Scenario.client_in Client.Idle None))
  /\ Client.state
       (Client.resolved Scenario.no_ip Scenario.no_srv
          (Scenario.client_in Client.Idle None)) = Client.Idle
  /\ Client.conn
       (Client.resolved Scenario.no_ip Scenario.no_srv
          (Scenario.client_in Client.Idle None))
     = Client.conn (Scenario.client_in Client.Idle None).
Proof.
  apply (dial_failure Scenario.no_ip Scenario.no_srv
           (fun _ _ => Err (Msg "connection refused")) unit (fun _ => Ok tt)
           (Scenario.client_in Client.Idle None) (Msg "connection refused")
           (Client.mkTime 1700000000 0) (Client.mkTime 1700000000 1));
    reflexivity.
Defined.

(** ** Frames that carry one string *)

Section StringFrames.

Lemma Build_ok_within (id : Z) (body idb frame : list byte) :
  encodeVarInt id = Ok idb ->
  fst (Build (mkOutbound id body)) = Ok frame ->
  len (idb ++ body) <= MaxPacketLength.
Proof.
  intros Henc HB.
  destruct (Z_le_dec (len (idb ++ body)) MaxPacketLength) as [|Hgt];
    [assumption|].
  unfold Build, bind, get, lift, fail in HB. cbn [out_id out_body] in HB.
  rewrite Henc in HB.
  replace (len (idb ++ body) >? MaxPacketLength) with true in HB
    by (symmetry; apply Z.gtb_lt; lia).
  discriminate.
Qed.

(** A frame that [Build] returned is received as the packet it was built
    from. *)
Lemma frame_decodes (timeout id : Z) (c : Conn)
    (body idb frame rest : list byte) :
  is_int32 id ->
  encodeVarInt id = Ok idb ->
  fst (Build (mkOutbound id body)) = Ok frame ->
  deadline_err c = None ->
  incoming c = frame ++ rest ->
  NewInboundPacket timeout c = (Ok (mkInbound id body), set_incoming rest c).
Proof.
  intros Hid Henc HB Hdl Hin.
  pose proof (Build_ok_within id body idb frame Henc HB) as Hlen.
  destruct (Build_within_limit id body idb Hid Henc Hlen) as [lb [Hlb HB']].
  rewrite HB' in HB. cbn [fst] in HB. injection HB as <-.
  destruct (encodeVarInt_inv id idb Hid Henc) as [Hpos Hput].
  unfold is_int32 in Hid.
  rewrite (NewInboundPacket_frame timeout c lb (idb ++ body) rest Hdl Hlb Hlen)
    by (rewrite Hin, <- !app_assoc; reflexivity).
  rewrite (ReadVarInt_put _ id idb body 0 Hput) by lia.
  cbn [reader]. rewrite int32_small by lia. reflexivity.
Qed.

Lemma string_packet_body (id : Z) (msg : list byte) :
  len msg <= MaxStringLength ->
  exists lb,
    Binary.PutUvarint Binary.MaxVarintLen32 (len msg) = Some lb /\
    Server.string_packet id msg = mkOutbound id (lb ++ msg).
Proof.
  intros Hs. pose proof (len_nonneg msg) as Hnn. unfold MaxStringLength in Hs.
  destruct (encodeVarInt_ok (len msg) ltac:(lia)) as [lb [H1 H2]].
  exists lb. split; [assumption|].
  unfold Server.string_packet, WriteString.
  replace (len msg >? MaxStringLength) with false
    by (symmetry; rewrite Z.gtb_ltb; apply Z.ltb_ge; unfold MaxStringLength; lia).
  unfold bind, WriteVarInt, lift, bind. rewrite int32_small by lia.
  unfold encodeVarInt in H1. rewrite H1. reflexivity.
Qed.

Lemma ReadString_put (room : nat) (i : Z) (lb s rest : list byte) :
  Binary.PutUvarint room (len s) = Some lb ->
  len s <= MaxStringLength ->
  ReadString (mkInbound i (lb ++ s ++ rest)) = (Ok s, mkInbound i rest).
Proof.
  intros Hput Hs. pose proof (len_nonneg s) as Hnn.
  unfold MaxStringLength in Hs.
  unfold ReadString, bind, wrapping.
  rewrite (ReadVarInt_put _ (len s) lb (s ++ rest) i Hput) by lia.
  replace (len s >? MaxStringLength) with false
    by (symmetry; rewrite Z.gtb_ltb; apply Z.ltb_ge; unfold MaxStringLength; lia).
  unfold ReadBytes, wrapping, on_reader, zoom. cbn [reader in_id].
  rewrite readBytes_exact by (unfold maxAlloc; lia). reflexivity.
Qed.

(** Receiving the frame of a packet that holds one string. *)
Lemma string_frame_received (timeout id : Z) (c : Conn)
    (msg frame rest : list byte) :
  0 <= id < 2 ^ 31 ->
  len msg <= MaxStringLength ->
  fst (Build (Server.string_packet id msg)) = Ok frame ->
  deadline_err c = None ->
  incoming c = frame ++ rest ->
  exists p,
    NewInboundPacket timeout c = (Ok p, set_incoming rest c) /\
    ID p = id /\
    fst (ReadString p) = Ok msg.
Proof.
  intros Hid Hs HB Hdl Hin.
  destruct (string_packet_body id msg Hs) as [lb [Hlb Hpk]].
  rewrite Hpk in HB.
  destruct (encodeVarInt_ok id Hid) as [idb [Henc _]].
  exists (mkInbound id (lb ++ msg)). split; [|split].
  - apply (frame_decodes timeout id c (lb ++ msg) idb frame rest); trivial.
    unfold is_int32. lia.
  - reflexivity.
  - rewrite <- (app_nil_r msg) at 1.
    rewrite (ReadString_put _ id lb msg [] Hlb Hs). reflexivity.
Qed.

End StringFrames.

Section ClientReceive.

Import Client.

(** X13.  How the status response is told apart.  When the peer answers
    with the frame of a packet that holds one string [msg]:
    for the identifiers 27 and 26 [recvStatusResponse] returns the
    disconnect error that carries [msg]; for any other identifier than 0
    it returns the bad-packet-id error with that identifier; for 0 it
    returns [msg].  In all three cases exactly this frame has been taken
    from the connection. *)
Theorem recvStatusResponse_by_id (c : Client) (k : Conn) (id : Z)
    (msg frame rest : list byte) :
  conn c = Some k ->
  deadline_err k = None ->
  0 <= id < 2 ^ 31 ->
  len msg <= MaxStringLength ->
  fst (Build (Server.string_packet id msg)) = Ok frame ->
  incoming k = frame ++ rest ->
  recvStatusResponse c
  = (if (id =? DisconnectID) || (id =? LegacyDisconnectID)
     then Err (MsgS "disconnect packet from server: %s"
                    (string_of_list_byte msg))
     else if id =? StatusID then Ok msg
     else Err (MsgZ "response packet contains bad packet id: %d" id),
     set_conn (Some (set_incoming rest k)) c).
Proof.
  intros Hc Hdl Hid Hs HB Hin.
  destruct (string_frame_received (timeout c) id k msg frame rest
              Hid Hs HB Hdl Hin) as [p [Hp [Hpid Hstr]]].
  unfold recvStatusResponse, bind, get, wrapping, on_conn.
  rewrite Hc, Hp, Hpid.
  unfold reading, lift, fail. rewrite Hstr.
  destruct ((id =? DisconnectID) || (id =? LegacyDisconnectID));
    [reflexivity|].
  destruct (id =? StatusID); reflexivity.
Qed.

End ClientReceive.

Lemma recvStatusResponse_by_id_witness :
  Client.recvStatusResponse
    (Scenario.client_in Client.HandshakeComplete
       (Some (Scenario.peer [Byte.x04; Byte.x1b; Byte.x02; Byte.x6e; Byte.x6f])))
  = (if (27 =? DisconnectID) || (27 =? LegacyDisconnectID)
     then Err (MsgS "disconnect packet from server: %s"
                    (string_of_list_byte [Byte.x6e; Byte.x6f]))
     else if 27 =? StatusID then Ok [Byte.x6e; Byte.x6f]
     else Err (MsgZ "response packet contains bad packet id: %d" 27),
     Client.set_conn
       (Some (set_incoming []
                (Scenario.peer [Byte.x04; Byte.x1b; Byte.x02; Byte.x6e; Byte.x6f])))
       (Scenario.client_in Client.HandshakeComplete
          (Some (Scenario.peer
                   [Byte.x04; Byte.x1b; Byte.x02; Byte.x6e; Byte.x6f])))).
Proof.
  apply (recvStatusResponse_by_id
           (Scenario.client_in Client.HandshakeComplete
              (Some (Scenario.peer
                       [Byte.x04; Byte.x1b; Byte.x02; Byte.x6e; Byte.x6f])))
           (Scenario.peer [Byte.x04; Byte.x1b; Byte.x02; Byte.x6e; Byte.x6f])
           27 [Byte.x6e; Byte.x6f]
           [Byte.x04; Byte.x1b; Byte.x02; Byte.x6e; Byte.x6f] []).
  - reflexivity.
  - reflexivity.
  - lia.
  - vm_compute. discriminate.
  - reflexivity.
  - reflexivity.
Defined.

Section StatusThenPing.

Import Client.

Variable ParseIP : list byte -> bool.
Variable LookupSRV : list byte -> result (list Address.SRV).
Variable DialTimeout : Address.HostPort -> Z -> result Conn.
Variable Response : Type.
Variable NewResponse : list byte -> result Response.
Variable SetLatency : Z -> Response -> Response.

Local Abbreviation resolved := (resolved ParseIP LookupSRV).
Local Abbreviation Status :=
  (Status ParseIP LookupSRV DialTimeout Response NewResponse).
Local Abbreviation Ping := (Ping ParseIP LookupSRV DialTimeout).
Local Abbreviation StatusPing :=
  (ClientAPI.StatusPing ParseIP LookupSRV DialTimeout Response NewResponse
     SetLatency).

(** [Status] on an idle client whose peer answers with a status
    response. *)
Lemma Status_ok (c : Client) (k : Conn) (hp : OutboundPacket)
    (hs json sframe rest : list byte) (res : Response) :
  state c = Idle ->
  DialTimeout (Address.String (addr (resolved c))) (timeout (resolved c))
    = Ok k ->
  handshakePacket (resolved c) StatusState = Ok hp ->
  fst (Build hp) = Ok hs ->
  write_err k (List.length (sent k)) = None ->
  write_err k (S (List.length (sent k))) = None ->
  deadline_err k = None ->
  len json <= MaxStringLength ->
  fst (Build (Server.string_packet StatusID json)) = Ok sframe ->
  incoming k = sframe ++ rest ->
  NewResponse json = Ok res ->
  Status c
  = (Ok res,
     set_conn
       (Some (set_incoming rest
                (after_write [Byte.x01; Byte.x00] (after_write hs k))))
       (set_state HandshakeComplete (resolved c))).
Proof.
  intros Hst Hdial Hhp HB Hw1 Hw2 Hdl Hjs Hsf Hin Hres.
  unfold Client.Status, bind.
  rewrite (connectAndHandshake_idle ParseIP LookupSRV DialTimeout
             c StatusState k hp hs Hst Hdial Hhp HB Hw1).
  rewrite (sendStatusRequest_ok
             (set_state HandshakeComplete
                (set_conn (Some (after_write hs k)) (resolved c)))
             (after_write hs k) eq_refl)
    by (cbn [after_write sent write_err]; rewrite length_app, Nat.add_comm;
        exact Hw2).
  destruct (string_frame_received (timeout (resolved c)) StatusID
              (after_write [Byte.x01; Byte.x00] (after_write hs k))
              json sframe rest ltac:(unfold StatusID; lia) Hjs Hsf Hdl Hin)
    as [p [Hp [Hpid Hstr]]].
  unfold wrapping, recvStatusResponse, bind, get, wrapping, on_conn.
  cbn [conn set_conn set_state timeout].
  rewrite Hp, Hpid.
  change ((StatusID =? DisconnectID) || (StatusID =? LegacyDisconnectID))
    with false.
  change (negb (StatusID =? StatusID)) with false. cbv iota.
  unfold reading, lift. rewrite Hstr, Hres. reflexivity.
Qed.

(** [StatusPing] on an idle client whose peer answers the status request
    and echoes the ping. *)
Lemma StatusPing_ok (c : Client) (k : Conn)
    (hp : OutboundPacket) (hs json sframe rest : list byte) (res : Response)
    (t0 t1 : Time) :
  state c = Idle ->
  DialTimeout (Address.String (addr (resolved c))) (timeout (resolved c))
    = Ok k ->
  handshakePacket (resolved c) StatusState = Ok hp ->
  fst (Build hp) = Ok hs ->
  (forall n, write_err k n = None) ->
  deadline_err k = None ->
  len json <= MaxStringLength ->
  fst (Build (Server.string_packet StatusID json)) = Ok sframe ->
  incoming k = sframe ++ ping_frame (Unix t0) ++ rest ->
  is_int64 (Unix t0) ->
  NewResponse json = Ok res ->
  exists c',
    StatusPing t0 t1 c
    = (Ok (SetLatency (Milliseconds (Since t0 t1)) res), c') /\
    state c' = Idle /\
    option_map sent (conn c')
    = Some (sent k ++ [hs; [Byte.x01; Byte.x00]; ping_frame (Unix t0)]) /\
    option_map incoming (conn c') = Some rest.
Proof.
  intros Hst Hdial Hhp HB Hw Hdl Hjs Hsf Hin H64 Hres.
  unfold ClientAPI.StatusPing, wrapping.
  rewrite (Status_ok c k hp hs json sframe (ping_frame (Unix t0) ++ rest) res
             Hst Hdial Hhp HB (Hw _) (Hw _) Hdl Hjs Hsf Hin Hres).
  unfold Client.Ping.
  rewrite connectAndHandshake_done by reflexivity.
  match goal with
  | |- context [sendPing ?ts ?x] =>
      rewrite (sendPing_ok x
                 (set_incoming (ping_frame (Unix t0) ++ rest)
                    (after_write [Byte.x01; Byte.x00] (after_write hs k)))
                 ts eq_refl (Hw _))
  end.
  match goal with
  | |- context [recvPong ?x] =>
      rewrite (recvPong_ok x
                 (after_write (ping_frame (Unix t0))
                    (set_incoming (ping_frame (Unix t0) ++ rest)
                       (after_write [Byte.x01; Byte.x00] (after_write hs k))))
                 (Unix t0) rest eq_refl Hdl eq_refl H64)
  end.
  rewrite Z.eqb_refl. cbn [negb].
  eexists. split; [reflexivity|]. split; [reflexivity|].
  cbn [conn set_conn set_state option_map sent incoming set_incoming after_write].
  split; [|reflexivity].
  rewrite <- !app_assoc. reflexivity.
Qed.

(** X14.  [StatusPing] handshakes once.  On an idle client whose dial
    succeeds and whose peer answers the status request with a status
    document and the ping with the timestamp sent, [StatusPing] returns
    the decoded document with the measured latency; the client has written
    the handshake, the status request and the ping, each once and in this
    order, and is [Idle] again. *)
Theorem StatusPing_handshakes_once (c : Client) (k : Conn)
    (hp : OutboundPacket) (hs json sframe rest : list byte) (res : Response)
    (t0 t1 : Time) :
  state c = Idle ->
  DialTimeout (Address.String (addr (resolved c))) (timeout (resolved c))
    = Ok k ->
  handshakePacket (resolved c) StatusState = Ok hp ->
  fst (Build hp) = Ok hs ->
  (forall n, write_err k n = None) ->
  deadline_err k = None ->
  len json <= MaxStringLength ->
  fst (Build (Server.string_packet StatusID json)) = Ok sframe ->
  incoming k = sframe ++ ping_frame (Unix t0) ++ rest ->
  is_int64 (Unix t0) ->
  NewResponse json = Ok res ->
  exists c',
    StatusPing t0 t1 c
    = (Ok (SetLatency (Milliseconds (Since t0 t1)) res), c') /\
    state c' = Idle /\
    option_map sent (conn c')
    = Some (sent k ++ [hs; [Byte.x01; Byte.x00]; ping_frame (Unix t0)]) /\
    option_map incoming (conn c') = Some rest.
Proof.
  intros Hst Hdial Hhp HB Hw Hdl Hjs Hsf Hin H64 Hres.
  exact (StatusPing_ok c k hp hs json sframe rest res t0 t1
           Hst Hdial Hhp HB Hw Hdl Hjs Hsf Hin H64 Hres).
Qed.

End StatusThenPing.

Lemma StatusPing_handshakes_once_witness :
  exists c',
    ClientAPI.StatusPing Scenario.no_ip Scenario.no_srv
      (Scenario.dial_peer
         ([Byte.x04; Byte.x00; Byte.x02; Byte.x7b; Byte.x7d]
            ++ Client.ping_frame 1700000000 ++ []))
      unit (fun _ => Ok tt) (fun _ u => u)
      (Client.mkTime 1700000000 5000000) (Client.mkTime 1700000000 47000000)
      (Scenario.client_in Client.Idle None)
    = (Ok tt, c') /\
    Client.state c' = Client.Idle /\
    option_map sent (Client.conn c')
    = Some (sent (Scenario.peer
                    ([Byte.x04; Byte.x00; Byte.x02; Byte.x7b; Byte.x7d]
                       ++ Client.ping_frame 1700000000 ++ []))
              ++ [Scenario.handshake_frame; [Byte.x01; Byte.x00];
                  Client.ping_frame 1700000000]) /\
    option_map incoming (Client.conn c') = Some [].
Proof.
  apply (StatusPing_handshakes_once Scenario.no_ip Scenario.no_srv
           (Scenario.dial_peer
              ([Byte.x04; Byte.x00; Byte.x02; Byte.x7b; Byte.x7d]
                 ++ Client.ping_frame 1700000000 ++ []))
           unit (fun _ => Ok tt) (fun _ u => u)
           (Scenario.client_in Client.Idle None)
           (Scenario.peer
              ([Byte.x04; Byte.x00; Byte.x02; Byte.x7b; Byte.x7d]
                 ++ Client.ping_frame 1700000000 ++ []))
           (mkOutbound HandshakeID Scenario.handshake_body)
           Scenario.handshake_frame
           [Byte.x7b; Byte.x7d]
           [Byte.x04; Byte.x00; Byte.x02; Byte.x7b; Byte.x7d] [] tt
           (Client.mkTime 1700000000 5000000)
           (Client.mkTime 1700000000 47000000)).
  - reflexivity.
  - reflexivity.
  - reflexivity.
  - reflexivity.
  - intros n. reflexivity.
  - reflexivity.
  - vm_compute. discriminate.
  - reflexivity.
  - reflexivity.
  - unfold is_int64. simpl. lia.
  - reflexivity.
Defined.

(** ** The login probe *)

Section LoginProbe.

Import Client.

Variable ParseIP : list byte -> bool.
Variable LookupSRV : list byte -> result (list Address.SRV).
Variable DialTimeout : Address.HostPort -> Z -> result Conn.

Local Abbreviation LoginError := (LoginError ParseIP LookupSRV DialTimeout).

Lemma PutUvarint_small (room : nat) (x : Z) :
  0 <= x < 128 -> Binary.PutUvarint (S room) x = Some [byte_of_Z x].
Proof.
  intros Hx. simpl.
  replace (128 <=? x) with false by (symmetry; apply Z.leb_gt; lia).
  reflexivity.
Qed.

Lemma login_packet (name uuid : list byte) :
  len name <= 16 ->
  assemble LoginStartID
    (WriteString name ;;; WriteBytes uuid ;;; WriteByte Byte.x00)%go
  = Ok (mkOutbound LoginStartID
          ([byte_of_Z (len name)] ++ name ++ uuid ++ [Byte.x00])).
Proof.
  intros Hn. pose proof (len_nonneg name) as Hnn.
  unfold assemble, bind, WriteString.
  replace (len name >? MaxStringLength) with false
    by (symmetry; rewrite Z.gtb_ltb; apply Z.ltb_ge; unfold MaxStringLength; lia).
  unfold bind, WriteVarInt, lift, bind, put_uvarint.
  rewrite int32_small by lia. rewrite uint64_small by lia.
  unfold Binary.MaxVarintLen32. rewrite PutUvarint_small by lia.
  unfold WriteBytes, WriteByte, modify, NewOutboundPacket.
  cbn [out_id out_body]. rewrite <- !app_assoc. reflexivity.
Qed.

Lemma login_frame_built (name uuid : list byte) :
  len name <= 16 -> len uuid = 16 ->
  fst (Build (mkOutbound LoginStartID
                ([byte_of_Z (len name)] ++ name ++ uuid ++ [Byte.x00])))
  = Ok (Wire.login_frame_of name uuid).
Proof.
  intros Hn Hu. pose proof (len_nonneg name) as Hnn.
  assert (Hlen : len ([Byte.x00] ++ [byte_of_Z (len name)] ++ name ++ uuid
                        ++ [Byte.x00]) = len name + 19).
  { rewrite !len_app, Hu. unfold len. simpl List.length. lia. }
  destruct (Build_within_limit LoginStartID
              ([byte_of_Z (len name)] ++ name ++ uuid ++ [Byte.x00])
              [Byte.x00]) as [lb [Hlb HB]].
  - unfold is_int32, LoginStartID. lia.
  - reflexivity.
  - rewrite Hlen. unfold MaxPacketLength. lia.
  - rewrite HB. cbn [fst]. rewrite Hlen in Hlb.
    unfold Binary.MaxVarintLen32 in Hlb.
    rewrite PutUvarint_small in Hlb by lia. injection Hlb as <-.
    reflexivity.
Qed.

(** X15.  The login probe checks its arguments and sends one byte too
    many.  For a name of at most 16 bytes and an identifier of exactly 16
    bytes, [sendLoginStartCrash] writes one frame: the login start packet
    with the name, the identifier and a trailing zero byte that the
    protocol does not have.  A longer name or an identifier of another
    length is refused with an error and nothing is written. *)
Theorem sendLoginStartCrash_frame (c : Client) (k : Conn)
    (name uuid long_name bad_uuid : list byte) :
  conn c = Some k ->
  write_err k (List.length (sent k)) = None ->
  len name <= 16 ->
  len uuid = 16 ->
  len long_name > 16 ->
  len bad_uuid <> 16 ->
  sendLoginStartCrash name uuid c
  = (Ok tt, set_conn (Some (after_write (Wire.login_frame_of name uuid) k)) c)
  /\ sendLoginStartCrash long_name uuid c
     = (Err (MsgZ "player name cannot be longer than 16 characters: length: %d"
                  (len long_name)), c)
  /\ sendLoginStartCrash name bad_uuid c
     = (Err (MsgZ "player uuid has to be 16 bytes long: length: %d"
                  (len bad_uuid)), c).
Proof.
  intros Hc Hw Hn Hu Hlong Hbad. split; [|split].
  - unfold sendLoginStartCrash.
    replace (len name >? 16) with false
      by (symmetry; rewrite Z.gtb_ltb; apply Z.ltb_ge; lia).
    rewrite Hu. change (negb (16 =? 16)) with false. cbv iota.
    rewrite (login_packet name uuid Hn).
    unfold bind, lift, on_conn. rewrite Hc.
    rewrite (Write_ok _ _ k (login_frame_built name uuid Hn Hu) Hw).
    reflexivity.
  - unfold sendLoginStartCrash.
    replace (len long_name >? 16) with true by (symmetry; apply Z.gtb_lt; lia).
    reflexivity.
  - unfold sendLoginStartCrash.
    replace (len name >? 16) with false
      by (symmetry; rewrite Z.gtb_ltb; apply Z.ltb_ge; lia).
    replace (negb (len bad_uuid =? 16)) with true
      by (symmetry; apply negb_true_iff, Z.eqb_neq; exact Hbad).
    reflexivity.
Qed.

(** [LoginError] up to the read of the answer, on a client that has
    completed the handshake. *)
Lemma LoginError_sends (c : Client) (k : Conn) :
  state c = HandshakeComplete ->
  conn c = Some k ->
  write_err k (List.length (sent k)) = None ->
  LoginError c
  = (let k1 := after_write
                 (Wire.login_frame_of (list_byte_of_string "mclib")
                                 (repeat Byte.x00 16)) k in
     match NewInboundPacket (timeout c) k1 with
     | (Ok res, k2) =>
         match fst (ReadString res) with
         | Ok reason => (Ok (reason, ID res), set_conn (Some k2) c)
         | Err e => (Err e, set_conn (Some k2) c)
         | Panic why => (Panic why, set_conn (Some k2) c)
         end
     | (Err e, k2) => (Err e, set_conn (Some k2) c)
     | (Panic why, k2) => (Panic why, set_conn (Some k2) c)
     end).
Proof.
  intros Hst Hc Hw. unfold Client.LoginError, bind.
  rewrite (connectAndHandshake_done ParseIP LookupSRV DialTimeout c LoginState Hst).
  unfold sendLoginStartCrash.
  change (len (list_byte_of_string "mclib") >? 16) with false.
  change (negb (len (repeat Byte.x00 16) =? 16)) with false. cbv iota.
  rewrite (login_packet (list_byte_of_string "mclib") (repeat Byte.x00 16))
    by (vm_compute; discriminate).
  unfold bind, lift.
  unfold on_conn at 1. rewrite Hc.
  rewrite (Write_ok _ _ k
             (login_frame_built (list_byte_of_string "mclib")
                (repeat Byte.x00 16) ltac:(vm_compute; discriminate) eq_refl) Hw).
  unfold get, on_conn. cbn [conn set_conn timeout].
  destruct (NewInboundPacket (timeout c)
              (after_write
                 (Wire.login_frame_of (list_byte_of_string "mclib")
                    (repeat Byte.x00 16)) k)) as [[res|e|why] k2];
    reflexivity.
Qed.

Lemma NewInboundPacket_silent (t : Z) (k : Conn) :
  deadline_err k = None ->
  incoming k = [] ->
  NewInboundPacket t k
  = (Err (Wrap "failed to read packet length"
            (Wrap "failed to read varint" (at_end k))),
     set_incoming [] k).
Proof.
  intros Hdl Hin.
  unfold NewInboundPacket, bind, wrapping, SetReadDeadline, readVarInt.
  rewrite Hdl, Hin. reflexivity.
Qed.

(** X16.  A silent peer is classified [empty].  On a client that has
    completed the handshake, when the peer closes the connection without
    sending a byte after the login probe, [LoginError] returns an error
    that wraps [io.EOF], and on this error both revisions of
    [FingerprintWithProtocol] return the label [empty] with no error,
    without looking at the other results. *)
Theorem silent_peer_is_empty (c : Client) (k : Conn)
    (Unmarshal : string -> FingerprintBase.DisconnectMsg + error)
    (res : string) (id : Z) :
  state c = HandshakeComplete ->
  conn c = Some k ->
  write_err k (List.length (sent k)) = None ->
  deadline_err k = None ->
  incoming k = [] ->
  at_end k = EOF ->
  exists e c',
    LoginError c = (Err e, c') /\
    e = Wrap "failed to read packet length" (Wrap "failed to read varint" EOF) /\
    FingerprintRev.FingerprintWithProtocol Unmarshal res id (Some e)
      = (FingerprintBase.Empty, None) /\
    Fingerprint.FingerprintWithProtocol Unmarshal res id (Some e)
      = (FingerprintBase.Empty, None).
Proof.
  intros Hst Hc Hw Hdl Hin Hend.
  eexists. eexists. split; [|split; [reflexivity|split; reflexivity]].
  rewrite (LoginError_sends c k Hst Hc Hw). cbv zeta.
  rewrite (NewInboundPacket_silent (timeout c)
             (after_write
                (Wire.login_frame_of (list_byte_of_string "mclib")
                   (repeat Byte.x00 16)) k) Hdl Hin).
  cbn [after_write at_end]. rewrite Hend. reflexivity.
Qed.

End LoginProbe.

Lemma sendLoginStartCrash_frame_witness :
  Client.sendLoginStartCrash (list_byte_of_string "mclib") (repeat Byte.x00 16)
    (Scenario.client_in Client.HandshakeComplete (Some (Scenario.peer [])))
  = (Ok tt,
     Client.set_conn
       (Some (after_write
                (Wire.login_frame_of (list_byte_of_string "mclib")
                   (repeat Byte.x00 16))
                (Scenario.peer [])))
       (Scenario.client_in Client.HandshakeComplete (Some (Scenario.peer []))))
  /\ Client.sendLoginStartCrash (list_byte_of_string "a-name-of-17-bytes")
       (repeat Byte.x00 16)
       (Scenario.client_in Client.HandshakeComplete (Some (Scenario.peer [])))
     = (Err (MsgZ "player name cannot be longer than 16 characters: length: %d"
                  (len (list_byte_of_string "a-name-of-17-bytes"))),
        Scenario.client_in Client.HandshakeComplete (Some (Scenario.peer [])))
  /\ Client.sendLoginStartCrash (list_byte_of_string "mclib") []
       (Scenario.client_in Client.HandshakeComplete (Some (Scenario.peer [])))
     = (Err (MsgZ "player uuid has to be 16 bytes long: length: %d"
                  (len (@nil byte))),
        Scenario.client_in Client.HandshakeComplete (Some (Scenario.peer []))).
Proof.
  apply (sendLoginStartCrash_frame
           (Scenario.client_in Client.HandshakeComplete (Some (Scenario.peer [])))
           (Scenario.peer [])
           (list_byte_of_string "mclib") (repeat Byte.x00 16)
           (list_byte_of_string "a-name-of-17-bytes") []).
  - reflexivity.
  - reflexivity.
  - vm_compute. discriminate.
  - reflexivity.
  - vm_compute. reflexivity.
  - vm_compute. discriminate.
Defined.

Lemma silent_peer_is_empty_witness :
  exists e c',
    Client.LoginError Scenario.no_ip Scenario.no_srv (Scenario.dial_peer [])
      (Scenario.client_in Client.HandshakeComplete (Some (Scenario.peer [])))
    = (Err e, c') /\
    e = Wrap "failed to read packet length" (Wrap "failed to read varint" EOF) /\
    FingerprintRev.FingerprintWithProtocol Scenario.unmarshal_outdated
      EmptyString 0 (Some e)
    = (FingerprintBase.Empty, None) /\
    Fingerprint.FingerprintWithProtocol Scenario.unmarshal_outdated
      EmptyString 0 (Some e)
    = (FingerprintBase.Empty, None).
Proof.
  apply (silent_peer_is_empty Scenario.no_ip Scenario.no_srv
           (Scenario.dial_peer [])
           (Scenario.client_in Client.HandshakeComplete (Some (Scenario.peer [])))
           (Scenario.peer []) Scenario.unmarshal_outdated EmptyString 0);
    reflexivity.
Defined.

(* ================================================================== *)
(** * Properties of the responder *)

Section Responder.

Import Server.

Lemma handshake_body (c : Client.Client) (next : Z) :
  0 <= Client.protocol c < 2 ^ 31 ->
  len (Address.Host (Client.addr c)) <= MaxStringLength ->
  0 <= next < 2 ^ 31 ->
  exists vp lh vn,
    Binary.PutUvarint Binary.MaxVarintLen32 (Client.protocol c) = Some vp /\
    Binary.PutUvarint Binary.MaxVarintLen32
      (len (Address.Host (Client.addr c))) = Some lh /\
    Binary.PutUvarint Binary.MaxVarintLen32 next = Some vn /\
    Client.handshakePacket c next
    = Ok (mkOutbound HandshakeID
            (vp ++ lh ++ Address.Host (Client.addr c)
                ++ big_endian_put 2
                     (uint16 (int16 (Address.Port (Client.addr c))))
                ++ vn)).
Proof.
  intros Hp Hh Hn.
  pose proof (len_nonneg (Address.Host (Client.addr c))) as Hnn.
  unfold MaxStringLength in Hh.
  destruct (encodeVarInt_ok _ Hp) as [vp [Hvp1 Hvp2]].
  destruct (encodeVarInt_ok (len (Address.Host (Client.addr c))) ltac:(lia))
    as [lh [Hlh1 Hlh2]].
  destruct (encodeVarInt_ok _ Hn) as [vn [Hvn1 Hvn2]].
  exists vp, lh, vn. repeat (split; [assumption|]).
  unfold Client.handshakePacket, Client.assemble, bind, wrapping, WriteVarInt,
    lift, bind.
  unfold encodeVarInt in Hvp1, Hlh1, Hvn1. rewrite Hvp1.
  unfold WriteBytes at 1. unfold modify. unfold WriteString.
  replace (len (Address.Host (Client.addr c)) >? MaxStringLength) with false
    by (symmetry; rewrite Z.gtb_ltb; apply Z.ltb_ge; unfold MaxStringLength; lia).
  unfold bind, WriteVarInt, lift, bind. rewrite int32_small by lia.
  rewrite Hlh1. unfold WriteBytes, WriteShort, WriteBytes, modify.
  cbn [out_id out_body]. rewrite Hvn1. cbn [out_id out_body].
  unfold NewOutboundPacket. cbn [out_id out_body app].
  rewrite <- !app_assoc. reflexivity.
Qed.

End Responder.

Section ResponderFacts.

Import Server.

Lemma int16_range (z : Z) : - 2 ^ 15 <= int16 z < 2 ^ 15.
Proof.
  unfold int16, wrap_signed. change (16 - 1) with 15.
  pose proof (Z.mod_pos_bound (z + 2 ^ 15) (2 ^ 16) ltac:(lia)). lia.
Qed.

Lemma ReadShort_put (i v : Z) (rest : list byte) :
  - 2 ^ 15 <= v < 2 ^ 15 ->
  ReadShort (mkInbound i (big_endian_put 2 (uint16 v) ++ rest))
  = (Ok v, mkInbound i rest).
Proof.
  intros Hv.
  unfold ReadShort, bind, wrapping, on_reader, zoom, ret. cbn [reader in_id].
  rewrite <- (big_endian_put_length 2 (uint16 v)) at 1.
  rewrite ReadFull_exact.
  change (int16 (big_endian_get (big_endian_put 2 (uint16 v))))
    with (wrap_signed (8 * Z.of_nat 2)
            (big_endian_get (big_endian_put 2
               (wrap_unsigned (8 * Z.of_nat 2) v)))).
  rewrite signed_round_trip by (simpl; lia). reflexivity.
Qed.

Lemma ReadLong_put (i v : Z) (rest : list byte) :
  is_int64 v ->
  ReadLong (mkInbound i (big_endian_put 8 (uint64 v) ++ rest))
  = (Ok v, mkInbound i rest).
Proof.
  intros Hv.
  unfold ReadLong, bind, wrapping, on_reader, zoom, ret. cbn [reader in_id].
  rewrite <- (big_endian_put_length 8 (uint64 v)) at 1.
  rewrite ReadFull_exact, (long_round_trip v Hv). reflexivity.
Qed.

Lemma hWrite_ok (p : OutboundPacket) (frame : list byte) (h : Handler) :
  fst (Build p) = Ok frame ->
  write_err (h_conn h) (List.length (sent (h_conn h))) = None ->
  on_hconn (Write p) h
  = (Ok tt, mkHandler (after_write frame (h_conn h)) (h_timeout h)
                      (h_handshake h)).
Proof.
  intros HB Hw. unfold on_hconn, zoom.
  rewrite (Write_ok p frame (h_conn h) HB Hw). reflexivity.
Qed.

Lemma handshake_delivered (c : Client.Client) (next : Z)
    (hp : OutboundPacket) (hs : list byte) (h : Handler) (rest : list byte) :
  0 <= Client.protocol c < 2 ^ 31 ->
  len (Address.Host (Client.addr c)) <= MaxStringLength ->
  0 <= next < 2 ^ 31 ->
  Client.handshakePacket c next = Ok hp ->
  fst (Build hp) = Ok hs ->
  deadline_err (h_conn h) = None ->
  incoming (h_conn h) = hs ++ rest ->
  handleHandshake h
  = (Ok tt,
     mkHandler (set_incoming rest (h_conn h)) (h_timeout h)
       (Some (mkHandshake (Client.protocol c)
                (Address.Host (Client.addr c))
                (int16 (Address.Port (Client.addr c))) next))).
Proof.
  intros Hp Hh Hn Hhp0 HB0 Hdl Hin.
  destruct (handshake_body c next Hp Hh Hn) as [vp [lh [vn [Hvp [Hlh [Hvn Hhp]]]]]].
  rewrite Hhp0 in Hhp. injection Hhp as ->.
  set (host := Address.Host (Client.addr c)) in *.
  set (be := big_endian_put 2 (uint16 (int16 (Address.Port (Client.addr c))))) in *.
  set (body := vp ++ lh ++ host ++ be ++ vn) in *.
  unfold handleHandshake, wrapping.
  unfold on_hconn at 1. unfold zoom.
  rewrite (frame_decodes (h_timeout h) HandshakeID (h_conn h) body
             [Byte.x00] hs rest
             ltac:(unfold is_int32, HandshakeID; lia) eq_refl HB0 Hdl Hin).
  change (negb (ID (mkInbound HandshakeID body) =? HandshakeID)) with false.
  cbv iota. unfold body.
  rewrite (ReadVarInt_put _ _ vp _ HandshakeID Hvp Hp).
  rewrite (ReadString_put _ HandshakeID lh host (be ++ vn) Hlh Hh).
  unfold be. rewrite (ReadShort_put HandshakeID _ vn (int16_range _)).
  rewrite <- (app_nil_r vn).
  rewrite (ReadVarInt_put _ _ vn [] HandshakeID Hvn Hn).
  reflexivity.
Qed.

Lemma handshake_frame_exists (c : Client.Client) (next : Z) :
  0 <= Client.protocol c < 2 ^ 31 ->
  len (Address.Host (Client.addr c)) <= MaxStringLength ->
  0 <= next < 2 ^ 31 ->
  exists hp hs,
    Client.handshakePacket c next = Ok hp /\ fst (Build hp) = Ok hs.
Proof.
  intros Hp Hh Hn.
  destruct (handshake_body c next Hp Hh Hn) as [vp [lh [vn [Hvp [Hlh [Hvn Hhp]]]]]].
  set (host := Address.Host (Client.addr c)) in *.
  set (be := big_endian_put 2 (uint16 (int16 (Address.Port (Client.addr c))))) in *.
  set (body := vp ++ lh ++ host ++ be ++ vn) in *.
  assert (Hlen : len ([Byte.x00] ++ body) <= MaxPacketLength).
  { unfold body. rewrite !len_app.
    pose proof (PutUvarint_length _ _ _ Hvp).
    pose proof (PutUvarint_length _ _ _ Hlh).
    pose proof (PutUvarint_length _ _ _ Hvn).
    assert (len be = 2)
      by (unfold be, len; rewrite big_endian_put_length; reflexivity).
    unfold Binary.MaxVarintLen32, MaxStringLength, MaxPacketLength, len in *.
    simpl List.length. lia. }
  destruct (Build_within_limit HandshakeID body [Byte.x00]
              ltac:(unfold is_int32, HandshakeID; lia) eq_refl Hlen)
    as [lb [Hlb HB]].
  exists (mkOutbound HandshakeID body), (lb ++ [Byte.x00] ++ body).
  split; [exact Hhp | rewrite HB; reflexivity].
Qed.

(** X17.  The handshake reaches the responder unchanged.  For a protocol
    version and a next state that are non-negative and a host of at most
    32,767 bytes, [sendHandshake] writes one frame, and [handleHandshake]
    on a connection that delivers this frame records the same protocol
    version, host and next state, and the port as an [int16]. *)
Theorem handshake_reaches_responder (c : Client.Client) (k : Conn) (next : Z)
    (h : Handler) (rest : list byte) :
  Client.conn c = Some k ->
  write_err k (List.length (sent k)) = None ->
  0 <= Client.protocol c < 2 ^ 31 ->
  len (Address.Host (Client.addr c)) <= MaxStringLength ->
  0 <= next < 2 ^ 31 ->
  deadline_err (h_conn h) = None ->
  exists hs,
    Client.sendHandshake next c
    = (Ok tt, Client.set_state Client.HandshakeComplete
                (Client.set_conn (Some (after_write hs k)) c)) /\
    (incoming (h_conn h) = hs ++ rest ->
     handleHandshake h
     = (Ok tt,
        mkHandler (set_incoming rest (h_conn h)) (h_timeout h)
          (Some (mkHandshake (Client.protocol c)
                   (Address.Host (Client.addr c))
                   (int16 (Address.Port (Client.addr c))) next)))).
Proof.
  intros Hc Hw Hp Hh Hn Hdl.
  destruct (handshake_body c next Hp Hh Hn) as [vp [lh [vn [Hvp [Hlh [Hvn Hhp]]]]]].
  set (host := Address.Host (Client.addr c)) in *.
  set (be := big_endian_put 2 (uint16 (int16 (Address.Port (Client.addr c))))) in *.
  set (body := vp ++ lh ++ host ++ be ++ vn) in *.
  assert (Hlen : len ([Byte.x00] ++ body) <= MaxPacketLength).
  { unfold body. rewrite !len_app.
    pose proof (PutUvarint_length _ _ _ Hvp).
    pose proof (PutUvarint_length _ _ _ Hlh).
    pose proof (PutUvarint_length _ _ _ Hvn).
    assert (len be = 2)
      by (unfold be, len; rewrite big_endian_put_length; reflexivity).
    unfold Binary.MaxVarintLen32, MaxStringLength, MaxPacketLength, len in *.
    simpl List.length. lia. }
  destruct (Build_within_limit HandshakeID body [Byte.x00]
              ltac:(unfold is_int32, HandshakeID; lia) eq_refl Hlen)
    as [lb [Hlb HB]].
  exists (lb ++ [Byte.x00] ++ body). split.
  - apply (sendHandshake_ok c next k _ _ Hc Hhp); [|exact Hw].
    rewrite HB. reflexivity.
  - intros Hin.
    unfold handleHandshake, wrapping.
    unfold on_hconn at 1. unfold zoom.
    rewrite (frame_decodes (h_timeout h) HandshakeID (h_conn h) body
               [Byte.x00] (lb ++ [Byte.x00] ++ body) rest
               ltac:(unfold is_int32, HandshakeID; lia) eq_refl
               ltac:(rewrite HB; reflexivity) Hdl Hin).
    change (negb (ID (mkInbound HandshakeID body) =? HandshakeID)) with false.
    cbv iota. unfold body.
    rewrite (ReadVarInt_put _ _ vp _ HandshakeID Hvp Hp).
    rewrite (ReadString_put _ HandshakeID lh host (be ++ vn) Hlh Hh).
    unfold be. rewrite (ReadShort_put HandshakeID _ vn (int16_range _)).
    rewrite <- (app_nil_r vn).
    rewrite (ReadVarInt_put _ _ vn [] HandshakeID Hvn Hn).
    reflexivity.
Qed.

End ResponderFacts.

Lemma handshake_reaches_responder_witness :
  exists hs,
    Client.sendHandshake Client.StatusState
      (Scenario.client_in Client.Connected (Some (Scenario.peer [])))
    = (Ok tt, Client.set_state Client.HandshakeComplete
                (Client.set_conn (Some (after_write hs (Scenario.peer [])))
                   (Scenario.client_in Client.Connected
                      (Some (Scenario.peer []))))) /\
    (incoming (Server.h_conn
                 (Server.NewHandler
                    (Scenario.peer (Scenario.handshake_frame ++ [Byte.x01; Byte.x00]))
                    15))
     = hs ++ [Byte.x01; Byte.x00] ->
     Server.handleHandshake
       (Server.NewHandler
          (Scenario.peer (Scenario.handshake_frame ++ [Byte.x01; Byte.x00])) 15)
     = (Ok tt,
        Server.mkHandler
          (set_incoming [Byte.x01; Byte.x00]
             (Server.h_conn
                (Server.NewHandler
                   (Scenario.peer
                      (Scenario.handshake_frame ++ [Byte.x01; Byte.x00])) 15)))
          (Server.h_timeout
             (Server.NewHandler
                (Scenario.peer
                   (Scenario.handshake_frame ++ [Byte.x01; Byte.x00])) 15))
          (Some (Server.mkHandshake
                   (Client.protocol
                      (Scenario.client_in Client.Connected
                         (Some (Scenario.peer []))))
                   (Address.Host
                      (Client.addr
                         (Scenario.client_in Client.Connected
                            (Some (Scenario.peer [])))))
                   (int16
                      (Address.Port
                         (Client.addr
                            (Scenario.client_in Client.Connected
                               (Some (Scenario.peer []))))))
                   Client.StatusState)))).
Proof.
  apply (handshake_reaches_responder
           (Scenario.client_in Client.Connected (Some (Scenario.peer [])))
           (Scenario.peer []) Client.StatusState
           (Server.NewHandler
              (Scenario.peer (Scenario.handshake_frame ++ [Byte.x01; Byte.x00]))
              15)
           [Byte.x01; Byte.x00]).
  - reflexivity.
  - reflexivity.
  - change (0 <= 47 < 2 ^ 31). lia.
  - vm_compute. discriminate.
  - unfold Client.StatusState. lia.
  - reflexivity.
Defined.

Section ResponderStatus.

Import Server.

Variable status_body : list byte.

Local Abbreviation handleStatus := (handleStatus status_body).
Local Abbreviation sendStatusResponse := (sendStatusResponse status_body).

Lemma ping_frame_received (t : Z) (k : Conn) (token : Z) (rest : list byte) :
  deadline_err k = None ->
  incoming k = Client.ping_frame token ++ rest ->
  NewInboundPacket t k
  = (Ok (mkInbound PingID (big_endian_put 8 (uint64 token))),
     set_incoming rest k).
Proof.
  intros Hdl Hin.
  apply (frame_decodes t PingID k (big_endian_put 8 (uint64 token))
           [Byte.x01] (Client.ping_frame token) rest).
  - unfold is_int32, PingID. lia.
  - reflexivity.
  - apply Build_long.
  - exact Hdl.
  - exact Hin.
Qed.

Lemma handlePing_echo (h : Handler) (token : Z) (extra : list byte) :
  is_int64 token ->
  write_err (h_conn h) (List.length (sent (h_conn h))) = None ->
  handlePing (mkInbound PingID (big_endian_put 8 (uint64 token) ++ extra)) h
  = (Ok tt, mkHandler (after_write (Client.ping_frame token) (h_conn h))
                      (h_timeout h) (h_handshake h)).
Proof.
  intros Htok Hw. unfold handlePing, wrapping.
  rewrite (ReadLong_put PingID token extra Htok).
  change (snd (WriteLong token (NewOutboundPacket PongID)))
    with (mkOutbound PingID (big_endian_put 8 (uint64 token))).
  rewrite (hWrite_ok _ _ h (Build_long (uint64 token)) Hw). reflexivity.
Qed.

Lemma status_request_received (t : Z) (k : Conn) (tail : list byte) :
  deadline_err k = None ->
  incoming k = [Byte.x01; Byte.x00] ++ tail ->
  NewInboundPacket t k = (Ok (mkInbound StatusID []), set_incoming tail k).
Proof.
  intros Hdl Hin.
  apply (frame_decodes t StatusID k [] [Byte.x00] [Byte.x01; Byte.x00] tail).
  - unfold is_int32, StatusID. lia.
  - reflexivity.
  - reflexivity.
  - exact Hdl.
  - exact Hin.
Qed.

Lemma responder_echoes_ping_aux (h : Handler) (token : Z) (rest : list byte)
    (fuel : nat) :
  is_int64 token ->
  deadline_err (h_conn h) = None ->
  write_err (h_conn h) (List.length (sent (h_conn h))) = None ->
  incoming (h_conn h) = Client.ping_frame token ++ rest ->
  handleStatus (S fuel) h
  = Some (handlePing (mkInbound PingID (big_endian_put 8 (uint64 token)))
            (mkHandler (set_incoming rest (h_conn h)) (h_timeout h)
                       (h_handshake h))).
Proof.
  intros Htok Hdl Hw Hin. cbn [Server.handleStatus].
  unfold wrapping, on_hconn, zoom.
  rewrite (ping_frame_received (h_timeout h) (h_conn h) token rest Hdl Hin).
  reflexivity.
Qed.

(** X18.  The responder echoes the ping.  In the status state, on a ping
    frame that carries [token] the responder writes back a pong frame that
    is byte for byte the frame it received, and returns no error. *)
Theorem responder_echoes_ping (h : Handler) (token : Z) (rest : list byte)
    (fuel : nat) :
  is_int64 token ->
  deadline_err (h_conn h) = None ->
  write_err (h_conn h) (List.length (sent (h_conn h))) = None ->
  incoming (h_conn h) = Client.ping_frame token ++ rest ->
  handleStatus (S fuel) h
  = Some (Ok tt,
          mkHandler
            (after_write (Client.ping_frame token)
               (set_incoming rest (h_conn h)))
            (h_timeout h) (h_handshake h)).
Proof.
  intros Htok Hdl Hw Hin. cbn [Server.handleStatus].
  unfold wrapping, on_hconn, zoom.
  rewrite (ping_frame_received (h_timeout h) (h_conn h) token rest Hdl Hin).
  change (ID (mkInbound PingID (big_endian_put 8 (uint64 token))) =? StatusID)
    with false.
  change (ID (mkInbound PingID (big_endian_put 8 (uint64 token))) =? PingID)
    with true.
  cbv iota.
  rewrite <- (app_nil_r (big_endian_put 8 (uint64 token))).
  rewrite (handlePing_echo _ token [] Htok) by exact Hw.
  reflexivity.
Qed.

Lemma handleStatus_then_closed (h : Handler) (sframe : list byte)
    (fuel : nat) :
  fst (Build (string_packet StatusID status_body)) = Ok sframe ->
  deadline_err (h_conn h) = None ->
  (forall n, write_err (h_conn h) n = None) ->
  incoming (h_conn h) = [Byte.x01; Byte.x00] ->
  handleStatus (S (S fuel)) h
  = Some (Ok tt,
          mkHandler (after_write sframe (set_incoming [] (h_conn h)))
            (h_timeout h) (h_handshake h)).
Proof.
  intros HB Hd1 Hw1 Hin1.
  cbn [Server.handleStatus]. unfold wrapping at 1. unfold on_hconn at 1.
  unfold zoom.
  rewrite (status_request_received (h_timeout h) (h_conn h) [] Hd1 Hin1).
  change (ID (mkInbound StatusID []) =? StatusID) with true. cbv iota.
  unfold Server.sendStatusResponse, wrapping.
  rewrite (hWrite_ok _ sframe _ HB) by (apply Hw1).
  cbn [h_conn h_timeout h_handshake].
  unfold wrapping, on_hconn, zoom. cbn [h_conn h_timeout h_handshake].
  rewrite (NewInboundPacket_silent (h_timeout h)
             (after_write sframe (set_incoming [] (h_conn h)))
             Hd1 eq_refl).
  reflexivity.
Qed.

Lemma handleStatus_then_ping (h : Handler) (sframe rest : list byte)
    (token : Z) (fuel : nat) :
  fst (Build (string_packet StatusID status_body)) = Ok sframe ->
  deadline_err (h_conn h) = None ->
  (forall n, write_err (h_conn h) n = None) ->
  incoming (h_conn h) = [Byte.x01; Byte.x00] ++ Client.ping_frame token ++ rest ->
  is_int64 token ->
  handleStatus (S (S fuel)) h
  = Some (Ok tt,
          mkHandler
            (after_write (Client.ping_frame token)
               (set_incoming rest
                  (after_write sframe
                     (set_incoming (Client.ping_frame token ++ rest)
                        (h_conn h)))))
            (h_timeout h) (h_handshake h)).
Proof.
  intros HB Hd2 Hw2 Hin2 Htok.
  change (handleStatus (S (S fuel)) h)
    with (match wrapping "failed to receive status request packet"
                  (on_hconn (NewInboundPacket (h_timeout h))) h with
          | (Err e, h1) => Some (Err e, h1)
          | (Panic why, h1) => Some (Panic why, h1)
          | (Ok p, h1) =>
              if ID p =? StatusID then
                match sendStatusResponse h1 with
                | (Err e, h2) => Some (Err e, h2)
                | (Panic why, h2) => Some (Panic why, h2)
                | (Ok _, h2) =>
                    match handleStatus (S fuel) h2 with
                    | None => None
                    | Some (Panic why, h3) => Some (Panic why, h3)
                    | Some (_, h3) => Some (Ok tt, h3)
                    end
                end
              else if ID p =? PingID then Some (handlePing p h1)
              else
                Some (Err (MsgZ
                             "status state packet id mismatch, expected 0 or 1, got %d"
                             (ID p)), h1)
          end).
  unfold wrapping at 1. unfold on_hconn at 1. unfold zoom.
  rewrite (status_request_received (h_timeout h) (h_conn h)
             (Client.ping_frame token ++ rest) Hd2 Hin2).
  change (ID (mkInbound StatusID []) =? StatusID) with true. cbv iota.
  unfold Server.sendStatusResponse, wrapping.
  rewrite (hWrite_ok _ sframe _ HB) by (apply Hw2).
  cbn [h_conn h_timeout h_handshake].
  rewrite (responder_echoes_ping_aux
             (mkHandler
                (after_write sframe
                   (set_incoming (Client.ping_frame token ++ rest)
                      (h_conn h)))
                (h_timeout h) (h_handshake h))
             token rest fuel Htok Hd2 (Hw2 _) eq_refl).
  rewrite <- (app_nil_r (big_endian_put 8 (uint64 token))).
  rewrite (handlePing_echo _ token [] Htok) by (apply Hw2).
  reflexivity.
Qed.

(** X19.  The responder answers a status request and then serves the
    ping.  On a status request the responder writes the status response,
    and then listens again: when the client has closed, the error of that
    second read is dropped and the call returns no error; when a ping
    follows, the pong is written after the status response. *)
Theorem responder_status_then_ping (closed pinged : Handler)
    (sframe rest : list byte) (token : Z) (fuel : nat) :
  fst (Build (string_packet StatusID status_body)) = Ok sframe ->
  deadline_err (h_conn closed) = None ->
  (forall n, write_err (h_conn closed) n = None) ->
  incoming (h_conn closed) = [Byte.x01; Byte.x00] ->
  deadline_err (h_conn pinged) = None ->
  (forall n, write_err (h_conn pinged) n = None) ->
  incoming (h_conn pinged)
    = [Byte.x01; Byte.x00] ++ Client.ping_frame token ++ rest ->
  is_int64 token ->
  handleStatus (S (S fuel)) closed
  = Some (Ok tt,
          mkHandler (after_write sframe (set_incoming [] (h_conn closed)))
            (h_timeout closed) (h_handshake closed))
  /\ handleStatus (S (S fuel)) pinged
     = Some (Ok tt,
             mkHandler
               (after_write (Client.ping_frame token)
                  (set_incoming rest
                     (after_write sframe
                        (set_incoming (Client.ping_frame token ++ rest)
                           (h_conn pinged)))))
               (h_timeout pinged) (h_handshake pinged)).
Proof.
  intros HB Hd1 Hw1 Hin1 Hd2 Hw2 Hin2 Htok. split.
  - exact (handleStatus_then_closed closed sframe fuel HB Hd1 Hw1 Hin1).
  - exact (handleStatus_then_ping pinged sframe rest token fuel
             HB Hd2 Hw2 Hin2 Htok).
Qed.

End ResponderStatus.

Section ResponderLogin.

Import Server.

Lemma login_refused_built :
  fst (Build (string_packet LoginDisconnectID
                (list_byte_of_string "login not supported")))
  = Ok Wire.login_refused.
Proof. reflexivity. Qed.

Lemma login_frame_received (t : Z) (k : Conn) (name uuid rest : list byte) :
  len name <= 16 -> len uuid = 16 ->
  deadline_err k = None ->
  incoming k = Wire.login_frame_of name uuid ++ rest ->
  NewInboundPacket t k
  = (Ok (mkInbound LoginStartID
           ([byte_of_Z (len name)] ++ name ++ uuid ++ [Byte.x00])),
     set_incoming rest k).
Proof.
  intros Hn Hu Hdl Hin.
  apply (frame_decodes t LoginStartID k _ [Byte.x00]
           (Wire.login_frame_of name uuid) rest).
  - unfold is_int32, LoginStartID. lia.
  - reflexivity.
  - apply login_frame_built; assumption.
  - exact Hdl.
  - exact Hin.
Qed.

Lemma short_string_read (i : Z) (s rest : list byte) :
  len s < 128 ->
  ReadString (mkInbound i ([byte_of_Z (len s)] ++ s ++ rest))
  = (Ok s, mkInbound i rest).
Proof.
  intros Hs. pose proof (len_nonneg s).
  apply (ReadString_put 1 i [byte_of_Z (len s)] s rest).
  - apply PutUvarint_small. lia.
  - unfold MaxStringLength. lia.
Qed.

(** X20.  The responder reads the login start as two strings.
    [handleLogin] on the frame of the client's login probe (name, 16
    identifier bytes, one zero byte) returns the name unchanged, but reads
    the identifier as a string: the first identifier byte [u0] is taken as
    a length and the identifier returned is the [u0] bytes after it.  For
    [u0] at most 16 the call succeeds and writes the frame of the
    disconnect message; for the all-zero identifier the client sends, the
    player's identifier is empty. *)
Theorem responder_reads_login_probe (h : Handler) (name tl rest : list byte)
    (u0 : byte) :
  len name <= 16 ->
  len tl = 15 ->
  byte_val u0 <= 16 ->
  deadline_err (h_conn h) = None ->
  write_err (h_conn h) (List.length (sent (h_conn h))) = None ->
  incoming (h_conn h) = Wire.login_frame_of name (u0 :: tl) ++ rest ->
  handleLogin h
  = (Ok (mkPlayer name
           (firstn (Z.to_nat (byte_val u0)) (tl ++ [Byte.x00]))),
     mkHandler
       (after_write Wire.login_refused (set_incoming rest (h_conn h)))
       (h_timeout h) (h_handshake h)).
Proof.
  intros Hn Htl Hu0 Hdl Hw Hin.
  pose proof (byte_val_range u0) as Hr.
  assert (Hu : len (u0 :: tl) = 16).
  { unfold len in *. simpl List.length. lia. }
  unfold handleLogin. unfold wrapping at 1. unfold on_hconn at 1. unfold zoom.
  rewrite (login_frame_received (h_timeout h) (h_conn h) name (u0 :: tl) rest
             Hn Hu Hdl Hin).
  change (ID (mkInbound LoginStartID
                ([byte_of_Z (len name)] ++ name ++ (u0 :: tl) ++ [Byte.x00]))
          =? LoginStartID) with true.
  cbv iota. change (negb true) with false. cbv iota.
  unfold wrapping at 1.
  rewrite (short_string_read LoginStartID name ((u0 :: tl) ++ [Byte.x00]))
    by lia.
  unfold wrapping at 1.
  set (n := Z.to_nat (byte_val u0)).
  assert (Hlen16 : List.length (tl ++ [Byte.x00]) = 16%nat).
  { rewrite length_app. simpl. unfold len in Htl. lia. }
  assert (Hfl : len (firstn n (tl ++ [Byte.x00])) = byte_val u0).
  { unfold len. rewrite length_firstn, Hlen16. unfold n. lia. }
  replace ((u0 :: tl) ++ [Byte.x00])
    with ([byte_of_Z (len (firstn n (tl ++ [Byte.x00])))]
            ++ firstn n (tl ++ [Byte.x00]) ++ skipn n (tl ++ [Byte.x00])).
  2:{ rewrite Hfl, byte_of_Z_val, firstn_skipn. reflexivity. }
  rewrite (short_string_read LoginStartID (firstn n (tl ++ [Byte.x00]))
             (skipn n (tl ++ [Byte.x00]))) by lia.
  unfold sendDisconnect, wrapping.
  rewrite (hWrite_ok _ Wire.login_refused _ login_refused_built) by exact Hw.
  reflexivity.
Qed.

End ResponderLogin.

Lemma responder_reads_login_probe_witness :
  Server.handleLogin
    (Server.NewHandler
       (Scenario.peer
          (Wire.login_frame_of (list_byte_of_string "mclib")
             (Byte.x00 :: repeat Byte.x00 15) ++ []))
       15)
  = (Ok (Server.mkPlayer (list_byte_of_string "mclib")
           (firstn (Z.to_nat (byte_val Byte.x00))
              (repeat Byte.x00 15 ++ [Byte.x00]))),
     Server.mkHandler
       (after_write Wire.login_refused
          (set_incoming []
             (Server.h_conn
                (Server.NewHandler
                   (Scenario.peer
                      (Wire.login_frame_of (list_byte_of_string "mclib")
                         (Byte.x00 :: repeat Byte.x00 15) ++ []))
                   15))))
       (Server.h_timeout
          (Server.NewHandler
             (Scenario.peer
                (Wire.login_frame_of (list_byte_of_string "mclib")
                   (Byte.x00 :: repeat Byte.x00 15) ++ []))
             15))
       (Server.h_handshake
          (Server.NewHandler
             (Scenario.peer
                (Wire.login_frame_of (list_byte_of_string "mclib")
                   (Byte.x00 :: repeat Byte.x00 15) ++ []))
             15))).
Proof.
  apply (responder_reads_login_probe
           (Server.NewHandler
              (Scenario.peer
                 (Wire.login_frame_of (list_byte_of_string "mclib")
                    (Byte.x00 :: repeat Byte.x00 15) ++ []))
              15)
           (list_byte_of_string "mclib") (repeat Byte.x00 15) [] Byte.x00).
  - vm_compute. discriminate.
  - reflexivity.
  - vm_compute. discriminate.
  - reflexivity.
  - reflexivity.
  - reflexivity.
Defined.

Section ResponderTermination.

Import Server.

Variable status_body : list byte.

Lemma Write_keeps_incoming (p : OutboundPacket) (k k' : Conn)
    (r : result unit) :
  Write p k = (r, k') -> incoming k' = incoming k.
Proof.
  unfold Write, bind, lift, wrapping, ConnWrite.
  destruct (fst (Build p)) as [frame | e | why].
  - destruct (write_err k (List.length (sent k))); intros H;
      injection H as _ <-; reflexivity.
  - intros H. injection H as _ <-. reflexivity.
  - intros H. injection H as _ <-. reflexivity.
Qed.

Lemma sendStatusResponse_keeps_incoming (h h' : Handler) (r : result unit) :
  sendStatusResponse status_body h = (r, h') ->
  incoming (h_conn h') = incoming (h_conn h).
Proof.
  unfold sendStatusResponse, wrapping, on_hconn, zoom.
  destruct (Write (string_packet StatusID status_body) (h_conn h))
    as [r0 k'] eqn:HW.
  apply Write_keeps_incoming in HW.
  destruct r0; intros H; injection H as _ <-; exact HW.
Qed.

Lemma handleStatus_fuel (fuel : nat) :
  forall h,
    (List.length (incoming (h_conn h)) < fuel)%nat ->
    exists out,
      forall fuel',
        (List.length (incoming (h_conn h)) < fuel')%nat ->
        handleStatus status_body fuel' h = Some out.
Proof.
  induction fuel as [|f IH]; intros h Hlt; [lia|].
  destruct (NewInboundPacket (h_timeout h) (h_conn h)) as [r k'] eqn:HN.
  assert (Hstep : forall fuel',
             (List.length (incoming (h_conn h)) < fuel')%nat ->
             exists g, fuel' = S g /\
               (List.length (incoming (h_conn h)) <= g)%nat).
  { intros [|g] Hg; [lia|]. exists g. split; [reflexivity | lia]. }
  destruct r as [p | e | why].
  - pose proof (NewInboundPacket_shrinks _ _ _ _ HN) as Hshr.
    destruct (ID p =? StatusID) eqn:Hid.
    + destruct (sendStatusResponse status_body
                  (mkHandler k' (h_timeout h) (h_handshake h)))
        as [r2 h2] eqn:HS.
      pose proof (sendStatusResponse_keeps_incoming _ _ _ HS) as Hkeep.
      cbn [h_conn] in Hkeep.
      destruct r2 as [[] | e2 | why2].
      * destruct (IH h2) as [out Hout]; [rewrite Hkeep; lia|].
        exists (match out with
                | (Panic why, h3) => (Panic why, h3)
                | (_, h3) => (Ok tt, h3)
                end).
        intros fuel' Hf. destruct (Hstep fuel' Hf) as [g [-> Hg]].
        cbn [handleStatus]. unfold wrapping at 1. unfold on_hconn at 1.
        unfold zoom. rewrite HN, Hid, HS.
        rewrite (Hout g) by (rewrite Hkeep; lia).
        destruct out as [[[] | e3 | why3] h3]; reflexivity.
      * exists (Err e2, h2).
        intros fuel' Hf. destruct (Hstep fuel' Hf) as [g [-> Hg]].
        cbn [handleStatus]. unfold wrapping at 1. unfold on_hconn at 1.
        unfold zoom. rewrite HN, Hid, HS. reflexivity.
      * exists (Panic why2, h2).
        intros fuel' Hf. destruct (Hstep fuel' Hf) as [g [-> Hg]].
        cbn [handleStatus]. unfold wrapping at 1. unfold on_hconn at 1.
        unfold zoom. rewrite HN, Hid, HS. reflexivity.
    + destruct (ID p =? PingID) eqn:Hpg; eexists; intros fuel' Hf;
        destruct (Hstep fuel' Hf) as [g [-> Hg]];
        cbn [handleStatus]; unfold wrapping at 1; unfold on_hconn at 1;
        unfold zoom; rewrite HN, Hid, Hpg; reflexivity.
  - eexists. intros fuel' Hf. destruct (Hstep fuel' Hf) as [g [-> Hg]].
    cbn [handleStatus]. unfold wrapping at 1. unfold on_hconn at 1.
    unfold zoom. rewrite HN. reflexivity.
  - eexists. intros fuel' Hf. destruct (Hstep fuel' Hf) as [g [-> Hg]].
    cbn [handleStatus]. unfold wrapping at 1. unfold on_hconn at 1.
    unfold zoom. rewrite HN. reflexivity.
Qed.

(** X21.  The responder's status loop ends.  [handleStatus] calls itself
    after every status request it has answered, and every such call first
    takes a frame off the stream; on a peer that sends finitely many bytes
    the recursion is therefore no deeper than the number of bytes left,
    and the call returns the same result for every larger bound. *)
Theorem handleStatus_returns (h : Handler) (fuel : nat) :
  (List.length (incoming (h_conn h)) < fuel)%nat ->
  exists out,
    handleStatus status_body fuel h = Some out /\
    handleStatus status_body (S (List.length (incoming (h_conn h)))) h
    = Some out.
Proof.
  intros Hlt. destruct (handleStatus_fuel fuel h Hlt) as [out Hout].
  exists out. split; apply Hout; lia.
Qed.

End ResponderTermination.

Lemma responder_echoes_ping_witness :
  Server.handleStatus Wire.small_status 1
    (Wire.responder (Client.ping_frame 42 ++ []))
  = Some (Ok tt,
          Server.mkHandler
            (after_write (Client.ping_frame 42)
               (set_incoming []
                  (Server.h_conn
                     (Wire.responder (Client.ping_frame 42 ++ [])))))
            (Server.h_timeout (Wire.responder (Client.ping_frame 42 ++ [])))
            (Server.h_handshake
               (Wire.responder (Client.ping_frame 42 ++ [])))).
Proof.
  apply (responder_echoes_ping Wire.small_status
           (Wire.responder (Client.ping_frame 42 ++ [])) 42 [] 0).
  - unfold is_int64. lia.
  - reflexivity.
  - reflexivity.
  - reflexivity.
Defined.

Lemma responder_status_then_ping_witness :
  Server.handleStatus Wire.small_status 2
    (Wire.responder Wire.status_request)
  = Some (Ok tt,
          Server.mkHandler
            (after_write Wire.small_status_frame
               (set_incoming []
                  (Server.h_conn (Wire.responder Wire.status_request))))
            (Server.h_timeout (Wire.responder Wire.status_request))
            (Server.h_handshake (Wire.responder Wire.status_request)))
  /\ Server.handleStatus Wire.small_status 2
       (Wire.responder
          (Wire.status_request ++ Client.ping_frame 42 ++ []))
     = Some (Ok tt,
             Server.mkHandler
               (after_write (Client.ping_frame 42)
                  (set_incoming []
                     (after_write Wire.small_status_frame
                        (set_incoming (Client.ping_frame 42 ++ [])
                           (Server.h_conn
                              (Wire.responder
                                 (Wire.status_request
                                    ++ Client.ping_frame 42 ++ [])))))))
               (Server.h_timeout
                  (Wire.responder
                     (Wire.status_request ++ Client.ping_frame 42 ++ [])))
               (Server.h_handshake
                  (Wire.responder
                     (Wire.status_request ++ Client.ping_frame 42 ++ [])))).
Proof.
  apply (responder_status_then_ping Wire.small_status
           (Wire.responder Wire.status_request)
           (Wire.responder
              (Wire.status_request ++ Client.ping_frame 42 ++ []))
           Wire.small_status_frame [] 42 0).
  - reflexivity.
  - reflexivity.
  - intros n. reflexivity.
  - reflexivity.
  - reflexivity.
  - intros n. reflexivity.
  - reflexivity.
  - unfold is_int64. lia.
Defined.

Lemma handleStatus_returns_witness :
  exists out,
    Server.handleStatus Wire.small_status 5
      (Wire.responder Wire.status_request) = Some out /\
    Server.handleStatus Wire.small_status
      (S (List.length
            (incoming (Server.h_conn (Wire.responder Wire.status_request)))))
      (Wire.responder Wire.status_request) = Some out.
Proof.
  apply (handleStatus_returns Wire.small_status
           (Wire.responder Wire.status_request) 5).
  simpl. lia.
Defined.

(* ================================================================== *)
(** * The client against the responder *)

Section Session.

Import Client.

Variable ParseIP : list byte -> bool.
Variable LookupSRV : list byte -> result (list Address.SRV).
Variable DialTimeout : Address.HostPort -> Z -> result Conn.
Variable Response : Type.
Variable NewResponse : list byte -> result Response.
Variable SetLatency : Z -> Response -> Response.

Local Abbreviation resolved := (resolved ParseIP LookupSRV).
Local Abbreviation StatusPing :=
  (ClientAPI.StatusPing ParseIP LookupSRV DialTimeout Response NewResponse
     SetLatency).

(** [Handle] on the three frames of a status ping. *)
Lemma Handle_status_ping (c : Client) (hp : OutboundPacket)
    (hs json sframe : list byte) (token : Z) (h : Server.Handler)
    (fuel : nat) :
  0 <= protocol c < 2 ^ 31 ->
  len (Address.Host (addr c)) <= MaxStringLength ->
  handshakePacket c StatusState = Ok hp ->
  fst (Build hp) = Ok hs ->
  fst (Build (Server.string_packet StatusID json)) = Ok sframe ->
  is_int64 token ->
  (forall n, write_err (Server.h_conn h) n = None) ->
  deadline_err (Server.h_conn h) = None ->
  incoming (Server.h_conn h)
    = hs ++ [Byte.x01; Byte.x00] ++ ping_frame token ->
  Server.Handle json (S (S fuel)) h
  = Some (Ok tt,
          Server.mkHandler
            (mkConn [] (at_end (Server.h_conn h))
               (deadline_err (Server.h_conn h))
               (write_err (Server.h_conn h))
               ((sent (Server.h_conn h) ++ [sframe]) ++ [ping_frame token]))
            (Server.h_timeout h)
            (Some (Server.mkHandshake (protocol c) (Address.Host (addr c))
                     (int16 (Address.Port (addr c))) StatusState))).
Proof.
  intros Hp Hh Hhp HB Hsf Htok Hw Hdl Hin.
  unfold Server.Handle.
  rewrite (handshake_delivered c StatusState hp hs h
             ([Byte.x01; Byte.x00] ++ ping_frame token)
             Hp Hh ltac:(unfold StatusState; lia) Hhp HB Hdl Hin).
  cbn [Server.h_handshake Server.hs_nextState].
  change (StatusState =? StatusState) with true. cbv iota.
  rewrite (handleStatus_then_ping json
             (Server.mkHandler
                (set_incoming ([Byte.x01; Byte.x00] ++ ping_frame token)
                   (Server.h_conn h))
                (Server.h_timeout h)
                (Some (Server.mkHandshake (protocol c)
                         (Address.Host (addr c))
                         (int16 (Address.Port (addr c))) StatusState)))
             sframe [] token fuel Hsf Hdl Hw).
  - reflexivity.
  - cbn [Server.h_conn set_incoming incoming]. rewrite app_nil_r. reflexivity.
  - exact Htok.
Qed.

(** X22.  A status ping against the responder.  The three frames that
    [StatusPing] writes (handshake, status request, ping) are, read in
    this order by [Handle], answered with the status response and the
    pong; and these two frames are what [StatusPing] needs to return the
    status document with its latency.  The responder records the client's
    protocol version, host and port, and both sides end without error and
    with nothing left to read. *)
Theorem status_ping_session (c : Client) (k : Conn) (h : Server.Handler)
    (json sframe : list byte) (res : Response) (t0 t1 : Time) (fuel : nat) :
  state c = Idle ->
  DialTimeout (Address.String (addr (resolved c))) (timeout (resolved c))
    = Ok k ->
  0 <= protocol (resolved c) < 2 ^ 31 ->
  len (Address.Host (addr (resolved c))) <= MaxStringLength ->
  (forall n, write_err k n = None) ->
  deadline_err k = None ->
  len json <= MaxStringLength ->
  fst (Build (Server.string_packet StatusID json)) = Ok sframe ->
  is_int64 (Unix t0) ->
  NewResponse json = Ok res ->
  (forall n, write_err (Server.h_conn h) n = None) ->
  deadline_err (Server.h_conn h) = None ->
  exists hs,
    (incoming k = sframe ++ ping_frame (Unix t0) ->
     exists c',
       StatusPing t0 t1 c
       = (Ok (SetLatency (Milliseconds (Since t0 t1)) res), c') /\
       option_map sent (conn c')
       = Some (sent k ++ [hs; [Byte.x01; Byte.x00]; ping_frame (Unix t0)]) /\
       option_map incoming (conn c') = Some []) /\
    (incoming (Server.h_conn h)
       = hs ++ [Byte.x01; Byte.x00] ++ ping_frame (Unix t0) ->
     exists h',
       Server.Handle json (S (S fuel)) h = Some (Ok tt, h') /\
       sent (Server.h_conn h')
       = sent (Server.h_conn h) ++ [sframe; ping_frame (Unix t0)] /\
       incoming (Server.h_conn h') = [] /\
       Server.h_handshake h'
       = Some (Server.mkHandshake (protocol (resolved c))
                 (Address.Host (addr (resolved c)))
                 (int16 (Address.Port (addr (resolved c)))) StatusState)).
Proof.
  intros Hst Hdial Hp Hh Hw Hdl Hjs Hsf H64 Hres Hhw Hhdl.
  destruct (handshake_frame_exists (resolved c) StatusState Hp Hh
              ltac:(unfold StatusState; lia)) as [hp [hs [Hhp HB]]].
  exists hs. split.
  - intros Hin.
    destruct (StatusPing_ok ParseIP LookupSRV DialTimeout Response NewResponse
                SetLatency c k hp hs json sframe [] res t0 t1
                Hst Hdial Hhp HB Hw Hdl Hjs Hsf
                ltac:(rewrite app_nil_r; exact Hin) H64 Hres)
      as [c' [Hrun [_ [Hsent Hrest]]]].
    exists c'. repeat split; assumption.
  - intros Hin. eexists. split.
    + exact (Handle_status_ping (resolved c) hp hs json sframe (Unix t0) h fuel
               Hp Hh Hhp HB Hsf H64 Hhw Hhdl Hin).
    + cbn [Server.h_conn Server.h_handshake sent incoming].
      rewrite <- app_assoc. repeat split; reflexivity.
Qed.

End Session.

Lemma status_ping_session_witness :
  exists hs,
    (incoming (Scenario.peer
                 (Wire.small_status_frame ++ Client.ping_frame 1700000000))
     = Wire.small_status_frame
         ++ Client.ping_frame
              (Client.Unix (Client.mkTime 1700000000 5000000)) ->
     exists c',
       ClientAPI.StatusPing Scenario.no_ip Scenario.no_srv
         (Scenario.dial_peer
            (Wire.small_status_frame ++ Client.ping_frame 1700000000))
         unit (fun _ => Ok tt) (fun _ u => u)
         (Client.mkTime 1700000000 5000000)
         (Client.mkTime 1700000000 47000000)
         (Scenario.client_in Client.Idle None)
       = (Ok ((fun _ u => u)
                (Client.Milliseconds
                   (Client.Since (Client.mkTime 1700000000 5000000)
                      (Client.mkTime 1700000000 47000000))) tt), c') /\
       option_map sent (Client.conn c')
       = Some (sent (Scenario.peer
                       (Wire.small_status_frame
                          ++ Client.ping_frame 1700000000))
                 ++ [hs; [Byte.x01; Byte.x00];
                     Client.ping_frame
                       (Client.Unix (Client.mkTime 1700000000 5000000))]) /\
       option_map incoming (Client.conn c') = Some []) /\
    (incoming (Server.h_conn
                 (Wire.responder
                    (Scenario.handshake_frame ++ Wire.status_request
                       ++ Client.ping_frame 1700000000)))
     = hs ++ [Byte.x01; Byte.x00]
          ++ Client.ping_frame
               (Client.Unix (Client.mkTime 1700000000 5000000)) ->
     exists h',
       Server.Handle Wire.small_status 2
         (Wire.responder
            (Scenario.handshake_frame ++ Wire.status_request
               ++ Client.ping_frame 1700000000))
       = Some (Ok tt, h') /\
       sent (Server.h_conn h')
       = sent (Server.h_conn
                 (Wire.responder
                    (Scenario.handshake_frame ++ Wire.status_request
                       ++ Client.ping_frame 1700000000)))
           ++ [Wire.small_status_frame;
               Client.ping_frame
                 (Client.Unix (Client.mkTime 1700000000 5000000))] /\
       incoming (Server.h_conn h') = [] /\
       Server.h_handshake h'
       = Some (Server.mkHandshake
                 (Client.protocol
                    (Client.resolved Scenario.no_ip Scenario.no_srv
                       (Scenario.client_in Client.Idle None)))
                 (Address.Host
                    (Client.addr
                       (Client.resolved Scenario.no_ip Scenario.no_srv
                          (Scenario.client_in Client.Idle None))))
                 (int16
                    (Address.Port
                       (Client.addr
                          (Client.resolved Scenario.no_ip Scenario.no_srv
                             (Scenario.client_in Client.Idle None)))))
                 Client.StatusState)).
Proof.
  apply (status_ping_session Scenario.no_ip Scenario.no_srv
           (Scenario.dial_peer
              (Wire.small_status_frame ++ Client.ping_frame 1700000000))
           unit (fun _ => Ok tt) (fun _ u => u)
           (Scenario.client_in Client.Idle None)
           (Scenario.peer
              (Wire.small_status_frame ++ Client.ping_frame 1700000000))
           (Wire.responder
              (Scenario.handshake_frame ++ Wire.status_request
                 ++ Client.ping_frame 1700000000))
           Wire.small_status Wire.small_status_frame tt
           (Client.mkTime 1700000000 5000000)
           (Client.mkTime 1700000000 47000000) 0).
  - reflexivity.
  - reflexivity.
  - change (0 <= 47 < 2 ^ 31). lia.
  - vm_compute. discriminate.
  - intros n. reflexivity.
  - reflexivity.
  - vm_compute. discriminate.
  - reflexivity.
  - unfold is_int64. change (Client.Unix _) with 1700000000. lia.
  - reflexivity.
  - intros n. reflexivity.
  - reflexivity.
Defined.

(* ================================================================== *)
(** * Properties of the addresses *)

Section AddressFacts.

Import Address AddressParse.

Lemma contains_colon_app (a b : list byte) :
  contains_colon (a ++ b) = contains_colon a || contains_colon b.
Proof. unfold contains_colon. apply existsb_app. Qed.

Lemma contains_colon_mid (a b : list byte) :
  contains_colon (a ++ colon :: b) = true.
Proof.
  rewrite contains_colon_app. destruct (contains_colon a); reflexivity.
Qed.

Lemma split_colon_not_nil (s : list byte) : split_colon s <> [].
Proof.
  destruct s as [|b s]; simpl; [discriminate|].
  destruct (Byte.eqb colon b); [discriminate|].
  destruct (split_colon s); discriminate.
Qed.

Lemma split_colon_cons (b : byte) (s : list byte) :
  Byte.eqb colon b = false ->
  split_colon (b :: s)
  = (b :: hd [] (split_colon s)) :: tl (split_colon s).
Proof.
  intros Hb. simpl. rewrite Hb.
  pose proof (split_colon_not_nil s).
  destruct (split_colon s); [contradiction | reflexivity].
Qed.

(** Up to the first colon. *)
Lemma split_colon_first (h rest : list byte) :
  contains_colon h = false ->
  split_colon (h ++ colon :: rest) = h :: split_colon rest.
Proof.
  induction h as [|b h IH]; intros Hh.
  - reflexivity.
  - unfold contains_colon in Hh. simpl in Hh.
    apply Bool.orb_false_iff in Hh. destruct Hh as [Hb Hh].
    change ((b :: h) ++ colon :: rest) with (b :: (h ++ colon :: rest)).
    rewrite (split_colon_cons b _ Hb), (IH Hh). reflexivity.
Qed.

Lemma split_colon_none (s : list byte) :
  contains_colon s = false -> split_colon s = [s].
Proof.
  induction s as [|b s IH]; intros Hs.
  - reflexivity.
  - unfold contains_colon in Hs. simpl in Hs.
    apply Bool.orb_false_iff in Hs. destruct Hs as [Hb Hs].
    rewrite (split_colon_cons b _ Hb), (IH Hs). reflexivity.
Qed.

(** Every string with a colon splits at its first colon. *)
Lemma first_colon (s : list byte) :
  contains_colon s = true ->
  exists h rest, s = h ++ colon :: rest /\ contains_colon h = false.
Proof.
  induction s as [|b s IH]; intros Hs.
  - discriminate.
  - destruct (Byte.eqb colon b) eqn:Hb.
    + exists [], s. split; [|reflexivity].
      apply Byte.byte_dec_bl in Hb. rewrite <- Hb. reflexivity.
    + unfold contains_colon in Hs. simpl in Hs. rewrite Hb in Hs.
      destruct (IH Hs) as [h [rest [-> Hh]]].
      exists (b :: h), rest. split; [reflexivity|].
      unfold contains_colon. simpl. rewrite Hb. exact Hh.
Qed.

Lemma digit_not_sign (d : byte) :
  is_digit d = true ->
  Byte.eqb d Byte.x2d = false /\ Byte.eqb d Byte.x2b = false /\
  Byte.eqb colon d = false.
Proof. destruct d; intros H; try discriminate H; repeat split. Qed.

Lemma digits_value_digits (ds : list byte) :
  forall acc n, digits_value acc ds = Some n -> forallb is_digit ds = true.
Proof.
  induction ds as [|d ds IH]; intros acc n H; [reflexivity|].
  simpl in *. destruct (is_digit d); [|discriminate].
  exact (IH _ _ H).
Qed.

Lemma digits_value_lower (ds : list byte) :
  forall acc n, 0 <= acc -> digits_value acc ds = Some n -> acc <= n.
Proof.
  induction ds as [|d ds IH]; intros acc n Hacc H.
  - injection H as <-. lia.
  - cbn [digits_value] in H. destruct (is_digit d) eqn:Hd; [|discriminate].
    unfold is_digit in Hd. apply andb_prop in Hd. destruct Hd as [Hlo _].
    apply Z.leb_le in Hlo.
    assert (Hstep : 0 <= acc * 10 + (byte_val d - 48)) by lia.
    pose proof (IH _ _ Hstep H). lia.
Qed.

Lemma digits_no_colon (ds : list byte) :
  forallb is_digit ds = true -> contains_colon ds = false.
Proof.
  induction ds as [|d ds IH]; intros H; [reflexivity|].
  simpl in H. apply andb_prop in H. destruct H as [Hd Hds].
  unfold contains_colon. simpl.
  destruct (digit_not_sign d Hd) as [_ [_ ->]]. exact (IH Hds).
Qed.

(** [Atoi] on a decimal numeral, without and with a minus sign. *)
Lemma Atoi_digits (ds : list byte) (n : Z) :
  ds <> [] -> digits_value 0 ds = Some n -> n < 2 ^ 63 ->
  Atoi ds = Some n /\ Atoi (Byte.x2d :: ds) = Some (- n).
Proof.
  intros Hne Hv Hn.
  pose proof (digits_value_lower ds 0 n ltac:(lia) Hv) as Hpos.
  destruct ds as [|d ds]; [contradiction|].
  pose proof (digits_value_digits _ _ _ Hv) as Hall.
  simpl in Hall. apply andb_prop in Hall. destruct Hall as [Hd _].
  destruct (digit_not_sign d Hd) as [Hm [Hp _]].
  split.
  - unfold Atoi. rewrite Hm, Hp. cbn [orb]. rewrite Hv.
    replace ((- 2 ^ 63 <=? n) && (n <? 2 ^ 63)) with true; [reflexivity|].
    symmetry. apply andb_true_intro. split; [apply Z.leb_le | apply Z.ltb_lt]; lia.
  - unfold Atoi. change (Byte.eqb Byte.x2d Byte.x2d) with true. cbn [orb].
    rewrite Hv.
    replace ((- 2 ^ 63 <=? - n) && (- n <? 2 ^ 63)) with true; [reflexivity|].
    symmetry. apply andb_true_intro. split; [apply Z.leb_le | apply Z.ltb_lt]; lia.
Qed.

Lemma New_split (h p : list byte) :
  contains_colon h = false -> contains_colon p = false ->
  New (h ++ colon :: p)
  = match Atoi p with
    | None => Err (MsgS "invalid port: %s" (string_of_list_byte p))
    | Some port => Ok (mkAddress h (uint16 port) [] 0 false true)
    end.
Proof.
  intros Hh Hp. unfold New.
  rewrite contains_colon_mid. cbn [negb].
  rewrite (split_colon_first h p Hh), (split_colon_none p Hp). reflexivity.
Qed.

(** X23.  [New] with a port.  For a host without a colon and a port
    written as a decimal numeral below 2^63, [New] returns the host and
    the numeral's value reduced modulo 65,536, with the port marked as
    set; a minus sign before the numeral is accepted and gives the negated
    value modulo 65,536; an empty port is refused. *)
Theorem New_with_port (h ds : list byte) (n : Z) :
  contains_colon h = false ->
  ds <> [] ->
  digits_value 0 ds = Some n ->
  n < 2 ^ 63 ->
  New (h ++ colon :: ds) = Ok (mkAddress h (n mod 65536) [] 0 false true)
  /\ New (h ++ colon :: Byte.x2d :: ds)
     = Ok (mkAddress h ((- n) mod 65536) [] 0 false true)
  /\ New (h ++ [colon])
     = Err (MsgS "invalid port: %s" (string_of_list_byte [])).
Proof.
  intros Hh Hne Hv Hn.
  pose proof (digits_value_digits _ _ _ Hv) as Hall.
  pose proof (digits_no_colon ds Hall) as Hnc.
  destruct (Atoi_digits ds n Hne Hv Hn) as [Ha Hm].
  split; [|split].
  - rewrite (New_split h ds Hh Hnc), Ha. reflexivity.
  - rewrite (New_split h (Byte.x2d :: ds) Hh), Hm; [reflexivity|].
    unfold contains_colon in *. simpl. exact Hnc.
  - rewrite (New_split h [] Hh eq_refl). reflexivity.
Qed.

Lemma split_colon_two (a b c : list byte) :
  exists p q r rest, split_colon (a ++ colon :: b ++ colon :: c)
                     = p :: q :: r :: rest.
Proof.
  assert (Hone : forall s t, exists p q rest,
             split_colon (s ++ colon :: t) = p :: q :: rest).
  { induction s as [|x s IH]; intros t.
    - simpl. pose proof (split_colon_not_nil t).
      destruct (split_colon t) as [|q rest] eqn:E; [contradiction|].
      exists [], q, rest. reflexivity.
    - destruct (IH t) as [p [q [rest E]]].
      change ((x :: s) ++ colon :: t) with (x :: (s ++ colon :: t)).
      simpl. rewrite E. destruct (Byte.eqb colon x); eauto. }
  induction a as [|x a IH].
  - simpl. destruct (Hone b c) as [p [q [rest E]]]. rewrite E. eauto.
  - destruct IH as [p [q [r [rest E]]]].
    change ((x :: a) ++ colon :: b ++ colon :: c)
      with (x :: (a ++ colon :: b ++ colon :: c)).
    simpl. rewrite E. destruct (Byte.eqb colon x); eauto.
Qed.

(** X24.  [New] by the number of colons.  A string without a colon is
    taken whole as the host, with the default port 25,565 and the port not
    marked as set; this includes the empty string.  A string with two or
    more colons is refused as an invalid address. *)
Theorem New_by_colons (plain a b c : list byte) :
  contains_colon plain = false ->
  New plain = Ok (mkAddress plain DefaultPort [] 0 false false)
  /\ New (a ++ colon :: b ++ colon :: c)
     = Err (MsgS "invalid address: %s"
              (string_of_list_byte (a ++ colon :: b ++ colon :: c))).
Proof.
  intros Hp. split.
  - unfold New. rewrite Hp. reflexivity.
  - unfold New.
    rewrite contains_colon_mid. cbn [negb].
    destruct (split_colon_two a b c) as [p [q [r [rest ->]]]]. reflexivity.
Qed.

Lemma split_colon_pieces (s : list byte) :
  Forall (fun p => contains_colon p = false) (split_colon s).
Proof.
  induction s as [|b s IH].
  - repeat constructor.
  - simpl. destruct (Byte.eqb colon b) eqn:Hb.
    + constructor; [reflexivity | exact IH].
    + destruct (split_colon s) as [|p ps].
      * repeat constructor. unfold contains_colon. simpl. rewrite Hb. reflexivity.
      * inversion IH as [|? ? Hp0 Hps]; subst. constructor; [|exact Hps].
        unfold contains_colon. simpl. rewrite Hb. exact Hp0.
Qed.

(** X25.  What [New] returns.  Every address that [New] returns has a
    host without a colon, a port in the range of [uint16] and no SRV
    record; its port is marked as set exactly when the string had a colon,
    in which case the string is the host, a colon and the port text; an
    address whose port is not marked has the default port. *)
Theorem New_returns (addr : list byte) (a : Address) :
  New addr = Ok a ->
  contains_colon (host a) = false
  /\ 0 <= port a < 65536
  /\ srv a = false
  /\ portSet a = contains_colon addr
  /\ (portSet a = false -> host a = addr /\ port a = DefaultPort)
  /\ (portSet a = true -> exists p v,
        addr = host a ++ colon :: p /\ Atoi p = Some v /\
        port a = v mod 65536)
  /\ Host a = host a /\ Port a = port a /\ String a = (host a, port a).
Proof.
  unfold New. destruct (contains_colon addr) eqn:Hc; cbn [negb].
  - destruct (first_colon addr Hc) as [h [rest [-> Hh]]].
    rewrite (split_colon_first h rest Hh).
    pose proof (split_colon_pieces rest) as Hpieces.
    pose proof (split_colon_not_nil rest) as Hnn.
    destruct (split_colon rest) as [|p [|q ps]] eqn:Hsp;
      [contradiction| |discriminate].
    destruct (contains_colon rest) eqn:Hrest.
    + destruct (first_colon rest Hrest) as [h2 [r2 [-> Hh2]]].
      rewrite (split_colon_first h2 r2 Hh2) in Hsp.
      pose proof (split_colon_not_nil r2).
      injection Hsp as _ Hsp. contradiction.
    + rewrite (split_colon_none rest Hrest) in Hsp. injection Hsp as <-.
      destruct (Atoi rest) as [v|] eqn:Hv; [|discriminate].
      intros H. injection H as <-. cbn [host port srv portSet].
      unfold Host, Port, String, OGAddr. cbn [host port srv portSet].
      unfold uint16, wrap_unsigned. change (2 ^ 16) with 65536.
      pose proof (Z.mod_pos_bound v 65536 ltac:(lia)).
      repeat split; try assumption; try lia; try discriminate.
      intros _. exists rest, v. repeat split. exact Hv.
  - intros H. injection H as <-. cbn [host port srv portSet].
    unfold Host, Port, String, OGAddr. cbn [host port srv portSet].
    unfold DefaultPort.
    repeat split; try assumption; try lia; try discriminate.
Qed.

End AddressFacts.

Section SrvFacts.

Import Address AddressParse.

Variable ParseIP : list byte -> bool.

Lemma cut_dot_suffix_dot (t : list byte) :
  cut_dot_suffix (t ++ [Byte.x2e]) = t.
Proof.
  induction t as [|b t IH]; [reflexivity|].
  change ((b :: t) ++ [Byte.x2e]) with (b :: (t ++ [Byte.x2e])).
  destruct t as [|b' t']; [reflexivity|].
  change (cut_dot_suffix (b :: (b' :: t') ++ [Byte.x2e]))
    with (b :: cut_dot_suffix ((b' :: t') ++ [Byte.x2e])).
  rewrite IH. reflexivity.
Qed.

Lemma cut_dot_suffix_other (t : list byte) (b : byte) :
  Byte.eqb b Byte.x2e = false ->
  cut_dot_suffix (t ++ [b]) = t ++ [b].
Proof.
  intros Hb. induction t as [|x t IH].
  - simpl. rewrite Hb. reflexivity.
  - change ((x :: t) ++ [b]) with (x :: (t ++ [b])).
    destruct t as [|x' t'].
    + simpl. rewrite Hb. reflexivity.
    + change (cut_dot_suffix (x :: (x' :: t') ++ [b]))
        with (x :: cut_dot_suffix ((x' :: t') ++ [b])).
      rewrite IH. reflexivity.
Qed.

Lemma New_plain (plain : list byte) :
  contains_colon plain = false ->
  New plain = Ok (mkAddress plain DefaultPort [] 0 false false).
Proof. intros Hp. unfold New. rewrite Hp. reflexivity. Qed.

(** X26.  An address with a port is never redirected.  Whatever the
    resolver answers, [ResolveSRV] on an address that [New] made from a
    string with a colon looks nothing up: it returns no error and leaves
    the address, and so the dial target, as they are. *)
Theorem ResolveSRV_with_port (lookup : list byte -> result (list SRV))
    (addr : list byte) (a : Address.Address) :
  New addr = Ok a ->
  contains_colon addr = true ->
  ResolveSRV ParseIP lookup a = (Ok tt, a)
  /\ String (snd (ResolveSRV ParseIP lookup a)) = (host a, port a).
Proof.
  intros HN Hc. unfold New in HN. rewrite Hc in HN. cbn [negb] in HN.
  assert (Hset : portSet a = true /\ srv a = false).
  { destruct (split_colon addr) as [|h [|p [|q r]]]; try discriminate.
    destruct (Atoi p); [|discriminate]. injection HN as <-. split; reflexivity. }
  destruct Hset as [Hps Hsrv].
  assert (HR : ResolveSRV ParseIP lookup a = (Ok tt, a)).
  { unfold ResolveSRV. rewrite Hps. destruct (IsIP ParseIP a); reflexivity. }
  split; [exact HR|]. rewrite HR. cbn [snd].
  unfold String, OGAddr. rewrite Hsrv. reflexivity.
Qed.

(** X27.  A plain host follows its first SRV record.  For a host given
    without a port that is not an IP address, [ResolveSRV] takes the
    target and the port of the first record, with one trailing dot of the
    target cut off, and [Host], [Port] and [String] answer with them while
    the host that was given is kept; without a record the address is
    unchanged; a failed lookup is returned as an error and the address is
    unchanged as well. *)
Theorem ResolveSRV_plain (found none failed : list byte -> result (list SRV))
    (plain target : list byte) (p : Z) (rs : list SRV) (e : error)
    (a : Address.Address) :
  New plain = Ok a ->
  contains_colon plain = false ->
  ParseIP plain = false ->
  found plain = Ok (mkSRV (target ++ [Byte.x2e]) p :: rs) ->
  none plain = Ok [] ->
  failed plain = Err e ->
  (fst (ResolveSRV ParseIP found a) = Ok tt
   /\ Host (snd (ResolveSRV ParseIP found a)) = target
   /\ Port (snd (ResolveSRV ParseIP found a)) = p
   /\ String (snd (ResolveSRV ParseIP found a)) = (target, p)
   /\ OGAddr (snd (ResolveSRV ParseIP found a)) = (plain, DefaultPort))
  /\ ResolveSRV ParseIP none a = (Ok tt, a)
  /\ ResolveSRV ParseIP failed a
     = (Err (Wrap "failed to resolve SRV record" e), a)
  /\ String a = (plain, DefaultPort).
Proof.
  intros HN Hc Hip Hf Hn He.
  rewrite (New_plain plain Hc) in HN. injection HN as <-.
  unfold ResolveSRV, IsIP. cbn [host portSet port]. rewrite Hip, Hf, Hn, He.
  cbn [fst snd srv_Target srv_Port].
  unfold Host, Port, String, SRVAddr, OGAddr.
  cbn [srv srvHost srvPort host port].
  rewrite cut_dot_suffix_dot. repeat split.
Qed.

End SrvFacts.

Section ConnectFacts.

Import Client.

Variable ParseIP : list byte -> bool.
Variable LookupSRV : list byte -> result (list Address.SRV).
Variable DialTimeout : Address.HostPort -> Z -> result Conn.

(** X28.  The client dials the SRV target.  A client that [NewClient]
    made for a plain host that has an SRV record dials the target and the
    port of the record, and [Host] and [Port], which the handshake
    carries, are those of the record; with the option [WithoutSRV] it
    dials the host that was given on the default port and looks nothing
    up. *)
Theorem connect_follows_srv (plain target : list byte) (p : Z)
    (rs : list Address.SRV) (c d : Client) (k1 k2 : Conn) :
  AddressParse.contains_colon plain = false ->
  ParseIP plain = false ->
  LookupSRV plain = Ok (Address.mkSRV (target ++ [Byte.x2e]) p :: rs) ->
  ClientAPI.NewClient plain [] = Ok c ->
  ClientAPI.NewClient plain [ClientAPI.WithoutSRV] = Ok d ->
  DialTimeout (target, p) DefaultTimeout = Ok k1 ->
  DialTimeout (plain, Address.DefaultPort) DefaultTimeout = Ok k2 ->
  (exists c',
     connect ParseIP LookupSRV DialTimeout c = (Ok tt, c') /\
     conn c' = Some k1 /\ state c' = Connected /\
     Address.Host (addr c') = target /\ Address.Port (addr c') = p)
  /\ connect ParseIP LookupSRV DialTimeout d
     = (Ok tt, set_state Connected (set_conn (Some k2) d))
  /\ Address.Host (addr d) = plain /\ Address.Port (addr d) = Address.DefaultPort.
Proof.
  intros Hc Hip Hl HNc HNd Hd1 Hd2.
  unfold ClientAPI.NewClient in HNc, HNd.
  rewrite (New_plain plain Hc) in HNc, HNd.
  cbn [fold_left] in HNc, HNd. injection HNc as <-. injection HNd as <-.
  split; [|split; [|split]].
  - eexists. split.
    + unfold connect. cbn [state]. change (state_gt Idle Idle) with false.
      cbv iota zeta. unfold resolved. cbn [srv addr].
      unfold Address.ResolveSRV, Address.IsIP.
      cbn [Address.host Address.portSet]. rewrite Hip, Hl.
      cbn [snd set_addr addr timeout Address.srv_Target Address.srv_Port].
      unfold Address.String, Address.SRVAddr.
      cbn [Address.srv Address.srvHost Address.srvPort].
      rewrite cut_dot_suffix_dot, Hd1. reflexivity.
    + cbn [conn state addr set_state set_conn].
      unfold Address.Host, Address.Port.
      cbn [Address.srv Address.srvHost Address.srvPort].
      repeat split.
  - unfold connect, ClientAPI.WithoutSRV. cbn [state addr timeout srv protocol conn].
    change (state_gt Idle Idle) with false. cbv iota zeta.
    unfold resolved. cbn [srv addr timeout].
    unfold Address.String, Address.OGAddr.
    cbn [Address.srv Address.host Address.port]. rewrite Hd2. reflexivity.
  - reflexivity.
  - reflexivity.
Qed.

End ConnectFacts.

Lemma New_with_port_witness :
  AddressParse.New
    (list_byte_of_string "localhost" ++ AddressParse.colon
       :: list_byte_of_string "65537")
  = Ok (Address.mkAddress (list_byte_of_string "localhost") (65537 mod 65536)
          [] 0 false true)
  /\ AddressParse.New
       (list_byte_of_string "localhost" ++ AddressParse.colon :: Byte.x2d
          :: list_byte_of_string "65537")
     = Ok (Address.mkAddress (list_byte_of_string "localhost")
             ((- 65537) mod 65536) [] 0 false true)
  /\ AddressParse.New (list_byte_of_string "localhost" ++ [AddressParse.colon])
     = Err (MsgS "invalid port: %s" (string_of_list_byte [])).
Proof.
  apply (New_with_port (list_byte_of_string "localhost")
           (list_byte_of_string "65537") 65537).
  - reflexivity.
  - discriminate.
  - reflexivity.
  - lia.
Defined.

Lemma New_by_colons_witness :
  AddressParse.New [] = Ok (Address.mkAddress [] Address.DefaultPort [] 0 false false)
  /\ AddressParse.New
       (list_byte_of_string "a" ++ AddressParse.colon
          :: list_byte_of_string "b" ++ AddressParse.colon
          :: list_byte_of_string "1")
     = Err (MsgS "invalid address: %s"
              (string_of_list_byte
                 (list_byte_of_string "a" ++ AddressParse.colon
                    :: list_byte_of_string "b" ++ AddressParse.colon
                    :: list_byte_of_string "1"))).
Proof.
  apply (New_by_colons [] (list_byte_of_string "a") (list_byte_of_string "b")
           (list_byte_of_string "1")).
  reflexivity.
Defined.

Lemma New_returns_witness :
  AddressParse.contains_colon
    (Address.host
       (Address.mkAddress (list_byte_of_string "localhost") 65535 [] 0
          false true)) = false
  /\ 0 <= Address.port
            (Address.mkAddress (list_byte_of_string "localhost") 65535 [] 0
               false true) < 65536
  /\ Address.srv
       (Address.mkAddress (list_byte_of_string "localhost") 65535 [] 0
          false true) = false
  /\ Address.portSet
       (Address.mkAddress (list_byte_of_string "localhost") 65535 [] 0
          false true)
     = AddressParse.contains_colon (list_byte_of_string "localhost:-1")
  /\ (Address.portSet
        (Address.mkAddress (list_byte_of_string "localhost") 65535 [] 0
           false true) = false ->
      Address.host
        (Address.mkAddress (list_byte_of_string "localhost") 65535 [] 0
           false true) = list_byte_of_string "localhost:-1" /\
      Address.port
        (Address.mkAddress (list_byte_of_string "localhost") 65535 [] 0
           false true) = Address.DefaultPort)
  /\ (Address.portSet
        (Address.mkAddress (list_byte_of_string "localhost") 65535 [] 0
           false true) = true ->
      exists p v,
        list_byte_of_string "localhost:-1"
        = Address.host
            (Address.mkAddress (list_byte_of_string "localhost") 65535 [] 0
               false true) ++ AddressParse.colon :: p /\
        AddressParse.Atoi p = Some v /\
        Address.port
          (Address.mkAddress (list_byte_of_string "localhost") 65535 [] 0
             false true) = v mod 65536)
  /\ Address.Host
       (Address.mkAddress (list_byte_of_string "localhost") 65535 [] 0
          false true)
     = Address.host
         (Address.mkAddress (list_byte_of_string "localhost") 65535 [] 0
            false true)
  /\ Address.Port
       (Address.mkAddress (list_byte_of_string "localhost") 65535 [] 0
          false true)
     = Address.port
         (Address.mkAddress (list_byte_of_string "localhost") 65535 [] 0
            false true)
  /\ Address.String
       (Address.mkAddress (list_byte_of_string "localhost") 65535 [] 0
          false true)
     = (Address.host
          (Address.mkAddress (list_byte_of_string "localhost") 65535 [] 0
             false true),
        Address.port
          (Address.mkAddress (list_byte_of_string "localhost") 65535 [] 0
             false true)).
Proof.
  apply (New_returns (list_byte_of_string "localhost:-1")
           (Address.mkAddress (list_byte_of_string "localhost") 65535 [] 0
              false true)).
  reflexivity.
Defined.

Lemma ResolveSRV_with_port_witness :
  Address.ResolveSRV Scenario.no_ip
    (fun _ => Ok [Address.mkSRV (list_byte_of_string "mc.example.org.") 25570])
    (Address.mkAddress (list_byte_of_string "example.org") 25565 [] 0
       false true)
  = (Ok tt,
     Address.mkAddress (list_byte_of_string "example.org") 25565 [] 0
       false true)
  /\ Address.String
       (snd (Address.ResolveSRV Scenario.no_ip
               (fun _ =>
                  Ok [Address.mkSRV (list_byte_of_string "mc.example.org.")
                        25570])
               (Address.mkAddress (list_byte_of_string "example.org") 25565
                  [] 0 false true)))
     = (Address.host
          (Address.mkAddress (list_byte_of_string "example.org") 25565 [] 0
             false true),
        Address.port
          (Address.mkAddress (list_byte_of_string "example.org") 25565 [] 0
             false true)).
Proof.
  apply (ResolveSRV_with_port Scenario.no_ip
           (fun _ =>
              Ok [Address.mkSRV (list_byte_of_string "mc.example.org.") 25570])
           (list_byte_of_string "example.org:25565")
           (Address.mkAddress (list_byte_of_string "example.org") 25565 [] 0
              false true)).
  - reflexivity.
  - reflexivity.
Defined.

Lemma ResolveSRV_plain_witness :
  (fst (Address.ResolveSRV Scenario.no_ip
          (fun _ =>
             Ok (Address.mkSRV
                   (list_byte_of_string "mc.example.org" ++ [Byte.x2e]) 25570
                 :: []))
          (Address.mkAddress (list_byte_of_string "example.org")
             Address.DefaultPort [] 0 false false)) = Ok tt
   /\ Address.Host
        (snd (Address.ResolveSRV Scenario.no_ip
                (fun _ =>
                   Ok (Address.mkSRV
                         (list_byte_of_string "mc.example.org" ++ [Byte.x2e])
                         25570 :: []))
                (Address.mkAddress (list_byte_of_string "example.org")
                   Address.DefaultPort [] 0 false false)))
      = list_byte_of_string "mc.example.org"
   /\ Address.Port
        (snd (Address.ResolveSRV Scenario.no_ip
                (fun _ =>
                   Ok (Address.mkSRV
                         (list_byte_of_string "mc.example.org" ++ [Byte.x2e])
                         25570 :: []))
                (Address.mkAddress (list_byte_of_string "example.org")
                   Address.DefaultPort [] 0 false false)))
      = 25570
   /\ Address.String
        (snd (Address.ResolveSRV Scenario.no_ip
                (fun _ =>
                   Ok (Address.mkSRV
                         (list_byte_of_string "mc.example.org" ++ [Byte.x2e])
                         25570 :: []))
                (Address.mkAddress (list_byte_of_string "example.org")
                   Address.DefaultPort [] 0 false false)))
      = (list_byte_of_string "mc.example.org", 25570)
   /\ Address.OGAddr
        (snd (Address.ResolveSRV Scenario.no_ip
                (fun _ =>
                   Ok (Address.mkSRV
                         (list_byte_of_string "mc.example.org" ++ [Byte.x2e])
                         25570 :: []))
                (Address.mkAddress (list_byte_of_string "example.org")
                   Address.DefaultPort [] 0 false false)))
      = (list_byte_of_string "example.org", Address.DefaultPort))
  /\ Address.ResolveSRV Scenario.no_ip Scenario.no_srv
       (Address.mkAddress (list_byte_of_string "example.org")
          Address.DefaultPort [] 0 false false)
     = (Ok tt,
        Address.mkAddress (list_byte_of_string "example.org")
          Address.DefaultPort [] 0 false false)
  /\ Address.ResolveSRV Scenario.no_ip (fun _ => Err (Msg "no such host"))
       (Address.mkAddress (list_byte_of_string "example.org")
          Address.DefaultPort [] 0 false false)
     = (Err (Wrap "failed to resolve SRV record" (Msg "no such host")),
        Address.mkAddress (list_byte_of_string "example.org")
          Address.DefaultPort [] 0 false false)
  /\ Address.String
       (Address.mkAddress (list_byte_of_string "example.org")
          Address.DefaultPort [] 0 false false)
     = (list_byte_of_string "example.org", Address.DefaultPort).
Proof.
  apply (ResolveSRV_plain Scenario.no_ip
           (fun _ =>
              Ok (Address.mkSRV
                    (list_byte_of_string "mc.example.org" ++ [Byte.x2e]) 25570
                  :: []))
           Scenario.no_srv (fun _ => Err (Msg "no such host"))
           (list_byte_of_string "example.org")
           (list_byte_of_string "mc.example.org") 25570 []
           (Msg "no such host")
           (Address.mkAddress (list_byte_of_string "example.org")
              Address.DefaultPort [] 0 false false)).
  - reflexivity.
  - reflexivity.
  - reflexivity.
  - reflexivity.
  - reflexivity.
  - reflexivity.
Defined.

Lemma connect_follows_srv_witness :
  (exists c',
     Client.connect Scenario.no_ip
       (fun _ =>
          Ok (Address.mkSRV
                (list_byte_of_string "mc.example.org" ++ [Byte.x2e]) 25570
              :: []))
       (Scenario.dial_peer [])
       (Client.mkClient
          (Address.mkAddress (list_byte_of_string "example.org")
             Address.DefaultPort [] 0 false false)
          Client.DefaultTimeout true Client.DefaultProtocol Client.Idle None)
     = (Ok tt, c') /\
     Client.conn c' = Some (Scenario.peer []) /\
     Client.state c' = Client.Connected /\
     Address.Host (Client.addr c') = list_byte_of_string "mc.example.org" /\
     Address.Port (Client.addr c') = 25570)
  /\ Client.connect Scenario.no_ip
       (fun _ =>
          Ok (Address.mkSRV
                (list_byte_of_string "mc.example.org" ++ [Byte.x2e]) 25570
              :: []))
       (Scenario.dial_peer [])
       (Client.mkClient
          (Address.mkAddress (list_byte_of_string "example.org")
             Address.DefaultPort [] 0 false false)
          Client.DefaultTimeout false Client.DefaultProtocol Client.Idle None)
     = (Ok tt,
        Client.set_state Client.Connected
          (Client.set_conn (Some (Scenario.peer []))
             (Client.mkClient
                (Address.mkAddress (list_byte_of_string "example.org")
                   Address.DefaultPort [] 0 false false)
                Client.DefaultTimeout false Client.DefaultProtocol
                Client.Idle None)))
  /\ Address.Host
       (Client.addr
          (Client.mkClient
             (Address.mkAddress (list_byte_of_string "example.org")
                Address.DefaultPort [] 0 false false)
             Client.DefaultTimeout false Client.DefaultProtocol
             Client.Idle None))
     = list_byte_of_string "example.org"
  /\ Address.Port
       (Client.addr
          (Client.mkClient
             (Address.mkAddress (list_byte_of_string "example.org")
                Address.DefaultPort [] 0 false false)
             Client.DefaultTimeout false Client.DefaultProtocol
             Client.Idle None))
     = Address.DefaultPort.
Proof.
  apply (connect_follows_srv Scenario.no_ip
           (fun _ =>
              Ok (Address.mkSRV
                    (list_byte_of_string "mc.example.org" ++ [Byte.x2e]) 25570
                  :: []))
           (Scenario.dial_peer [])
           (list_byte_of_string "example.org")
           (list_byte_of_string "mc.example.org") 25570 []
           (Client.mkClient
              (Address.mkAddress (list_byte_of_string "example.org")
                 Address.DefaultPort [] 0 false false)
              Client.DefaultTimeout true Client.DefaultProtocol Client.Idle None)
           (Client.mkClient
              (Address.mkAddress (list_byte_of_string "example.org")
                 Address.DefaultPort [] 0 false false)
              Client.DefaultTimeout false Client.DefaultProtocol
              Client.Idle None)
           (Scenario.peer []) (Scenario.peer [])).
  - reflexivity.
  - reflexivity.
  - reflexivity.
  - reflexivity.
  - reflexivity.
  - reflexivity.
  - reflexivity.
Defined.

(* ================================================================== *)
(** * Properties of the classification *)

Section Verdicts.

Import Regexp FingerprintBase.
Local Open Scope string_scope.

Variable Unmarshal : string -> DisconnectMsg + error.

Lemma Fingerprint_rev_verdict (m : DisconnectMsg) :
  In (fst (FingerprintRev.Fingerprint m)) FingerprintBase.labels /\
  (snd (FingerprintRev.Fingerprint m) = None \/
   fst (FingerprintRev.Fingerprint m) = Unknown).
Proof.
  unfold FingerprintRev.Fingerprint, labels.
  repeat match goal with
         | |- context [if ?b then _ else _] => destruct b
         | |- context [match With m with _ => _ end] => destruct (With m)
         end;
    cbn [fst snd]; split; auto; cbn; tauto.
Qed.

Lemma Fingerprint_old_verdict (m : DisconnectMsg) :
  In (fst (Fingerprint.Fingerprint m)) FingerprintBase.labels /\
  (snd (Fingerprint.Fingerprint m) = None \/
   fst (Fingerprint.Fingerprint m) = Unknown).
Proof.
  unfold Fingerprint.Fingerprint, labels.
  repeat match goal with
         | |- context [if ?b then _ else _] => destruct b
         | |- context [match With m with _ => _ end] => destruct (With m)
         end;
    cbn [fst snd]; split; auto; cbn; tauto.
Qed.

(** X29.  An error comes with the label [unknown].  Whatever the probe
    returned, the later revision of [FingerprintWithProtocol] answers with
    one of the twelve labels, and whenever it returns an error the label
    is [unknown].  The revision of [fingerprint/fingerprint.go] differs in
    one case: when the disconnect message is not valid JSON it returns the
    error with the empty string for a label. *)
Theorem verdict_error_is_unknown (res : string) (id : Z)
    (err : option error) :
  (In (fst (FingerprintRev.FingerprintWithProtocol Unmarshal res id err))
      FingerprintBase.labels
   /\ (snd (FingerprintRev.FingerprintWithProtocol Unmarshal res id err) = None
       \/ fst (FingerprintRev.FingerprintWithProtocol Unmarshal res id err)
          = Unknown))
  /\ (snd (Fingerprint.FingerprintWithProtocol Unmarshal res id err) = None
      \/ fst (Fingerprint.FingerprintWithProtocol Unmarshal res id err)
         = Unknown
      \/ (fst (Fingerprint.FingerprintWithProtocol Unmarshal res id err) = ""
          /\ exists e, Unmarshal res = inr e
             /\ snd (Fingerprint.FingerprintWithProtocol Unmarshal res id err)
                = Some (Wrap "failed to parse disconnect message" e))).
Proof.
  split.
  - unfold FingerprintRev.FingerprintWithProtocol.
    destruct err as [e|].
    + destruct (errors_Is_EOF e); cbn; tauto.
    + destruct (negb (Z.eqb id Packet.LoginDisconnectID)).
      * unfold FingerprintRev.determineServerState.
        repeat match goal with
               | |- context [if ?b then _ else _] => destruct b
               end; cbn; tauto.
      * destruct (negb (HasPrefix res "{")).
        -- unfold FingerprintRev.parseErrorResponse.
           repeat match goal with
                  | |- context [if ?b then _ else _] => destruct b
                  end; cbn; tauto.
        -- unfold NewDisconnectMsg. destruct (Unmarshal res) as [m|e].
           ++ destruct (FingerprintRev.VersionMismatch m) as [[|] version].
              ** cbn. tauto.
              ** apply Fingerprint_rev_verdict.
           ++ cbn. tauto.
  - unfold Fingerprint.FingerprintWithProtocol.
    destruct err as [e|].
    + destruct (errors_Is_EOF e); cbn; tauto.
    + destruct (Z.eqb id Packet.LoginDisconnectID).
      * destruct (String.eqb res ""); [cbn; tauto|].
        destruct (String.eqb res (quoted throttled)); [cbn; tauto|].
        destruct (MatchString versionMismatch res); [cbn; tauto|].
        destruct (Contains res "Forge"); [cbn; tauto|].
        unfold NewDisconnectMsg. destruct (Unmarshal res) as [m|e] eqn:HU.
        -- destruct (Fingerprint.VersionMismatch m) as [[|] version].
           ++ cbn. tauto.
           ++ destruct (Fingerprint_old_verdict m) as [_ [H|H]]; tauto.
        -- right. right. cbn [fst snd]. split; [reflexivity|].
           exists e. split; reflexivity.
      * repeat match goal with
               | |- context [if ?b then _ else _] => destruct b
               end; cbn; tauto.
Qed.

End Verdicts.

Section TextShapes.

Import Regexp FingerprintBase Messages.
Local Open Scope string_scope.

Lemma string_app_nil_r (s : string) : s ++ "" = s.
Proof. induction s as [|c s IH]; [reflexivity | simpl; rewrite IH; reflexivity]. Qed.

Lemma string_app_assoc (a b c : string) : (a ++ b) ++ c = a ++ b ++ c.
Proof. induction a as [|x a IH]; [reflexivity | simpl; rewrite IH; reflexivity]. Qed.

Lemma string_length_app (a b : string) :
  String.length (a ++ b) = (String.length a + String.length b)%nat.
Proof. induction a as [|x a IH]; [reflexivity | simpl; rewrite IH; reflexivity]. Qed.

Lemma HasPrefix_app (p t : string) : HasPrefix (p ++ t) p = true.
Proof.
  induction p as [|c p IH]; [destruct t; reflexivity|].
  simpl. rewrite Ascii.eqb_refl, IH. reflexivity.
Qed.

Lemma substring_whole (t : string) : substring 0 (String.length t) t = t.
Proof. induction t as [|c t IH]; [reflexivity | simpl; rewrite IH; reflexivity]. Qed.

Lemma substring_skip (p t : string) (m : nat) :
  substring (String.length p) m (p ++ t) = substring 0 m t.
Proof. induction p as [|c p IH]; [reflexivity | simpl; exact IH]. Qed.

Lemma TrimPrefix_app (p t : string) : TrimPrefix (p ++ t) p = t.
Proof.
  unfold TrimPrefix. rewrite HasPrefix_app, string_length_app.
  replace (String.length p + String.length t - String.length p)%nat
    with (String.length t) by lia.
  rewrite substring_skip. apply substring_whole.
Qed.

(** A digit is none of the characters with which the patterns start. *)
Lemma digit_is_not (c : ascii) :
  is_digit c = true ->
  Ascii.eqb " " c = false /\ Ascii.eqb "l" c = false /\
  Ascii.eqb c "l" = false /\ Ascii.eqb "(" c = false /\
  Ascii.eqb "s" c = false.
Proof.
  destruct c as [[] [] [] [] [] [] [] []]; intros H; try discriminate H;
    repeat split.
Qed.

Lemma find_step (r : regex) (bot : bool) (c : ascii) (s : string) :
  match_here r bot (String c s) = None ->
  find r bot (String c s) = after (String c "") (find r false s).
Proof.
  intros H. cbn [find]. rewrite H.
  destruct (find r false s) as [[before rest]|]; reflexivity.
Qed.

Lemma after_after (a b : string) (o : option (string * string)) :
  after a (after b o) = after (a ++ b) o.
Proof.
  destruct o as [[before rest]|]; [|reflexivity].
  simpl. rewrite string_app_assoc. reflexivity.
Qed.

(** The search passes over digits when the pattern starts with no digit. *)
Lemma find_skip_digits (r : regex) :
  (forall c s bot, is_digit c = true -> match_here r bot (String c s) = None) ->
  forall d tail bot,
    all_digits d = true ->
    find r bot (d ++ tail)
    = match d with
      | EmptyString => find r bot tail
      | String _ _ => after d (find r false tail)
      end.
Proof.
  intros Hr d. induction d as [|c d IH]; intros tail bot Hd.
  - reflexivity.
  - cbn [all_digits] in Hd. apply andb_prop in Hd. destruct Hd as [Hc Hd].
    change (String c d ++ tail) with (String c (d ++ tail)).
    rewrite (find_step r bot c (d ++ tail) (Hr c _ bot Hc)).
    rewrite (IH tail false Hd).
    destruct d as [|c' d']; [reflexivity|].
    rewrite after_after. reflexivity.
Qed.

(** A pattern that starts with [^] matches nowhere inside the text. *)
Lemma find_inside_bot (r : regex) (s : string) :
  find (Cat Bot r) false s = None.
Proof.
  induction s as [|c s IH]; [reflexivity|].
  cbn [find]. change (match_here (Cat Bot r) false (String c s)) with (@None string).
  rewrite IH. reflexivity.
Qed.

(** Greedy [\d*] takes all the digits when the rest then matches. *)
Lemma star_digits (d : string) :
  forall rest k fuel bot out,
    all_digits d = true ->
    starts_with_digit rest = false ->
    (String.length d <= fuel)%nat ->
    k (match d with EmptyString => bot | String _ _ => false end) rest
      = Some out ->
    star_loop (one_char is_digit) fuel bot (d ++ rest) k = Some out.
Proof.
  induction d as [|c d IH]; intros rest k fuel bot out Hd Hrest Hfuel Hk.
  - simpl. destruct fuel as [|fuel]; [exact Hk|].
    cbn [star_loop run]. unfold one_char at 1.
    destruct rest as [|c rest]; [exact Hk|].
    cbn [starts_with_digit] in Hrest. rewrite Hrest. exact Hk.
  - cbn [all_digits] in Hd. apply andb_prop in Hd. destruct Hd as [Hc Hd].
    destruct fuel as [|fuel]; [simpl in Hfuel; lia|].
    change (String c d ++ rest) with (String c (d ++ rest)).
    cbn [star_loop run]. unfold one_char at 1. rewrite Hc.
    replace (String.length (d ++ rest) <? String.length (String c (d ++ rest)))%nat
      with true by (symmetry; apply Nat.ltb_lt; simpl; lia).
    rewrite (IH rest k fuel false out Hd Hrest ltac:(simpl in Hfuel; lia)).
    + reflexivity.
    + destruct d; exact Hk.
Qed.

(** Greedy [\d+] likewise. *)
Lemma plus_digits (d rest : string) (k : cont) (bot : bool) (out : string) :
  number d = true ->
  starts_with_digit rest = false ->
  k false rest = Some out ->
  run (Plus Digit) bot (d ++ rest) k = Some out.
Proof.
  intros Hd Hrest Hk. destruct d as [|c d]; [discriminate|].
  cbn [number all_digits] in Hd. apply andb_prop in Hd. destruct Hd as [Hc Hd].
  change (String c d ++ rest) with (String c (d ++ rest)).
  cbn [run]. unfold one_char at 1. rewrite Hc.
  apply (star_digits d rest k _ false out Hd Hrest).
  - rewrite string_length_app. lia.
  - destruct d; exact Hk.
Qed.

End TextShapes.

Section ClassTexts.

Import Regexp FingerprintBase Messages.
Local Open Scope string_scope.

Lemma run_Cat (r1 r2 : regex) (bot : bool) (s : string) (k : cont) :
  run (Cat r1 r2) bot s k = run r1 bot s (fun bot' s' => run r2 bot' s' k).
Proof. reflexivity. Qed.

Lemma run_Alt (r1 r2 : regex) (bot : bool) (s : string) (k : cont) :
  run (Alt r1 r2) bot s k = or_else (run r1 bot s k) (run r2 bot s k).
Proof. reflexivity. Qed.

Lemma find_here (r : regex) (bot : bool) (s rest : string) :
  match_here r bot s = Some rest -> find r bot s = Some ("", rest).
Proof. intros H. destruct s; cbn [find]; rewrite H; reflexivity. Qed.

Lemma run_Bot (r : regex) (s : string) (k : cont) :
  run (Cat Bot r) true s k = run r true s k.
Proof. reflexivity. Qed.

Lemma run_Star (r : regex) (bot : bool) (s : string) (k : cont) :
  run (Star r) bot s k = star_loop (run r) (String.length s) bot s k.
Proof. reflexivity. Qed.

(** A literal against the text that starts with it. *)
Lemma run_lit (p : string) :
  forall s k bot,
    run (lit p) bot (p ++ s) k
    = k (match p with EmptyString => bot | String _ _ => false end) s.
Proof.
  induction p as [|c p IH]; intros s k bot; [reflexivity|].
  destruct p as [|c' p'].
  - cbn [lit run append]. unfold one_char. rewrite Ascii.eqb_refl. reflexivity.
  - change (lit (String c (String c' p')))
      with (Cat (Chr c) (lit (String c' p'))).
    change (String c (String c' p') ++ s)
      with (String c (String c' p' ++ s)).
    rewrite run_Cat. cbn [run]. unfold one_char at 1.
    rewrite Ascii.eqb_refl. rewrite IH. reflexivity.
Qed.

(** A literal against a text that starts with another character. *)
Lemma run_lit_other (c0 : ascii) (p : string) (c : ascii) (s : string)
    (k : cont) (bot : bool) :
  Ascii.eqb c0 c = false ->
  run (lit (String c0 p)) bot (String c s) k = None.
Proof.
  intros H. destruct p as [|c' p'].
  - cbn [lit run]. unfold one_char. rewrite H. reflexivity.
  - change (lit (String c0 (String c' p')))
      with (Cat (Chr c0) (lit (String c' p'))).
    rewrite run_Cat. cbn [run]. unfold one_char at 1. rewrite H. reflexivity.
Qed.

Lemma find_skip_inside (r : regex) (d tail : string) :
  (forall c s bot, is_digit c = true -> match_here r bot (String c s) = None) ->
  all_digits d = true ->
  find r false (d ++ tail) = after d (find r false tail).
Proof.
  intros Hr Hd. rewrite (find_skip_digits r Hr d tail false Hd).
  destruct d; [|reflexivity].
  destruct (find r false tail) as [[before rest]|]; reflexivity.
Qed.

(** The search for the decoder's complaint in a text of the shape
    [a/b (class_n)] followed by the complaint. *)
Lemma find_complaint (r : regex) (a b n x y : string) :
  (forall c s bot, Ascii.eqb " " c = false ->
                   match_here r bot (String c s) = None) ->
  (forall s bot, match_here r bot (String " " (String "(" s)) = None) ->
  match_here r false (larger_tail x y) = Some "" ->
  number a = true -> all_digits b = true -> all_digits n = true ->
  find r true (a ++ "/" ++ b ++ " (class_" ++ n ++ ")" ++ larger_tail x y)
  = Some (a ++ "/" ++ b ++ " (class_" ++ n ++ ")", "").
Proof.
  intros Hother Hparen Htail Ha Hb Hn.
  assert (Hdig : forall c s bot, is_digit c = true ->
                                 match_here r bot (String c s) = None).
  { intros c s bot Hc. apply Hother. apply (digit_is_not c Hc). }
  destruct a as [|c a]; [discriminate|].
  rewrite (find_skip_digits r Hdig (String c a) _ true Ha).
  cbn [append].
  rewrite (find_step r false "/"%char _ (Hother "/"%char _ _ eq_refl)).
  rewrite (find_skip_inside r b _ Hdig Hb).
  rewrite (find_step r false " "%char _ (Hparen _ _)).
  rewrite (find_step r false "("%char _ (Hother "("%char _ _ eq_refl)).
  rewrite (find_step r false "c"%char _ (Hother "c"%char _ _ eq_refl)).
  rewrite (find_step r false "l"%char _ (Hother "l"%char _ _ eq_refl)).
  rewrite (find_step r false "a"%char _ (Hother "a"%char _ _ eq_refl)).
  rewrite (find_step r false "s"%char _ (Hother "s"%char _ _ eq_refl)).
  rewrite (find_step r false "s"%char _ (Hother "s"%char _ _ eq_refl)).
  rewrite (find_step r false "_"%char _ (Hother "_"%char _ _ eq_refl)).
  rewrite (find_skip_inside r n _ Hdig Hn).
  rewrite (find_step r false ")"%char _ (Hother ")"%char _ _ eq_refl)).
  assert (Hf : find r false (larger_tail x y) = Some ("", "")).
  { unfold larger_tail in *. cbn [append find] in *. rewrite Htail. reflexivity. }
  rewrite Hf. cbn [after append].
  rewrite ?string_app_nil_r. reflexivity.
Qed.

(** Deleting the one match that reaches the end of the text. *)
Lemma delete_to_end (r : regex) (src before : string) :
  find r true src = Some (before, "") ->
  match_here r false "" = None ->
  ReplaceAllString_empty r src = before.
Proof.
  intros Hf He. unfold ReplaceAllString_empty. cbn [delete_all]. rewrite Hf.
  destruct (String.length before + String.length "" <? String.length src)%nat;
    [|reflexivity].
  destruct (String.length src); cbn [delete_all find].
  - apply string_app_nil_r.
  - rewrite He. apply string_app_nil_r.
Qed.

(** Deleting the one match at the beginning of the text. *)
Lemma delete_at_start (r : regex) (src rest : string) :
  find r true src = Some ("", rest) ->
  (String.length rest < String.length src)%nat ->
  find r false rest = None ->
  ReplaceAllString_empty r src = rest.
Proof.
  intros Hf Hlen Hn. unfold ReplaceAllString_empty. cbn [delete_all].
  rewrite Hf.
  replace (String.length "" + String.length rest <? String.length src)%nat
    with true by (symmetry; apply Nat.ltb_lt; simpl; lia).
  destruct (String.length src) as [|l]; [lia|].
  cbn [delete_all]. rewrite Hn. reflexivity.
Qed.

(** The complaint itself, under the pattern of either revision. *)
Lemma complaint_old (x y : string) :
  number x = true -> number y = true ->
  match_here Fingerprint.re false (larger_tail x y) = Some "".
Proof.
  intros Hx Hy. unfold match_here, Fingerprint.re, larger_tail. cbn [seq].
  rewrite run_Cat, run_lit. rewrite run_Cat.
  apply plus_digits; [exact Hx | reflexivity |].
  rewrite run_Cat, run_lit. rewrite run_Cat.
  rewrite <- (string_app_nil_r y).
  apply plus_digits; [exact Hy | reflexivity | reflexivity].
Qed.

Lemma complaint_rev (x y : string) :
  number x = true -> number y = true ->
  match_here FingerprintRev.larger_than_expected false (larger_tail x y)
  = Some "".
Proof.
  intros Hx Hy.
  unfold match_here, FingerprintRev.larger_than_expected, larger_tail.
  cbn [seq].
  rewrite run_Cat, run_lit. rewrite run_Cat, run_Alt.
  rewrite (plus_digits x (" bytes extra whilst reading packet " ++ y) _
             false "" Hx eq_refl); [reflexivity|].
  rewrite run_Cat, run_lit. rewrite run_Cat, run_Alt.
  rewrite <- (string_app_nil_r y).
  rewrite (plus_digits y "" _ false "" Hy eq_refl); reflexivity.
Qed.

Lemma complaint_old_other (c : ascii) (s : string) (bot : bool) :
  Ascii.eqb " " c = false ->
  match_here Fingerprint.re bot (String c s) = None.
Proof.
  intros H. unfold match_here, Fingerprint.re. cbn [seq].
  rewrite run_Cat. apply run_lit_other. exact H.
Qed.

Lemma complaint_rev_other (c : ascii) (s : string) (bot : bool) :
  Ascii.eqb " " c = false ->
  match_here FingerprintRev.larger_than_expected bot (String c s) = None.
Proof.
  intros H. unfold match_here, FingerprintRev.larger_than_expected.
  cbn [seq]. rewrite run_Cat. apply run_lit_other. exact H.
Qed.

(** What is left of a class text once the complaint is deleted. *)
Lemma strip_old (a b n x y : string) :
  number a = true -> all_digits b = true -> all_digits n = true ->
  number x = true -> number y = true ->
  ReplaceAllString_empty Fingerprint.re
    (a ++ "/" ++ b ++ " (class_" ++ n ++ ")" ++ larger_tail x y)
  = a ++ "/" ++ b ++ " (class_" ++ n ++ ")".
Proof.
  intros Ha Hb Hn Hx Hy.
  apply delete_to_end; [|reflexivity].
  apply find_complaint; try assumption.
  - apply complaint_old_other.
  - intros s bot. reflexivity.
  - apply complaint_old; assumption.
Qed.

Lemma strip_rev (a b n x y : string) :
  number a = true -> all_digits b = true -> all_digits n = true ->
  number x = true -> number y = true ->
  ReplaceAllString_empty FingerprintRev.larger_than_expected
    (a ++ "/" ++ b ++ " (class_" ++ n ++ ")" ++ larger_tail x y)
  = a ++ "/" ++ b ++ " (class_" ++ n ++ ")".
Proof.
  intros Ha Hb Hn Hx Hy.
  apply delete_to_end; [|reflexivity].
  apply find_complaint; try assumption.
  - apply complaint_rev_other.
  - intros s bot. reflexivity.
  - apply complaint_rev; assumption.
Qed.

(** The later revision then deletes the state and the packet. *)
Lemma strip_state (a b n : string) :
  number a = true -> number b = true ->
  ReplaceAllString_empty FingerprintRev.state_channel
    (a ++ "/" ++ b ++ " (class_" ++ n ++ ")")
  = "(class_" ++ n ++ ")".
Proof.
  intros Ha Hb.
  apply delete_at_start.
  - unfold FingerprintRev.state_channel. cbn [seq].
    assert (Hm : match_here
                   (Cat Bot
                      (Cat (Alt (lit "login") (Plus Digit))
                         (Cat (lit "/")
                            (Cat (Alt (lit FingerprintRev.hello) (Plus Digit))
                               (lit " ")))))
                   true (a ++ "/" ++ b ++ " (class_" ++ n ++ ")")
                 = Some ("(class_" ++ n ++ ")")).
    { unfold match_here. rewrite run_Bot.
      rewrite run_Cat, run_Alt.
      destruct a as [|c a]; [discriminate|].
      assert (Hc : is_digit c = true).
      { cbn [number all_digits] in Ha. apply andb_prop in Ha. apply Ha. }
      change (String c a ++ "/" ++ b ++ " (class_" ++ n ++ ")")
        with (String c (a ++ "/" ++ b ++ " (class_" ++ n ++ ")")).
      rewrite (run_lit_other "l" "ogin" c _ _ true
                 (proj1 (proj2 (digit_is_not c Hc)))).
      cbn [or_else].
      change (String c (a ++ "/" ++ b ++ " (class_" ++ n ++ ")"))
        with (String c a ++ "/" ++ b ++ " (class_" ++ n ++ ")").
      apply plus_digits; [exact Ha | reflexivity |].
      rewrite run_Cat, run_lit. rewrite run_Cat, run_Alt.
      destruct b as [|c' b]; [discriminate|].
      assert (Hc' : is_digit c' = true).
      { cbn [number all_digits] in Hb. apply andb_prop in Hb. apply Hb. }
      change (String c' b ++ " (class_" ++ n ++ ")")
        with (String c' (b ++ " (class_" ++ n ++ ")")).
      unfold FingerprintRev.hello.
      rewrite (run_lit_other "s" "erverbound/minecraft:hello" c' _ _ false
                 (proj2 (proj2 (proj2 (proj2 (digit_is_not c' Hc')))))).
      cbn [or_else].
      change (String c' (b ++ " (class_" ++ n ++ ")"))
        with (String c' b ++ " (class_" ++ n ++ ")").
      apply plus_digits; [exact Hb | reflexivity |].
      reflexivity. }
    exact (find_here _ _ _ _ Hm).
  - rewrite !string_length_app. simpl. lia.
  - unfold FingerprintRev.state_channel. cbn [seq]. apply find_inside_bot.
Qed.

(** The class text under the patterns of the two revisions. *)
Lemma class_is_fabric_old (a b n : string) :
  number a = true -> number b = true -> all_digits n = true ->
  MatchString Fingerprint.fabricRe (a ++ "/" ++ b ++ " (class_" ++ n ++ ")")
  = true.
Proof.
  intros Ha Hb Hn. unfold MatchString.
  assert (Hm : match_here Fingerprint.fabricRe true
                 (a ++ "/" ++ b ++ " (class_" ++ n ++ ")") = Some "").
  { unfold match_here, Fingerprint.fabricRe. cbn [seq].
    rewrite run_Bot. rewrite run_Cat.
    apply plus_digits; [exact Ha | reflexivity |].
    rewrite run_Cat, run_lit. rewrite run_Cat.
    apply plus_digits; [exact Hb | reflexivity |].
    rewrite run_Cat, run_lit. rewrite run_Cat, run_Star.
    apply star_digits; [exact Hn | reflexivity | |].
    - rewrite string_length_app. lia.
    - destruct n; reflexivity. }
  rewrite (find_here _ _ _ _ Hm). reflexivity.
Qed.

Lemma class_is_fabric_rev (n : string) :
  all_digits n = true ->
  MatchString FingerprintRev.fabricRe ("(class_" ++ n ++ ")") = true.
Proof.
  intros Hn. unfold MatchString.
  assert (Hm : match_here FingerprintRev.fabricRe true
                 ("(class_" ++ n ++ ")") = Some "").
  { unfold match_here, FingerprintRev.fabricRe. cbn [seq].
    rewrite run_Bot.
    rewrite run_Cat, run_lit. rewrite run_Cat, run_Star.
    apply star_digits; [exact Hn | reflexivity | |].
    - rewrite string_length_app. lia.
    - destruct n; reflexivity. }
  rewrite (find_here _ _ _ _ Hm). reflexivity.
Qed.

Lemma class_is_not_vanilla_old (c : ascii) (s : string) :
  is_digit c = true ->
  MatchString Fingerprint.vanillaRe (String c s) = false.
Proof.
  intros Hc. unfold MatchString, Fingerprint.vanillaRe. cbn [seq find].
  replace (match_here
             (Cat Bot (Cat (lit "login/0 (")
                         (Cat (RepeatLazy 2 3 Dot) (Cat (lit ")") Eot))))
             true (String c s)) with (@None string).
  - rewrite find_inside_bot. reflexivity.
  - symmetry. unfold match_here. rewrite run_Bot.
    rewrite run_Cat.
    apply (run_lit_other "l" "ogin/0 (" c s _ true).
    apply (digit_is_not c Hc).
Qed.

Lemma class_is_not_vanilla_rev (n : string) :
  MatchString FingerprintRev.vanillaRe ("(class_" ++ n ++ ")") = false.
Proof.
  unfold MatchString, FingerprintRev.vanillaRe. cbn [seq append find].
  change (match_here
            (Cat Bot (Cat (lit "(")
                        (Cat (RepeatLazy 2 3 Dot) (Cat (lit ")") Eot))))
            true
            (String "(" (String "c" (String "l" (String "a" (String "s"
               (String "s" (String "_" (n ++ ")")))))))))
    with (@None string).
  rewrite find_inside_bot. reflexivity.
Qed.

(** X30.  Every class text is Fabric.  A disconnect message with the
    topic [disconnect.genericReason] whose first argument is the decoder's
    complaint about a packet [a/b (class_n)], for any numbers [a] and [b],
    any digits [n] and any numbers of bytes and of the packet in the
    complaint, is classified as [fabric] with no error, by both revisions
    of [Fingerprint]. *)
Theorem class_text_is_fabric (m : DisconnectMsg) (others : list string)
    (a b n x y : string) :
  Translate m = "disconnect.genericReason" ->
  With m = class_text a b n x y :: others ->
  Text m <> velocity_text ->
  Text m <> throttled ->
  number a = true -> number b = true -> all_digits n = true ->
  number x = true -> number y = true ->
  Fingerprint.Fingerprint m = (Fabric, None)
  /\ FingerprintRev.Fingerprint m = (Fabric, None).
Proof.
  intros Htr Hwith Hvel Hthr Ha Hb Hn Hx Hy.
  apply String.eqb_neq in Hvel, Hthr.
  assert (Hb' : all_digits b = true) by (destruct b; [discriminate | exact Hb]).
  split.
  - unfold Fingerprint.Fingerprint.
    rewrite Hvel, Hthr, Htr, Hwith.
    change (String.eqb "disconnect.genericReason" "") with false.
    change (negb (String.eqb "disconnect.genericReason"
                    "disconnect.genericReason")
            && negb (String.eqb "disconnect.genericReason" "%s")) with false.
    cbv iota zeta. unfold class_text.
    rewrite TrimPrefix_app, (strip_old a b n x y Ha Hb' Hn Hx Hy).
    rewrite (class_is_fabric_old a b n Ha Hb Hn).
    destruct a as [|c a]; [discriminate|].
    assert (Hc : is_digit c = true).
    { cbn [number all_digits] in Ha. apply andb_prop in Ha. apply Ha. }
    change (String c a ++ "/" ++ b ++ " (class_" ++ n ++ ")")
      with (String c (a ++ "/" ++ b ++ " (class_" ++ n ++ ")")).
    rewrite (class_is_not_vanilla_old c _ Hc).
    cbn [String.eqb].
    rewrite (proj1 (proj2 (proj2 (digit_is_not c Hc)))). reflexivity.
  - unfold FingerprintRev.Fingerprint.
    rewrite Hvel, Hthr, Htr, Hwith.
    change (String.eqb "disconnect.genericReason" "") with false.
    change (negb (String.eqb "disconnect.genericReason"
                    "disconnect.genericReason")
            && negb (String.eqb "disconnect.genericReason" "%s")) with false.
    cbv iota zeta. unfold class_text.
    rewrite TrimPrefix_app, (strip_rev a b n x y Ha Hb' Hn Hx Hy).
    rewrite (strip_state a b n Ha Hb).
    rewrite (class_is_not_vanilla_rev n), (class_is_fabric_rev n Hn).
    reflexivity.
Qed.

End ClassTexts.

Lemma class_text_is_fabric_witness :
  Fingerprint.Fingerprint
    (FingerprintBase.mkDisconnectMsg "disconnect.genericReason"
       [Messages.class_text "0" "0" "2915" "1" "0"] "")
  = (FingerprintBase.Fabric, None)
  /\ FingerprintRev.Fingerprint
       (FingerprintBase.mkDisconnectMsg "disconnect.genericReason"
          [Messages.class_text "0" "0" "2915" "1" "0"] "")
     = (FingerprintBase.Fabric, None).
Proof.
  apply (class_text_is_fabric
           (FingerprintBase.mkDisconnectMsg "disconnect.genericReason"
              [Messages.class_text "0" "0" "2915" "1" "0"] "")
           [] "0" "0" "2915" "1" "0"); try reflexivity.
  - simpl. discriminate.
  - simpl. discriminate.
Defined.

